(** * DataJud Locar pipeline: retrieval and classification

    A shallow embedding of [datajud_locar_pipeline_v2.py]: the paginated
    tribunal query [buscar_processos], the movement classification it runs
    on every hit, and the aggregation and deduplication of [main].

    Python values that come out of [resp.json()] are modelled by [json];
    an operation that raises in Python returns [Raise] here.  A [str] is
    held as the bytes of its UTF-8 encoding: substring tests and equality
    agree with those on code points, and the two operations that count
    code points ([s[:10]] and iteration over a string) go through
    [utf8_chars]. *)

From Stdlib Require Import ZArith List String Ascii Bool Lia DecimalString.
Import ListNotations.

Open Scope string_scope.
Open Scope list_scope.
Open Scope Z_scope.

Infix "+++" := String.append (at level 60, right associativity).

(** ** Python values and exceptions *)

Set Warnings "-register-all".

(** A Python [float], a double: not a number, an infinity, or the value
    [m * 2^e], negated when [neg] is set. *)
Inductive pyfloat : Type :=
| FNan
| FInf (neg : bool)
| FFin (neg : bool) (m : N) (e : Z).

(** What [json.loads] builds, and what a frame of pandas gives back.  A
    number is an [int] ([JNum]) or a [float] ([JFloat]).  A dict is its
    items in insertion order, keys distinct, read by the first binding. *)
Inductive json : Type :=
| JNull
| JBool (b : bool)
| JNum (n : Z)
| JStr (s : string)
| JList (l : list json)
| JDict (d : list (string * json))
| JFloat (x : pyfloat).

Inductive exn : Type :=
| AttributeError
| TypeError
| OverflowError
| SystemExit (code : Z).

Inductive result (A : Type) : Type :=
| Return (a : A)
| Raise (e : exn).

Arguments Return {A} a.
Arguments Raise {A} e.

Definition rbind {A B : Type} (r : result A) (k : A -> result B) : result B :=
  match r with
  | Return a => k a
  | Raise e => Raise e
  end.

Declare Scope result_scope.
Delimit Scope result_scope with res.
Notation "x <- c ;; k" := (rbind c (fun x => k))
  (at level 100, c at next level, right associativity) : result_scope.
Open Scope result_scope.

(** [bool(v)]: what [if v], [not v] and [v or w] test. *)
Definition truthy (v : json) : bool :=
  match v with
  | JNull => false
  | JBool b => b
  | JNum n => negb (n =? 0)
  | JStr s => negb (s =? "")%string
  | JList l => match l with [] => false | _ => true end
  | JDict d => match d with [] => false | _ => true end
  | JFloat (FFin _ m _) => negb (m =? 0)%N
  | JFloat _ => true
  end.

Fixpoint lookup (k : string) (d : list (string * json)) : option json :=
  match d with
  | [] => None
  | (k', v) :: d' => if (k =? k')%string then Some v else lookup k d'
  end.

(** [v.get(k, default)]: only a dict has the method. *)
Definition py_get (v : json) (k : string) (default : json) : result json :=
  match v with
  | JDict d => Return (match lookup k d with Some x => x | None => default end)
  | _ => Raise AttributeError
  end.

(** ** Strings *)

(** A byte 10xxxxxx continues the code point opened before it. *)
Definition is_cont (c : ascii) : bool :=
  let n := nat_of_ascii c in (128 <=? n)%nat && (n <? 192)%nat.

Fixpoint utf8_chars_aux (s : string) : string * list string :=
  match s with
  | EmptyString => (EmptyString, [])
  | String c s' =>
      let (pend, cs) := utf8_chars_aux s' in
      if is_cont c then (String c pend, cs) else (EmptyString, String c pend :: cs)
  end.

(** The code points of a string, each as a one-character string. *)
Definition utf8_chars (s : string) : list string := snd (utf8_chars_aux s).

Definition str_concat (l : list string) : string :=
  fold_right String.append EmptyString l.

(** [s[:n]] *)
Definition str_slice_to (n : nat) (s : string) : string :=
  str_concat (firstn n (utf8_chars s)).

(** [needle in hay] *)
Fixpoint contains (needle hay : string) : bool :=
  if prefix needle hay then true
  else match hay with
       | EmptyString => false
       | String _ hay' => contains needle hay'
       end.

(** [sep.join(l)] on a list of [str] *)
Fixpoint join (sep : string) (l : list string) : string :=
  match l with
  | [] => EmptyString
  | [s] => s
  | s :: l' => s +++ sep +++ join sep l'
  end.

Definition nl : string := String (ascii_of_nat 10) EmptyString.

(** ** Iteration *)

(** [iter(v)]: the elements a [for] loop visits.  A list gives its
    elements, a string its characters, a dict its keys; nothing else in
    [json] is iterable. *)
Definition py_iter (v : json) : result (list json) :=
  match v with
  | JList l => Return l
  | JStr s => Return (map JStr (utf8_chars s))
  | JDict d => Return (map (fun kv => JStr (fst kv)) d)
  | _ => Raise TypeError
  end.

(** [reversed(v)] (a dict is reversible from Python 3.8 on) *)
Definition py_reversed (v : json) : result (list json) :=
  l <- py_iter v ;; Return (rev l).

(** [len(v)] *)
Definition py_len (v : json) : result Z :=
  l <- py_iter v ;; Return (Z.of_nat (List.length l)).

(** [sep.join(v)]: every element has to be a [str]. *)
Fixpoint all_str (l : list json) : result (list string) :=
  match l with
  | [] => Return []
  | JStr s :: l' => r <- all_str l' ;; Return (s :: r)
  | _ :: _ => Raise TypeError
  end.

Definition py_join (sep : string) (v : json) : result string :=
  l <- py_iter v ;; ss <- all_str l ;; Return (join sep ss).

(** ** Dates *)

(** A [datetime.date] is held as its proleptic Gregorian ordinal
    ([date.toordinal()]): 0001-01-01 is 1 and 9999-12-31 is 3652059.
    Dates compare as their ordinals. *)
Definition date : Type := Z.

Definition MINORD : Z := 1.
Definition MAXORD : Z := 3652059.
Definition MAX_DELTA_DAYS : Z := 999999999.

(** [d - timedelta(days=n)]: the timedelta is refused beyond
    [MAX_DELTA_DAYS], the difference outside [date.min .. date.max]. *)
Definition date_sub_days (d : date) (n : Z) : result date :=
  if MAX_DELTA_DAYS <? Z.abs n then Raise OverflowError
  else let o := d - n in
       if (MINORD <=? o) && (o <=? MAXORD) then Return o else Raise OverflowError.

(** ** Vocabularies and records *)

Definition BASE_URL : string := "https://api-publica.datajud.cnj.jus.br/api_publica_".

Definition KEYWORDS_PRAZO : list string :=
  [ "prazo"; "intimação"; "manifestação"; "apresentar defesa"; "apresentar";
    "contestação"; "contrarrações"; "embargos"; "notificação"; "resposta";
    "recurso"; "juntada de petição" ].

Definition KEYWORDS_DECISAO : list string :=
  [ "sentença"; "acórdão"; "decisão"; "despacho"; "homologação"; "julgado";
    "julgamento"; "proferida"; "deferida"; "indeferida" ].

Definition KEYWORDS_EXECUCAO : list string :=
  [ "execução"; "cumprimento"; "penhora"; "bloqueio"; "exequente"; "exequido";
    "expedição de alvará"; "leilão"; "arrematação" ].

(** [any(keyword in desc for keyword in keywords)] *)
Definition any_keyword (keywords : list string) (desc : string) : bool :=
  existsb (fun keyword => contains keyword desc) keywords.

(** The dict appended to [resultados], one field per key. *)
Record registro : Type := mk_registro {
  cnj : json;
  tribunal : string;
  grau : json;
  classe : json;
  assunto : string;
  orgao : json;
  status : json;
  partes : string;
  dt_distribuicao : json;
  qtd_movimentos : Z;
  prazos_relevantes : string;
  resumo_decisao : json;
  fase_execucao : string
}.

Definition page_size : Z := 100.

(** ** The outside world *)

(** What the [try] block of a page yields: the parsed body, or the
    exception that [session.post], [raise_for_status] or [resp.json]
    raised, as the text the warning prints. *)
Inductive resposta : Type :=
| Falha (exc : string)
| Dados (data : json).

(** What a run does that can be seen from outside: the requests it sends
    and the lines it prints. *)
Inductive evento : Type :=
| EvPost (endpoint : string) (body : json) (resp : resposta)
| EvWarnFalha (tribunal : string) (pagina : Z) (exc : string)
| EvConsultando (tribunal : string)
| EvEncontrados (n : Z)
| EvTotal (n : Z)
| EvErroData (desde : string)
| EvParserError
| EvCreateSession.

Definition is_network (e : evento) : bool :=
  match e with EvPost _ _ _ | EvCreateSession => true | _ => false end.

(** How the page loop is left. *)
Inductive controle : Type := Continue | Break.

(** The namespace [parser.parse_args] returns, without the export paths. *)
Record argumentos : Type := mk_argumentos {
  arg_nome : option string;
  arg_cnpj : option string;
  arg_tribunais : list string;
  arg_max_paginas : Z;
  arg_desde : option string;
  arg_since_days : option Z;
  arg_selftest : bool
}.

Definition opt_truthy (o : option string) : bool :=
  match o with
  | Some s => negb (s =? "")%string
  | None => false
  end.

(** [range(n)] *)
Definition py_range (n : Z) : list Z := map Z.of_nat (seq 0 (Z.to_nat n)).

Definition gerar_dados_teste : list registro :=
  [ {| cnj := JStr "0000000-00.2020.8.99.9999";
       tribunal := "TJXX";
       grau := JStr "1";
       classe := JStr "Procedimento Comum";
       assunto := "Contrato";
       orgao := JStr "Vara Única";
       status := JStr "Em andamento";
       partes := "AUTOR: Empresa A; RÉU: Empresa B";
       dt_distribuicao := JStr "2020-01-01";
       qtd_movimentos := 10;
       prazos_relevantes := "2020-02-01T00:00:00Z: Intimação para manifestação";
       resumo_decisao := JStr "Decisão interlocutória proferida.";
       fase_execucao := "Não" |};
    {| cnj := JStr "1111111-11.2021.8.99.9999";
       tribunal := "TJYY";
       grau := JStr "2";
       classe := JStr "Execução";
       assunto := "Cobrança";
       orgao := JStr "Turma Recursal";
       status := JStr "Sentenciado";
       partes := "EXEQUENTE: Fulano; EXECUTADO: Sicrano";
       dt_distribuicao := JStr "2021-05-10";
       qtd_movimentos := 8;
       prazos_relevantes := "";
       resumo_decisao := JStr "Sentença de mérito.";
       fase_execucao := "Sim" |} ].

(** ** The pipeline *)

(** The Python library and the clock are taken as given: [str.lower],
    [str.upper] and [str.strip]; [str(v)] for a value that is not a
    string, as an f-string renders it; [date.fromisoformat], with [None]
    for a [ValueError]; the day [date.today()] returns; and the option
    [future.infer_string] of pandas, off before pandas 3 and on from
    it. *)
Class PyLib : Type := {
  lower : string -> string;
  upper : string -> string;
  strip : string -> string;
  py_str : json -> string;
  fromisoformat : string -> option date;
  hoje : date;
  infer_string : bool
}.

(** The transport: the state of whatever answers the requests, and the
    answer to one [session.post(endpoint, json=body)]. *)
Class Transporte : Type := {
  Net : Type;
  http_post : Net -> string -> json -> resposta * Net
}.

Section Pipeline.

Context {lib : PyLib} {tr : Transporte}.

(** [v.lower()]: a method of [str] only. *)
Definition py_lower (v : json) : result string :=
  match v with
  | JStr s => Return (lower s)
  | _ => Raise AttributeError
  end.

(** [f"{v}"] *)
Definition py_format (v : json) : string :=
  match v with
  | JStr s => s
  | _ => py_str v
  end.

(** Slicing anything but a string either raises or gives a value that
    [fromisoformat] refuses with a [TypeError]; [except Exception] turns
    both into [None]. *)
Definition parse_date (date_str : json) : option date :=
  match date_str with
  | JStr s => fromisoformat (str_slice_to 10 s)
  | _ => None
  end.

(** *** Classification of the movements (lines 213-233) *)

(** [for m in movimentos: ... prazos.append(...)] *)
Fixpoint prazos_loop (ms : list json) (prazos : list string) : result (list string) :=
  match ms with
  | [] => Return prazos
  | m :: ms' =>
      d <- py_get m "descricao" (JStr "") ;;
      desc <- py_lower d ;;
      if any_keyword KEYWORDS_PRAZO desc then
        timestamp <- py_get m "dataHora" (JStr "") ;;
        d' <- py_get m "descricao" (JStr "") ;;
        prazos_loop ms' (prazos ++ [py_format timestamp +++ ": " +++ py_format d'])
      else prazos_loop ms' prazos
  end.

Definition extrair_prazos (movimentos : json) : result (list string) :=
  ms <- py_iter movimentos ;; prazos_loop ms [].

(** [for m in reversed(movimentos): ... break], over the reversed list *)
Fixpoint resumo_loop (ms : list json) : result json :=
  match ms with
  | [] => Return (JStr "")
  | m :: ms' =>
      d <- py_get m "descricao" (JStr "") ;;
      desc <- py_lower d ;;
      if any_keyword KEYWORDS_DECISAO desc then py_get m "descricao" (JStr "")
      else resumo_loop ms'
  end.

Definition extrair_resumo_decisao (movimentos : json) : result json :=
  ms <- py_reversed movimentos ;; resumo_loop ms.

(** The inner [for keyword in KEYWORDS_EXECUCAO] of the generator: the
    description is read and lower-cased again for every keyword. *)
Fixpoint fase_keywords (m : json) (keywords : list string) : result bool :=
  match keywords with
  | [] => Return false
  | keyword :: keywords' =>
      d <- py_get m "descricao" (JStr "") ;;
      desc <- py_lower d ;;
      if contains keyword desc then Return true else fase_keywords m keywords'
  end.

(** [any(... for m in movimentos for keyword in KEYWORDS_EXECUCAO)] *)
Fixpoint fase_loop (ms : list json) : result bool :=
  match ms with
  | [] => Return false
  | m :: ms' =>
      b <- fase_keywords m KEYWORDS_EXECUCAO ;;
      if b then Return true else fase_loop ms'
  end.

Definition extrair_fase_execucao (movimentos : json) : result bool :=
  ms <- py_iter movimentos ;; fase_loop ms.

(** *** One hit (lines 207-251) *)

(** [desde and dt_dist and dt_dist < desde]: a date is always true. *)
Definition antes_de (desde dt_dist : option date) : bool :=
  match desde, dt_dist with
  | Some d, Some dd => dd <? d
  | _, _ => false
  end.

(** The generator handed to ["; ".join]. *)
Fixpoint partes_fmt (ps : list json) : result (list string) :=
  match ps with
  | [] => Return []
  | parte :: ps' =>
      t <- py_get parte "tipoParte" (JStr "") ;;
      n <- py_get parte "nome" (JStr "") ;;
      r <- partes_fmt ps' ;;
      Return ((py_format t +++ ": " +++ py_format n) :: r)
  end.

(** Lines 212-251: the classification of the movements of a retained
    hit and the dict built from it, values in the order the dict
    display evaluates them. *)
Definition montar_registro (tribunal : string) (src : json) : result registro :=
  movimentos <- py_get src "movimentos" (JList []) ;;
  prazos <- extrair_prazos movimentos ;;
  let prazos_txt := join nl prazos in
  resumo <- extrair_resumo_decisao movimentos ;;
  fase <- extrair_fase_execucao movimentos ;;
  v_cnj <- py_get src "numeroProcesso" JNull ;;
  v_grau <- py_get src "grau" JNull ;;
  v_classe <- py_get src "classeProcessual" JNull ;;
  assuntos <- py_get src "assuntosProcessuais" (JList []) ;;
  v_assunto <- py_join ", " (if truthy assuntos then assuntos else JList []) ;;
  oj <- py_get src "orgaoJulgador" (JDict []) ;;
  v_orgao <- py_get oj "nomeOrgao" JNull ;;
  v_status <- py_get src "situacaoProcessual" JNull ;;
  ps <- py_get src "partes" (JList []) ;;
  psl <- py_iter ps ;;
  pss <- partes_fmt psl ;;
  v_dt <- py_get src "dataDistribuicao" JNull ;;
  n <- py_len movimentos ;;
  Return {| cnj := v_cnj;
            tribunal := upper tribunal;
            grau := v_grau;
            classe := v_classe;
            assunto := v_assunto;
            orgao := v_orgao;
            status := v_status;
            partes := join "; " pss;
            dt_distribuicao := v_dt;
            qtd_movimentos := n;
            prazos_relevantes := prazos_txt;
            resumo_decisao := resumo;
            fase_execucao := if fase then "Sim" else "Não" |}.

(** The body of [for p in hits] (lines 207-251): [None] when the hit is
    skipped by [continue], the dict appended to [resultados] otherwise. *)
Definition processar_hit (tribunal : string) (desde : option date) (p : json)
  : result (option registro) :=
  src <- py_get p "_source" (JDict []) ;;
  dd <- py_get src "dataDistribuicao" (JStr "") ;;
  let dt_dist := parse_date dd in
  if antes_de desde dt_dist then Return None
  else reg <- montar_registro tribunal src ;; Return (Some reg).

(** [for p in hits: ... resultados.append(...)] *)
Fixpoint for_hits (tribunal : string) (desde : option date) (hits : list json)
    (resultados : list registro) : result (list registro) :=
  match hits with
  | [] => Return resultados
  | p :: hits' =>
      r <- processar_hit tribunal desde p ;;
      for_hits tribunal desde hits'
        (match r with Some reg => resultados ++ [reg] | None => resultados end)
  end.

(** *** Effects *)

(** A computation that talks to the transport and prints: from a state
    of the transport to an outcome, the state after, and what was done. *)
Definition M (A : Type) : Type := Net -> result A * Net * list evento.

Definition ret {A : Type} (a : A) : M A := fun net => (Return a, net, []).

Definition bind {A B : Type} (m : M A) (k : A -> M B) : M B :=
  fun net =>
    match m net with
    | (Return a, net', ev) =>
        let '(r, net'', ev') := k a net' in (r, net'', ev ++ ev')
    | (Raise e, net', ev) => (Raise e, net', ev)
    end.

Definition lift {A : Type} (r : result A) : M A := fun net => (r, net, []).

Definition emit (e : evento) : M unit := fun net => (Return tt, net, [e]).

Definition post (endpoint : string) (body : json) : M resposta :=
  fun net =>
    let (resp, net') := http_post net endpoint body in
    (Return resp, net', [EvPost endpoint body resp]).

Notation "x <~ c ;; k" := (bind c (fun x => k))
  (at level 100, c at next level, right associativity).
Notation "c ;;; k" := (bind c (fun _ => k))
  (at level 100, right associativity).

(** *** One tribunal (lines 179-255) *)

Definition request_body (nome cnpj : string) (pagina : Z) : json :=
  JDict
    [ ("size", JNum page_size);
      ("from", JNum (pagina * page_size));
      ("query",
        JDict [ ("bool",
          JDict [ ("should",
            JList [ JDict [ ("match_phrase", JDict [ ("partes.nome", JStr nome) ]) ];
                    JDict [ ("match", JDict [ ("partes.documento", JStr cnpj) ]) ] ]) ]) ]) ].

(** Line 179. *)
Definition endpoint_de (tribunal : string) : string :=
  BASE_URL +++ tribunal +++ "/_search".

(** Line 202: [data.get("hits", {}).get("hits", [])] *)
Definition hits_de (data : json) : result json :=
  h <- py_get data "hits" (JDict []) ;; py_get h "hits" (JList []).

(** Lines 202-254: what the loop body does with the parsed answer. *)
Definition processar_pagina (tribunal : string) (desde : option date)
    (data : json) (resultados : list registro) : result (controle * list registro) :=
  hits <- hits_de data ;;
  if negb (truthy hits) then Return (Break, resultados)
  else
    ps <- py_iter hits ;;
    resultados' <- for_hits tribunal desde ps resultados ;;
    n <- py_len hits ;;
    if n <? page_size then Return (Break, resultados')
    else Return (Continue, resultados').

(** The body of [for pagina in range(max_paginas)]. *)
Definition pagina_body (nome cnpj tribunal : string) (desde : option date)
    (pagina : Z) (resultados : list registro) : M (controle * list registro) :=
  resp <~ post (endpoint_de tribunal) (request_body nome cnpj pagina) ;;
  match resp with
  | Falha exc =>
      emit (EvWarnFalha (upper tribunal) (pagina + 1) exc) ;;;
      ret (Break, resultados)
  | Dados data => lift (processar_pagina tribunal desde data resultados)
  end.

(** The page loop, with how it was left: [Break], or [Continue] when the
    pages ran out. *)
Fixpoint for_paginas (nome cnpj tribunal : string) (desde : option date)
    (paginas : list Z) (resultados : list registro) : M (controle * list registro) :=
  match paginas with
  | [] => ret (Continue, resultados)
  | pagina :: paginas' =>
      cr <~ pagina_body nome cnpj tribunal desde pagina resultados ;;
      match fst cr with
      | Break => ret cr
      | Continue => for_paginas nome cnpj tribunal desde paginas' (snd cr)
      end
  end.

Definition buscar_processos (nome cnpj tribunal : string) (max_paginas : Z)
    (desde : option date) : M (list registro) :=
  cr <~ for_paginas nome cnpj tribunal desde (py_range max_paginas) [] ;;
  ret (snd cr).

(** *** The run (lines 363-394 of [main]) *)

(** [for tribunal in args.tribunais: ... dados.extend(encontrados)] *)
Fixpoint for_tribunais (nome cnpj : string) (max_paginas : Z) (desde : option date)
    (tribunais : list string) (dados : list registro) : M (list registro) :=
  match tribunais with
  | [] => ret dados
  | t :: tribunais' =>
      let tribunal := strip (lower t) in
      emit (EvConsultando (upper tribunal)) ;;;
      encontrados <~ buscar_processos nome cnpj tribunal max_paginas desde ;;
      emit (EvEncontrados (Z.of_nat (List.length encontrados))) ;;;
      for_tribunais nome cnpj max_paginas desde tribunais' (dados ++ encontrados)
  end.

(** The [elif args.since_days] branch. *)
Definition desde_since_days (args : argumentos) : M (option date) :=
  match arg_since_days args with
  | Some n =>
      if negb (n =? 0) then d <~ lift (date_sub_days hoje n) ;; ret (Some d)
      else ret None
  | None => ret None
  end.

(** Lines 363-371: the date filter of the run. *)
Definition determinar_desde (args : argumentos) : M (option date) :=
  match arg_desde args with
  | Some s =>
      if negb (s =? "")%string then
        match fromisoformat s with
        | Some d => ret (Some d)
        | None => emit (EvErroData s) ;;; lift (Raise (SystemExit 1))
        end
      else desde_since_days args
  | None => desde_since_days args
  end.

(** ** Deduplication (lines 389-393)

    [pd.DataFrame(dados)], [drop_duplicates] and [to_dict] are calls of
    pandas, modelled from the library.  The frame is built by columns:
    every column gets a dtype from the cells it holds
    ([lib.maybe_convert_objects]), and [to_dict] gives each cell back
    as that dtype holds it, so that a record can come back changed. *)

(** [float(n)]: the double nearest to [n], a tie going to the even
    mantissa; an infinity where Python raises [OverflowError]. *)
Definition float_de_int (n : Z) : pyfloat :=
  let a := Z.abs n in
  let s := Z.max 0 (Z.log2 a + 1 - 53) in
  let q := Z.shiftr a s in
  let r := Z.land a (Z.ones s) in
  let half := Z.shiftl 1 (s - 1) in
  let up := (0 <? s) && ((half <? r) || ((r =? half) && Z.odd q)) in
  let q' := if up then q + 1 else q in
  if 2 ^ 1024 <=? Z.shiftl q' s then FInf (n <? 0) else FFin (n <? 0) (Z.to_N q') s.

Definition oINT64_MIN : Z := - 2 ^ 63.
Definition oINT64_MAX : Z := 2 ^ 63 - 1.
Definition oUINT64_MAX : Z := 2 ^ 64 - 1.

(** What the scan of a column has seen so far. *)
Record Seen : Type := mk_Seen {
  null_ : bool;
  nan_ : bool;
  bool_ : bool;
  int_ : bool;
  float_ : bool;
  sint_ : bool;
  uint_ : bool
}.

Definition nada_visto : Seen := mk_Seen false false false false false false false.

Definition saw_null (s : Seen) : Seen :=
  mk_Seen true (nan_ s) (bool_ s) (int_ s) (float_ s) (sint_ s) (uint_ s).

Definition saw_nan (s : Seen) : Seen :=
  mk_Seen (null_ s) true (bool_ s) (int_ s) (float_ s) (sint_ s) (uint_ s).

Definition saw_bool (s : Seen) : Seen :=
  mk_Seen (null_ s) (nan_ s) true (int_ s) (float_ s) (sint_ s) (uint_ s).

Definition saw_float (s : Seen) : Seen :=
  mk_Seen (null_ s) (nan_ s) (bool_ s) (int_ s) true (sint_ s) (uint_ s).

Definition set_int (s : Seen) : Seen :=
  mk_Seen (null_ s) (nan_ s) (bool_ s) true (float_ s) (sint_ s) (uint_ s).

(** [Seen.saw_int]: a negative int of 64 bits is signed, an int above
    [INT64_MAX] that fits 64 bits is unsigned. *)
Definition saw_int (val : Z) (s : Seen) : Seen :=
  mk_Seen (null_ s) (nan_ s) (bool_ s) true (float_ s)
    (sint_ s || ((oINT64_MIN <=? val) && (val <? 0)))
    (uint_ s || ((oINT64_MAX <? val) && (val <=? oUINT64_MAX))).

(** The loop of [maybe_convert_objects] over the cells of a column:
    [None] when it is left at a cell that makes the column one of
    objects (a str, a list, a dict, an int that fits no 64-bit dtype).
    An int is cast to a double as it is met; its range is looked at
    only while no [None] has been met. *)
Fixpoint examinar (objects : list json) (seen : Seen) : result (option Seen) :=
  match objects with
  | [] => Return (Some seen)
  | val :: objects' =>
      match val with
      | JNull => examinar objects' (saw_null seen)
      | JFloat FNan => examinar objects' (saw_nan seen)
      | JBool _ => examinar objects' (saw_bool seen)
      | JFloat _ => examinar objects' (saw_float seen)
      | JNum n =>
          match float_de_int n with
          | FInf _ => Raise OverflowError
          | _ =>
              if null_ seen then examinar objects' (set_int seen)
              else
                let seen' := saw_int n seen in
                if (uint_ seen' && sint_ seen') || (oUINT64_MAX <? n) || (n <? oINT64_MIN)
                then Return None
                else examinar objects' seen'
          end
      | JStr _ | JList _ | JDict _ => Return None
      end
  end.

Inductive dtype : Type := DObject | DBool | DInt | DFloat | DStr.

(** [lib.is_string_array(objects, skipna=True)], on a column that holds
    a str. *)
Definition is_string_array (objects : list json) : bool :=
  existsb (fun v => match v with JStr _ => true | _ => false end) objects
  && forallb (fun v => match v with
                       | JStr _ | JNull | JFloat FNan => true
                       | _ => false
                       end) objects.

(** The dtype [pd.DataFrame] gives a column of these cells.  Bools
    alone are a bool column; ints alone an integer column; ints or
    floats with a missing value, or with floats, a float column; any
    other column is one of objects, but that with [infer_string] a
    column of str and missing values is a str column. *)
Definition maybe_convert_objects (objects : list json) : result dtype :=
  r <- examinar objects nada_visto ;;
  Return
    (match r with
     | Some seen =>
         if bool_ seen then
           if null_ seen || nan_ seen || int_ seen || float_ seen then DObject else DBool
         else if null_ seen || nan_ seen then
           if float_ seen || int_ seen || nan_ seen then DFloat else DObject
         else if float_ seen then DFloat
         else if int_ seen then DInt
         else DObject
     | None =>
         if infer_string && is_string_array objects then DStr else DObject
     end).

(** The cell [v] as a column of dtype [d] gives it back: in a float
    column an int is the double nearest to it and [None] is nan; in a
    str column [None] is nan. *)
Definition celula (d : dtype) (v : json) : json :=
  match d, v with
  | DFloat, JNum n => JFloat (float_de_int n)
  | DFloat, JNull => JFloat FNan
  | DStr, JNull => JFloat FNan
  | _, _ => v
  end.

(** [pd.DataFrame(dados)], held as the rows [to_dict(orient="records")]
    would give.  The five columns that hold only str come back as they
    are, and so does the column of the counts, which holds only ints. *)
Definition DataFrame (dados : list registro) : result (list registro) :=
  d_cnj <- maybe_convert_objects (map cnj dados) ;;
  d_grau <- maybe_convert_objects (map grau dados) ;;
  d_classe <- maybe_convert_objects (map classe dados) ;;
  d_orgao <- maybe_convert_objects (map orgao dados) ;;
  d_status <- maybe_convert_objects (map status dados) ;;
  d_dt <- maybe_convert_objects (map dt_distribuicao dados) ;;
  _ <- maybe_convert_objects (map (fun r => JNum (qtd_movimentos r)) dados) ;;
  d_resumo <- maybe_convert_objects (map resumo_decisao dados) ;;
  Return (map (fun r =>
                 {| cnj := celula d_cnj (cnj r);
                    tribunal := tribunal r;
                    grau := celula d_grau (grau r);
                    classe := celula d_classe (classe r);
                    assunto := assunto r;
                    orgao := celula d_orgao (orgao r);
                    status := celula d_status (status r);
                    partes := partes r;
                    dt_distribuicao := celula d_dt (dt_distribuicao r);
                    qtd_movimentos := qtd_movimentos r;
                    prazos_relevantes := prazos_relevantes r;
                    resumo_decisao := celula d_resumo (resumo_decisao r);
                    fase_execucao := fase_execucao r |}) dados).

(** What [drop_duplicates] compares: pandas gives the cells of a key
    column codes ([factorize]), one code for the missing values ([None]
    and nan) and one for every value, numbers that are equal having the
    same whatever their type ([True == 1 == 1.0]).  A list or a dict
    cannot be hashed. *)
Inductive chave : Type :=
| KNulo
| KInf (neg : bool)
| KNum (m e : Z)
| KStr (s : string).

Fixpoint tira_zeros (p : positive) (e : Z) : positive * Z :=
  match p with
  | xO p' => tira_zeros p' (e + 1)
  | _ => (p, e)
  end.

(** The number [m * 2^e], with [m] odd or the number 0. *)
Definition diadico (m e : Z) : chave :=
  match m with
  | Z0 => KNum 0 0
  | Zpos p => let (p', e') := tira_zeros p e in KNum (Zpos p') e'
  | Zneg p => let (p', e') := tira_zeros p e in KNum (Zneg p') e'
  end.

Definition valor_chave (v : json) : option chave :=
  match v with
  | JNull | JFloat FNan => Some KNulo
  | JBool b => Some (diadico (if b then 1 else 0) 0)
  | JNum n => Some (diadico n 0)
  | JFloat (FInf neg) => Some (KInf neg)
  | JFloat (FFin neg m e) => Some (diadico (if neg then - Z.of_N m else Z.of_N m) e)
  | JStr s => Some (KStr s)
  | JList _ | JDict _ => None
  end.

Definition chave_eqb (k k' : chave) : bool :=
  match k, k' with
  | KNulo, KNulo => true
  | KInf a, KInf b => Bool.eqb a b
  | KNum m e, KNum m' e' => (m =? m') && (e =? e')
  | KStr s, KStr t => (s =? t)%string
  | _, _ => false
  end.

Definition hashable (v : json) : bool :=
  match valor_chave v with Some _ => true | None => false end.

Definition mesma_celula (a b : json) : bool :=
  match valor_chave a, valor_chave b with
  | Some k, Some k' => chave_eqb k k'
  | _, _ => false
  end.

Definition mesma_chave (r s : registro) : bool :=
  mesma_celula (cnj r) (cnj s) && (tribunal r =? tribunal s)%string.

Fixpoint keep_first (seen : list registro) (rows : list registro) : list registro :=
  match rows with
  | [] => []
  | r :: rows' =>
      if existsb (fun s => mesma_chave s r) seen then keep_first seen rows'
      else r :: keep_first (seen ++ [r]) rows'
  end.

(** [df.drop_duplicates(subset=["cnj", "tribunal"])]: a row is dropped
    when an earlier row has the same key, the others keep their order. *)
Definition drop_duplicates (rows : list registro) : result (list registro) :=
  if forallb (fun r => hashable (cnj r)) rows then Return (keep_first [] rows)
  else Raise TypeError.

(** [df.empty] *)
Definition empty (df : list registro) : bool :=
  match df with [] => true | _ => false end.

(** [df.to_dict(orient="records")]: the frame is held as these rows. *)
Definition to_dict (df : list registro) : list registro := df.

(** Lines 390-393 of [main]: an empty frame is left alone, and [dados]
    with it; otherwise [dados] becomes the rows left in the frame. *)
Definition deduplicar (dados : list registro) : result (list registro) :=
  df_all <- DataFrame dados ;;
  if negb (empty df_all) then
    df_all <- drop_duplicates df_all ;;
    Return (to_dict df_all)
  else Return dados.

(** Lines 373-394: the run once the date filter is known.  The value is
    [dados] as the exports get it.  [parser.error] prints the usage and
    leaves with status 2. *)
Definition executar (args : argumentos) (desde : option date) : M (list registro) :=
  if arg_selftest args then ret gerar_dados_teste
  else
    match arg_nome args, arg_cnpj args with
    | Some nome, Some cnpj =>
        if negb (opt_truthy (arg_nome args)) || negb (opt_truthy (arg_cnpj args))
           || match arg_tribunais args with [] => true | _ => false end
        then emit EvParserError ;;; lift (Raise (SystemExit 2))
        else
          emit EvCreateSession ;;;
          dados <~ for_tribunais nome cnpj (arg_max_paginas args) desde
                     (arg_tribunais args) [] ;;
          dados' <~ lift (deduplicar dados) ;;
          emit (EvTotal (Z.of_nat (List.length dados'))) ;;;
          ret dados'
    | _, _ => emit EvParserError ;;; lift (Raise (SystemExit 2))
    end.

(** [main] up to the exports (lines 363-394). *)
Definition main (args : argumentos) : M (list registro) :=
  desde <~ determinar_desde args ;; executar args desde.

(** *** Notions the properties are stated with *)

(** A movement as the API documents it: a dict whose [descricao], when
    it has one, is a string.  [dataHora] may be anything. *)
Definition wf_movimento (m : json) : bool :=
  match m with
  | JDict d =>
      match lookup "descricao" d with
      | None | Some (JStr _) => true
      | Some _ => false
      end
  | _ => false
  end.

(** The description of a movement, empty when it has none. *)
Definition descricao (m : json) : string :=
  match m with
  | JDict d => match lookup "descricao" d with Some (JStr s) => s | _ => "" end
  | _ => ""
  end.

(** The timestamp of a movement, the empty string when it has none. *)
Definition data_hora (m : json) : json :=
  match m with
  | JDict d => match lookup "dataHora" d with Some v => v | None => JStr "" end
  | _ => JStr ""
  end.

(** The lower-cased description contains a term of the vocabulary. *)
Definition menciona (keywords : list string) (m : json) : bool :=
  any_keyword keywords (lower (descricao m)).

(** ["{timestamp}: {description}"] *)
Definition linha_prazo (m : json) : string :=
  py_format (data_hora m) +++ ": " +++ descricao m.

(** The movement list of a hit, as [processar_hit] reads it. *)
Definition movimentos_de (p : json) : result json :=
  src <- py_get p "_source" (JDict []) ;; py_get src "movimentos" (JList []).

(** The distribution date of a hit, when it has one that parses. *)
Definition data_distribuicao (p : json) : option date :=
  match p with
  | JDict pd =>
      match lookup "_source" pd with
      | Some (JDict src) =>
          match lookup "dataDistribuicao" src with
          | Some v => parse_date v
          | None => parse_date (JStr "")
          end
      | Some _ => None
      | None => parse_date (JStr "")
      end
  | _ => None
  end.

(** The [_source] of a hit, empty when the hit has none. *)
Definition fonte (p : json) : option (list (string * json)) :=
  match p with
  | JDict pd =>
      match lookup "_source" pd with
      | Some (JDict src) => Some src
      | Some _ => None
      | None => Some []
      end
  | _ => None
  end.

Definition is_str (v : json) : bool :=
  match v with JStr _ => true | _ => false end.

Definition is_dict (v : json) : bool :=
  match v with JDict _ => true | _ => false end.

(** The fields of a [_source] that the record reads besides the
    movements, as the API documents them, each possibly absent:
    [assuntosProcessuais] a list of strings (or null), [orgaoJulgador] a
    dict, [partes] a list of dicts. *)
Definition wf_campos (src : list (string * json)) : bool :=
  match lookup "assuntosProcessuais" src with
  | None => true
  | Some (JList l) => forallb is_str l
  | Some v => negb (truthy v)
  end
  && match lookup "orgaoJulgador" src with
     | None => true
     | Some v => is_dict v
     end
  && match lookup "partes" src with
     | None => true
     | Some (JList l) => forallb is_dict l
     | Some _ => false
     end.

(** The movement list of a [_source]: absent, or a list of movements. *)
Definition wf_movimentos (src : list (string * json)) : bool :=
  match lookup "movimentos" src with
  | None => true
  | Some (JList ms) => forallb wf_movimento ms
  | Some _ => false
  end.

(** A hit that follows the API's schema. *)
Definition wf_hit (p : json) : bool :=
  match fonte p with
  | Some src => wf_campos src && wf_movimentos src
  | None => false
  end.

(** The requests of a trace, and the answers they got, in order. *)
Definition pedidos (evs : list evento) : list (string * json) :=
  flat_map (fun e => match e with EvPost ep body _ => [(ep, body)] | _ => [] end) evs.

Definition respostas (evs : list evento) : list resposta :=
  flat_map (fun e => match e with EvPost _ _ resp => [resp] | _ => [] end) evs.

(** An answer after which the page loop goes on: a page of at least
    [page_size] hits. *)
Definition pagina_cheia (resp : resposta) : bool :=
  match resp with
  | Falha _ => false
  | Dados data =>
      match hits_de data with
      | Return hits =>
          truthy hits
          && match py_len hits with Return n => page_size <=? n | Raise _ => false end
      | Raise _ => false
      end
  end.

(** An answer that ends the page loop: a failure, a page with no hits,
    or a page with fewer than [page_size] hits. *)
Definition pagina_final (resp : resposta) : bool :=
  match resp with
  | Falha _ => true
  | Dados data =>
      match hits_de data with
      | Return hits =>
          negb (truthy hits)
          || match py_len hits with Return n => n <? page_size | Raise _ => false end
      | Raise _ => false
      end
  end.

(** A page of exactly [page_size] hits that follow the schema. *)
Definition pagina_de_100 (resp : resposta) : bool :=
  match resp with
  | Falha _ => false
  | Dados data =>
      match hits_de data with
      | Return (JList hits) =>
          (Z.of_nat (List.length hits) =? page_size) && forallb wf_hit hits
      | _ => false
      end
  end.

(** A run that is preceded by the events [evs]. *)
Definition depois_de {A : Type} (evs : list evento) (x : result A * Net * list evento)
  : result A * Net * list evento :=
  let '(r, net, evs') := x in (r, net, evs ++ evs').

(** [l] is [l'] with some elements left out, the others in their order. *)
Inductive subsequencia {A : Type} : list A -> list A -> Prop :=
| sub_nil : subsequencia [] []
| sub_keep (x : A) (l l' : list A) : subsequencia l l' -> subsequencia (x :: l) (x :: l')
| sub_skip (x : A) (l l' : list A) : subsequencia l l' -> subsequencia l (x :: l').

(** The movement list read from a well-formed [_source]. *)
Definition lista_movimentos (src : list (string * json)) : list json :=
  match lookup "movimentos" src with
  | Some (JList ms) => ms
  | _ => []
  end.

(** The hit is not skipped by the filter [desde]. *)
Definition passa (desde : option date) (p : json) : bool :=
  negb (antes_de desde (data_distribuicao p)).

(** The process number of a hit, [None] when it has none. *)
Definition numero_processo (p : json) : json :=
  match fonte p with
  | Some src => match lookup "numeroProcesso" src with Some v => v | None => JNull end
  | None => JNull
  end.

(** No two records of the list share a (cnj, tribunal) pair. *)
Definition sem_duplicados (l : list registro) : Prop :=
  forall l1 a l2 b l3, l = l1 ++ a :: l2 ++ b :: l3 -> mesma_chave a b = false.

(** Every byte of the string is an ASCII character. *)
Definition so_ascii (s : string) : bool :=
  forallb (fun c => (nat_of_ascii c <? 128)%nat) (list_ascii_of_string s).

(** The string does not start in the middle of a code point. *)
Definition comeca_em_caractere (s : string) : bool :=
  match s with
  | EmptyString => true
  | String c _ => negb (is_cont c)
  end.


(** [sem_duplicados], computed. *)
Fixpoint sem_repetidos (l : list registro) : bool :=
  match l with
  | [] => true
  | r :: l' => forallb (fun x => negb (mesma_chave r x)) l' && sem_repetidos l'
  end.

(** What a cell can come back as from the frame: itself, nan for
    [None], or the double nearest to an int. *)
Definition convertida (v w : json) : Prop :=
  w = v
  \/ (v = JNull /\ w = JFloat FNan)
  \/ (exists n, v = JNum n /\ w = JFloat (float_de_int n)).

(** The row [l] of the frame holds the record [r]. *)
Definition linha_de (r l : registro) : Prop :=
  convertida (cnj r) (cnj l)
  /\ tribunal l = tribunal r
  /\ convertida (grau r) (grau l)
  /\ convertida (classe r) (classe l)
  /\ assunto l = assunto r
  /\ convertida (orgao r) (orgao l)
  /\ convertida (status r) (status l)
  /\ partes l = partes r
  /\ convertida (dt_distribuicao r) (dt_distribuicao l)
  /\ qtd_movimentos l = qtd_movimentos r
  /\ prazos_relevantes l = prazos_relevantes r
  /\ convertida (resumo_decisao r) (resumo_decisao l)
  /\ fase_execucao l = fase_execucao r.

(** A cell that is there, is no float, and fits 64 bits if it is an
    int. *)
Definition celula_estavel (v : json) : bool :=
  match v with
  | JNull | JFloat _ => false
  | JNum n => (oINT64_MIN <=? n) && (n <=? oINT64_MAX)
  | _ => true
  end.

Definition e_nulo (v : json) : bool :=
  match v with JNull => true | _ => false end.

(** A column where no value is missing, or every one is, and that
    holds no float. *)
Definition coluna_estavel (vals : list json) : bool :=
  forallb e_nulo vals || forallb celula_estavel vals.

(** Records whose columns are of this kind. *)
Definition estaveis (dados : list registro) : bool :=
  coluna_estavel (map cnj dados)
  && coluna_estavel (map grau dados)
  && coluna_estavel (map classe dados)
  && coluna_estavel (map orgao dados)
  && coluna_estavel (map status dados)
  && coluna_estavel (map dt_distribuicao dados)
  && coluna_estavel (map resumo_decisao dados)
  && forallb (fun r => celula_estavel (JNum (qtd_movimentos r))) dados.

(** The arguments without [--desde]. *)
Definition sem_desde (args : argumentos) : argumentos :=
  {| arg_nome := arg_nome args;
     arg_cnpj := arg_cnpj args;
     arg_tribunais := arg_tribunais args;
     arg_max_paginas := arg_max_paginas args;
     arg_desde := None;
     arg_since_days := arg_since_days args;
     arg_selftest := arg_selftest args |}.
End Pipeline.

(** ** The exports (lines 258-307 and 396-425) *)

Inductive formato : Type := Excel | Csv | Sqlite | Pdf | Txt.

(** What a writer is handed: the records, for the frame pandas writes;
    the cells of each page, for the PDF; the text, for the plain file. *)
Inductive carga : Type :=
| Tabela (dados : list registro)
| Celulas (paginas : list (list string))
| Texto (conteudo : string).

(** The writers are taken as given: pandas, FPDF and the file system,
    each able to raise, with the text of the exception it raised; and
    with them whether [fpdf] could be imported ([_HAS_FPDF]) and
    [os.path.splitext(p)[0]]. *)
Class Destinos : Type := {
  FS : Type;
  gravar : FS -> formato -> string -> carga -> option string * FS;
  tem_fpdf : bool;
  splitext_raiz : string -> string
}.

(** What the export part of a run does that can be seen from outside. *)
Inductive evento_saida : Type :=
| SvGravar (f : formato) (caminho : string) (c : carga) (falha : option string)
| SvGerado (f : formato) (caminho : string)
| SvWarnPdf (exc : string)
| SvWarnSemFpdf
| SvRegistro (proc : registro).

Inductive fim (A : Type) : Type :=
| Ok (a : A)
| Erro (exc : string).

Arguments Ok {A} a.
Arguments Erro {A} exc.

(** The items of a record, in the order of its keys. *)
Definition itens (r : registro) : list (string * json) :=
  [ ("cnj", cnj r);
    ("tribunal", JStr (tribunal r));
    ("grau", grau r);
    ("classe", classe r);
    ("assunto", JStr (assunto r));
    ("orgao", orgao r);
    ("status", status r);
    ("partes", JStr (partes r));
    ("dt_distribuicao", dt_distribuicao r);
    ("qtd_movimentos", JNum (qtd_movimentos r));
    ("prazos_relevantes", JStr (prazos_relevantes r));
    ("resumo_decisao", resumo_decisao r);
    ("fase_execucao", JStr (fase_execucao r)) ].

Section Exportacao.

Context {lib : PyLib} {dest : Destinos}.

(** [f"{chave}: {valor if valor else '-'}"] *)
Definition texto_item (kv : string * json) : string :=
  fst kv +++ ": " +++ py_format (if truthy (snd kv) then snd kv else JStr "-").

(** The [write] calls of [exportar_txt] for one record. *)
Definition bloco_txt (idx : Z) (item : registro) : string :=
  ("Processo #" +++ py_format (JNum idx) +++ nl)
  +++ str_concat (map (fun kv => texto_item kv +++ nl) (itens item))
  +++ nl.

(** [for idx, item in enumerate(dados, start=idx)] *)
Fixpoint blocos_txt (idx : Z) (dados : list registro) : string :=
  match dados with
  | [] => EmptyString
  | item :: dados' => bloco_txt idx item +++ blocos_txt (idx + 1) dados'
  end.

(** What [exportar_txt] has written when it closes the file. *)
Definition conteudo_txt (dados : list registro) : string := blocos_txt 1 dados.

(** The cells [exportar_pdf] puts on the page of one record. *)
Definition celulas_pdf (item : registro) : list string :=
  "Relatório de Processo" :: map texto_item (itens item).

Definition X (A : Type) : Type := FS -> fim A * FS * list evento_saida.

Definition xret {A : Type} (a : A) : X A := fun fs => (Ok a, fs, []).

Definition xbind {A B : Type} (m : X A) (k : A -> X B) : X B :=
  fun fs =>
    match m fs with
    | (Ok a, fs', ev) => let '(r, fs'', ev') := k a fs' in (r, fs'', ev ++ ev')
    | (Erro exc, fs', ev) => (Erro exc, fs', ev)
    end.

(** [try: m  except Exception as exc: h exc] *)
Definition tentar {A : Type} (m : X A) (h : string -> X A) : X A :=
  fun fs =>
    match m fs with
    | (Ok a, fs', ev) => (Ok a, fs', ev)
    | (Erro exc, fs', ev) => let '(r, fs'', ev') := h exc fs' in (r, fs'', ev ++ ev')
    end.

Definition falhar {A : Type} (exc : string) : X A := fun fs => (Erro exc, fs, []).

Definition avisar (e : evento_saida) : X unit := fun fs => (Ok tt, fs, [e]).

(** One call of a writer. *)
Definition chamar (f : formato) (caminho : string) (c : carga) : X unit :=
  fun fs =>
    let (falha, fs') := gravar fs f caminho c in
    (match falha with None => Ok tt | Some exc => Erro exc end, fs',
     [SvGravar f caminho c falha]).

Notation "c ;;; k" := (xbind c (fun _ => k)) (at level 100, right associativity).

Definition exportar_excel (dados : list registro) (caminho : string) : X unit :=
  chamar Excel caminho (Tabela dados).

Definition exportar_csv (dados : list registro) (caminho : string) : X unit :=
  chamar Csv caminho (Tabela dados).

Definition exportar_sqlite (dados : list registro) (caminho : string) : X unit :=
  chamar Sqlite caminho (Tabela dados).

Definition exportar_pdf (dados : list registro) (caminho : string) : X unit :=
  if negb tem_fpdf then falhar "PDF export requested but fpdf2 is not installed."
  else chamar Pdf caminho (Celulas (map celulas_pdf dados)).

Definition exportar_txt (dados : list registro) (caminho : string) : X unit :=
  chamar Txt caminho (Texto (conteudo_txt dados)).

(** The export paths and the [--no-pdf] switch of the namespace. *)
Record saidas : Type := mk_saidas {
  arg_excel : option string;
  arg_csv : option string;
  arg_sqlite : option string;
  arg_pdf : option string;
  arg_no_pdf : bool
}.

(** [if caminho: m caminho] *)
Definition se_dado (caminho : option string) (m : string -> X unit) : X unit :=
  match caminho with
  | Some c => if negb (c =? "")%string then m c else xret tt
  | None => xret tt
  end.

(** Lines 413-415 and 418-420: the plain-text report beside the PDF. *)
Definition fallback_txt (dados : list registro) (pdf : string) : X unit :=
  let fallback_path := splitext_raiz pdf +++ ".txt" in
  exportar_txt dados fallback_path ;;;
  avisar (SvGerado Txt fallback_path).

(** Lines 406-420. *)
Definition bloco_pdf (o : saidas) (dados : list registro) : X unit :=
  se_dado (arg_pdf o) (fun pdf =>
    if negb (arg_no_pdf o) then
      if tem_fpdf then
        tentar (exportar_pdf dados pdf ;;; avisar (SvGerado Pdf pdf))
               (fun exc => avisar (SvWarnPdf exc) ;;; fallback_txt dados pdf)
      else avisar SvWarnSemFpdf ;;; fallback_txt dados pdf
    else xret tt).

(** [for proc in dados: print(json.dumps(proc, ...))] *)
Fixpoint imprimir (dados : list registro) : X unit :=
  match dados with
  | [] => xret tt
  | proc :: dados' => avisar (SvRegistro proc) ;;; imprimir dados'
  end.

(** [not any([args.excel, args.csv, args.sqlite, args.pdf])] *)
Definition nenhuma_saida (o : saidas) : bool :=
  negb (opt_truthy (arg_excel o) || opt_truthy (arg_csv o)
        || opt_truthy (arg_sqlite o) || opt_truthy (arg_pdf o)).

(** Lines 396-425 of [main]: the exports of [dados]. *)
Definition main_exportar (o : saidas) (dados : list registro) : X unit :=
  se_dado (arg_excel o) (fun c => exportar_excel dados c ;;; avisar (SvGerado Excel c)) ;;;
  se_dado (arg_csv o) (fun c => exportar_csv dados c ;;; avisar (SvGerado Csv c)) ;;;
  se_dado (arg_sqlite o) (fun c => exportar_sqlite dados c ;;; avisar (SvGerado Sqlite c)) ;;;
  bloco_pdf o dados ;;;
  if nenhuma_saida o then imprimir dados else xret tt.

(** *** Notions the properties of the exports are stated with *)

(** The records printed to the terminal. *)
Definition impressos (evs : list evento_saida) : list registro :=
  flat_map (fun e => match e with SvRegistro proc => [proc] | _ => [] end) evs.

(** The calls of the writers, with how each ended. *)
Definition gravacoes (evs : list evento_saida)
  : list (formato * string * carga * option string) :=
  flat_map (fun e => match e with SvGravar f c x r => [(f, c, x, r)] | _ => [] end) evs.

Definition formato_eqb (f g : formato) : bool :=
  match f, g with
  | Excel, Excel | Csv, Csv | Sqlite, Sqlite | Pdf, Pdf | Txt, Txt => true
  | _, _ => false
  end.

(** The path a call of the writer [f] may get, and what it is handed. *)
Definition chamada_prevista (o : saidas) (dados : list registro)
    (g : formato * string * carga * option string) : Prop :=
  let '(f, caminho, c, _) := g in
  match f with
  | Excel => arg_excel o = Some caminho /\ c = Tabela dados
  | Csv => arg_csv o = Some caminho /\ c = Tabela dados
  | Sqlite => arg_sqlite o = Some caminho /\ c = Tabela dados
  | Pdf => arg_pdf o = Some caminho /\ c = Celulas (map celulas_pdf dados)
           /\ tem_fpdf = true /\ arg_no_pdf o = false
  | Txt => (exists pdf, arg_pdf o = Some pdf /\ caminho = splitext_raiz pdf +++ ".txt")
           /\ c = Texto (conteudo_txt dados) /\ arg_no_pdf o = false
  end.

(** A writer call as an event, and its format. *)
Definition formato_de (g : formato * string * carga * option string) : formato :=
  fst (fst (fst g)).

(** Everything a computation can emit satisfies [P]. *)
Definition emite (P : evento_saida -> Prop) {A : Type} (m : X A) : Prop :=
  forall fs, Forall P (snd (m fs)).

(** A computation that cannot end in an exception. *)
Definition conclui {A : Type} (m : X A) : Prop :=
  forall fs, exists a, fst (fst (m fs)) = Ok a.

(** The formats of the writers a computation calls are taken, in order
    and each at most once, from [l]. *)
Definition grava_de (l : list formato) {A : Type} (m : X A) : Prop :=
  forall fs, subsequencia (map formato_de (gravacoes (snd (m fs)))) l.

(** A computation that ends in an exception ends with the failed call
    of a writer other than the PDF's, which raised it. *)
Definition falha_no_fim {A : Type} (m : X A) : Prop :=
  forall fs exc,
    fst (fst (m fs)) = Erro exc ->
    exists evs f c x,
      snd (m fs) = evs ++ [SvGravar f c x (Some exc)] /\ f <> Pdf.

Definition nao_registro (e : evento_saida) : Prop :=
  match e with SvRegistro _ => False | _ => True end.

Definition prevista (o : saidas) (dados : list registro) (e : evento_saida) : Prop :=
  match e with
  | SvGravar f c x r => chamada_prevista o dados (f, c, x, r)
  | _ => True
  end.

(** A report was written: the PDF, or the text beside it. *)
Definition relatorio_gravado (evs : list evento_saida) : bool :=
  existsb (fun g => match g with
                    | (Pdf, _, _, None) | (Txt, _, _, None) => true
                    | _ => false
                    end) (gravacoes evs).

End Exportacao.

(** * Examples *)

(** ** An instance of the Python library

    Enough of the library to run the pipeline on examples.
    [lower_latin1] is [str.lower] on text of the Basic Latin and Latin-1
    Supplement blocks, [upper_ascii] and [strip_ascii] are [str.upper]
    and [str.strip] on ASCII text, [str_escalar] is [str] on [None], a
    bool, an int and a float that is a whole number below 1e16, nan or
    an infinity, and [fromisoformat_ymd] reads the format YYYY-MM-DD. *)

Definition lower_byte (c : ascii) : ascii :=
  let n := nat_of_ascii c in
  if (65 <=? n)%nat && (n <=? 90)%nat then ascii_of_nat (n + 32) else c.

Definition upper_byte (c : ascii) : ascii :=
  let n := nat_of_ascii c in
  if (97 <=? n)%nat && (n <=? 122)%nat then ascii_of_nat (n - 32) else c.

(** The capital letters U+00C0 to U+00DE, but for the sign U+00D7, are
    the bytes C3 80 to C3 9E; the small ones are 32 further. *)
Fixpoint lower_latin1 (s : string) : string :=
  match s with
  | EmptyString => EmptyString
  | String c s' =>
      if (nat_of_ascii c =? 195)%nat then
        match s' with
        | EmptyString => String c EmptyString
        | String c2 s'' =>
            let n := nat_of_ascii c2 in
            if (128 <=? n)%nat && (n <=? 158)%nat && negb (n =? 151)%nat
            then String c (String (ascii_of_nat (n + 32)) (lower_latin1 s''))
            else String c (String c2 (lower_latin1 s''))
        end
      else String (lower_byte c) (lower_latin1 s')
  end.

Fixpoint upper_ascii (s : string) : string :=
  match s with
  | EmptyString => EmptyString
  | String c s' => String (upper_byte c) (upper_ascii s')
  end.

Definition is_space (c : ascii) : bool :=
  let n := nat_of_ascii c in
  ((9 <=? n)%nat && (n <=? 13)%nat) || ((28 <=? n)%nat && (n <=? 32)%nat).

Fixpoint lstrip (s : string) : string :=
  match s with
  | EmptyString => EmptyString
  | String c s' => if is_space c then lstrip s' else s
  end.

Fixpoint rstrip (s : string) : string :=
  match s with
  | EmptyString => EmptyString
  | String c s' =>
      let r := rstrip s' in
      if is_space c && (r =? "")%string then EmptyString else String c r
  end.

Definition strip_ascii (s : string) : string := rstrip (lstrip s).

Definition str_escalar (v : json) : string :=
  match v with
  | JNull => "None"
  | JBool true => "True"
  | JBool false => "False"
  | JNum n => DecimalString.NilZero.string_of_int (Z.to_int n)
  | JStr s => s
  | JList _ | JDict _ => ""
  | JFloat FNan => "nan"
  | JFloat (FInf neg) => if neg then "-inf" else "inf"
  | JFloat (FFin neg m e) =>
      let a := Z.shiftl (Z.of_N m) e in
      if (0 <=? e) && (a <? 10 ^ 16) then
        (if neg then "-" else "")
        +++ DecimalString.NilZero.string_of_int (Z.to_int a) +++ ".0"
      else ""
  end.

Definition digito (c : ascii) : option Z :=
  let n := Z.of_nat (nat_of_ascii c) in
  if (48 <=? n) && (n <=? 57) then Some (n - 48) else None.

Definition bissexto (y : Z) : bool :=
  (y mod 4 =? 0) && (negb (y mod 100 =? 0) || (y mod 400 =? 0)).

Definition dias_do_mes (y m : Z) : Z :=
  if m =? 2 then (if bissexto y then 29 else 28)
  else if (m =? 4) || (m =? 6) || (m =? 9) || (m =? 11) then 30
  else 31.

Definition dias_antes_do_ano (y : Z) : Z :=
  let y1 := y - 1 in y1 * 365 + y1 / 4 - y1 / 100 + y1 / 400.

Definition dias_antes_do_mes (y m : Z) : Z :=
  fold_right Z.add 0 (map (dias_do_mes y) (map Z.of_nat (seq 1 (Z.to_nat (m - 1))))).

(** [date(y, m, d).toordinal()], when there is such a date *)
Definition ordinal (y m d : Z) : option date :=
  if (1 <=? y) && (y <=? 9999) && (1 <=? m) && (m <=? 12)
     && (1 <=? d) && (d <=? dias_do_mes y m)
  then Some (dias_antes_do_ano y + dias_antes_do_mes y m + d)
  else None.

Definition numero (ds : list ascii) : option Z :=
  fold_left (fun acc c =>
               match acc, digito c with
               | Some a, Some x => Some (10 * a + x)
               | _, _ => None
               end) ds (Some 0).

Definition fromisoformat_ymd (s : string) : option date :=
  match list_ascii_of_string s with
  | [y1; y2; y3; y4; h1; m1; m2; h2; d1; d2] =>
      if (Ascii.eqb h1 "-") && (Ascii.eqb h2 "-") then
        match numero [y1; y2; y3; y4], numero [m1; m2], numero [d1; d2] with
        | Some y, Some m, Some d => ordinal y m d
        | _, _, _ => None
        end
      else None
  | _ => None
  end.

Definition lib_exemplo : PyLib :=
  {| lower := lower_latin1;
     upper := upper_ascii;
     strip := strip_ascii;
     py_str := str_escalar;
     fromisoformat := fromisoformat_ymd;
     hoje := 739923;
     infer_string := false |}.

(** ** Data for the examples *)

Definition mov (data_hora descricao : string) : json :=
  JDict [("dataHora", JStr data_hora); ("descricao", JStr descricao)].

(** A log with two decisions, a deadline phrased twice, a movement
    without a timestamp and a movement with no field at all. *)
Definition log_exemplo : list json :=
  [ mov "2021-01-10T09:00:00" "Distribuído por sorteio";
    mov "2021-03-02T10:00:00" "Decisão interlocutória proferida";
    mov "2021-03-05T08:00:00" "Intimação para manifestação";
    JDict [("descricao", JStr "Conclusos ao juiz")];
    mov "2021-06-20T15:30:00" "Intimação para manifestação";
    JDict [];
    mov "2021-09-01T11:00:00" "Sentença de mérito";
    mov "2021-09-15T11:00:00" "Remetidos os autos" ].

Definition log_execucao : list json :=
  [ mov "2022-02-01T09:00:00" "Trânsito em julgado certificado";
    mov "2022-03-01T09:00:00" "PENHORA de bens";
    mov "2022-04-01T09:00:00" "Arquivado" ].

Definition hit_de (numero : string) (dist : json) (movimentos : list json) : json :=
  JDict [("_source",
          JDict [("numeroProcesso", JStr numero);
                 ("dataDistribuicao", dist);
                 ("movimentos", JList movimentos)])].

(** A [_source] with nothing but its number and its date. *)
Definition fonte_sem_movimentos : list (string * json) :=
  [ ("numeroProcesso", JStr "0000001-11.2020.8.17.0001");
    ("dataDistribuicao", JStr "2020-05-04T00:00:00.000Z") ].

Definition hit_sem_movimentos : json := JDict [("_source", JDict fonte_sem_movimentos)].

Definition hit_simples : json := hit_de "0000002-22.2021.8.17.0001" (JStr "2021-02-03") [].

Definition pagina_de (hits : list json) : resposta :=
  Dados (JDict [("hits", JDict [("hits", JList hits)])]).

(** Every request gets a page of 100 hits. *)
Definition tr_cheio : Transporte :=
  {| Net := unit;
     http_post := fun net _ _ => (pagina_de (repeat hit_simples 100), net) |}.

(** The first request gets a page of 100 hits, the second a page of 40. *)
Definition tr_pagina_curta : Transporte :=
  {| Net := nat;
     http_post := fun net _ _ =>
       (pagina_de (repeat hit_simples (if Nat.eqb net 0 then 100 else 40)), S net) |}.

(** The first request gets a page of 100 hits, every later one fails. *)
Definition tr_falha_depois : Transporte :=
  {| Net := nat;
     http_post := fun net _ _ =>
       match net with
       | O => (pagina_de (repeat hit_simples 100), S net)
       | S _ => (Falha "503 Server Error", S net)
       end |}.

(** TJPE is down; any other tribunal answers with three hits, the
    first and the last with the same number. *)
Definition tr_tribunais : Transporte :=
  {| Net := unit;
     http_post := fun net endpoint _ =>
       if (endpoint =? endpoint_de "tjpe")%string then (Falha "Connection refused", net)
       else (pagina_de [ hit_de "0001" (JStr "2021-02-03") log_exemplo;
                         hit_de "0002" (JStr "2021-02-04") log_execucao;
                         hit_de "0001" (JStr "2021-02-03") [] ], net) |}.

Definition args_exemplo (tribunais : list string) (desde : option string)
    (since_days : option Z) : argumentos :=
  {| arg_nome := Some "LOCAR SANEAMENTO AMBIENTAL LTDA";
     arg_cnpj := Some "35474949000108";
     arg_tribunais := tribunais;
     arg_max_paginas := 3;
     arg_desde := desde;
     arg_since_days := since_days;
     arg_selftest := false |}.

(** The first page of a query over [tr_falha_depois]. *)
Definition pagina_0_falha_depois : result (controle * list registro) * nat * list evento :=
  for_paginas (lib := lib_exemplo) (tr := tr_falha_depois)
    "LOCAR" "354" "tjpe" None (py_range 1) [] 0%nat.

Definition registros_pagina_0 : list registro :=
  match fst (fst pagina_0_falha_depois) with
  | Return cr => snd cr
  | Raise _ => []
  end.

(** Two spellings of one tribunal and a second tribunal, three hits
    each: of the nine records gathered, four survive. *)
Definition args_duplicados : argumentos :=
  args_exemplo ["tjba"; " TJBA "; "tjsp"] None None.

Definition run_duplicados : result (list registro) * unit * list evento :=
  main (lib := lib_exemplo) (tr := tr_tribunais) args_duplicados tt.

Definition saida_duplicados : list registro :=
  match fst (fst run_duplicados) with
  | Return out => out
  | Raise _ => []
  end.

(** The first request gets a page of 100 hits, every later one a list
    where the page should be. *)
Definition tr_invalida_depois : Transporte :=
  {| Net := nat;
     http_post := fun net _ _ =>
       match net with
       | O => (pagina_de (repeat hit_simples 100), S net)
       | S _ => (Dados (JList []), S net)
       end |}.

(** The first page of a query over [tr_invalida_depois]. *)
Definition pagina_0_invalida_depois : result (controle * list registro) * nat * list evento :=
  for_paginas (lib := lib_exemplo) (tr := tr_invalida_depois)
    "LOCAR" "354" "tjpe" None (py_range 1) [] 0%nat.

Definition args_selftest : argumentos :=
  {| arg_nome := None;
     arg_cnpj := None;
     arg_tribunais := ["tjpe"];
     arg_max_paginas := 3;
     arg_desde := Some "2024-01-01";
     arg_since_days := None;
     arg_selftest := true |}.

(** A log whose second movement is a string. *)
Definition log_invalido : list json :=
  [ mov "2021-01-10T09:00:00" "Distribuído por sorteio"; JStr "Conclusos" ].


(** ** Records for the deduplication *)

(** A record of TJPE with the given number and status. *)
Definition processo (numero situacao : json) : registro :=
  {| cnj := numero;
     tribunal := "TJPE";
     grau := JStr "G1";
     classe := JStr "Procedimento Comum";
     assunto := "Contrato";
     orgao := JStr "1a Vara";
     status := situacao;
     partes := "AUTOR: Empresa A";
     dt_distribuicao := JStr "2021-02-03";
     qtd_movimentos := 0;
     prazos_relevantes := "";
     resumo_decisao := JStr "";
     fase_execucao := "Não" |}.

(** The doubles 3.0 and 2^53. *)
Definition tres : pyfloat := FFin false 3 0.
Definition dois_53 : pyfloat := FFin false (2 ^ 52) 1.

(** Python 3.11 on: the basic format YYYYMMDD is read as well. *)
Definition fromisoformat_311 (s : string) : option date :=
  match fromisoformat_ymd s with
  | Some d => Some d
  | None =>
      if (String.length s =? 8)%nat then
        fromisoformat_ymd (substring 0 4 s +++ "-" +++ substring 4 2 s +++ "-" +++ substring 6 2 s)
      else None
  end.

Definition lib_311 : PyLib :=
  {| lower := lower_latin1;
     upper := upper_ascii;
     strip := strip_ascii;
     py_str := str_escalar;
     fromisoformat := fromisoformat_311;
     hoje := 739923;
     infer_string := false |}.

(** pandas 3 on. *)
Definition lib_pandas_3 : PyLib :=
  {| lower := lower_latin1;
     upper := upper_ascii;
     strip := strip_ascii;
     py_str := str_escalar;
     fromisoformat := fromisoformat_311;
     hoje := 739923;
     infer_string := true |}.

(** ** Destinations for the examples *)

(** The bytes before the last dot of the last component of a path,
    read from its end; none if the component has no dot. *)
Fixpoint antes_do_ponto (rv : list ascii) : option (list ascii) :=
  match rv with
  | [] => None
  | c :: r =>
      if Ascii.eqb c "/" then None
      else if Ascii.eqb c "." then Some r
      else antes_do_ponto r
  end.

(** The component has only dots before that one. *)
Fixpoint so_pontos (rv : list ascii) : bool :=
  match rv with
  | [] => true
  | c :: r =>
      if Ascii.eqb c "/" then true
      else if Ascii.eqb c "." then so_pontos r
      else false
  end.

(** [os.path.splitext(p)[0]] of [posixpath]. *)
Definition splitext_posix (p : string) : string :=
  match antes_do_ponto (rev (list_ascii_of_string p)) with
  | Some r => if so_pontos r then p else string_of_list_ascii (rev r)
  | None => p
  end.

(** Writers that keep what they are handed, but for those of
    [falham], which raise. *)
Definition dest_exemplo (falham : list formato) (fpdf : bool) : Destinos :=
  {| FS := list (formato * string * carga);
     gravar := fun fs f c x =>
       if existsb (formato_eqb f) falham then (Some "No space left on device", fs)
       else (None, fs ++ [(f, c, x)]);
     tem_fpdf := fpdf;
     splitext_raiz := splitext_posix |}.

Definition saidas_exemplo (csv pdf : option string) (no_pdf : bool) : saidas :=
  {| arg_excel := Some "locar.xlsx";
     arg_csv := csv;
     arg_sqlite := None;
     arg_pdf := pdf;
     arg_no_pdf := no_pdf |}.

Definition so_pdf (pdf : string) (no_pdf : bool) : saidas :=
  {| arg_excel := None;
     arg_csv := None;
     arg_sqlite := None;
     arg_pdf := Some pdf;
     arg_no_pdf := no_pdf |}.

(** * Properties *)

Section Propriedades.

Context {lib : PyLib} {tr : Transporte}.

(** ** Substring containment *)

Lemma prefix_app (n b : string) : prefix n (n +++ b) = true.
Proof.
  induction n as [|c n IH]; simpl.
  - now destruct b.
  - destruct (ascii_dec c c) as [_|ne]; [exact IH | now elim ne].
Qed.

Lemma prefix_split (n h : string) :
  prefix n h = true -> exists b, h = n +++ b.
Proof.
  revert h; induction n as [|c n IH]; intros h H; simpl in *.
  - now exists h.
  - destruct h as [|c' h]; [discriminate|]. simpl in H.
    destruct (ascii_dec c c') as [->|]; [|discriminate].
    destruct (IH _ H) as [b ->]. now exists b.
Qed.

Lemma contains_prefix (n h : string) :
  prefix n h = true -> contains n h = true.
Proof.
  intros H. destruct h; cbn [contains]; now rewrite H.
Qed.

(** [contains] is the substring test: the needle stands somewhere in
    the haystack, whatever is around it. *)
Lemma contains_spec (n h : string) :
  contains n h = true <-> exists a b, h = a +++ n +++ b.
Proof.
  split.
  - induction h as [|c h IH]; cbn [contains].
    + destruct (prefix n "") eqn:E; [|discriminate].
      intros _. destruct (prefix_split _ _ E) as [b Hb]. now exists "", b.
    + destruct (prefix n (String c h)) eqn:E.
      * intros _. destruct (prefix_split _ _ E) as [b Hb]. now exists "", b.
      * intros H. destruct (IH H) as (a & b & ->). now exists (String c a), b.
  - intros (a & b & ->). induction a as [|c a IH].
    + change ("" +++ n +++ b) with (n +++ b).
      apply contains_prefix, prefix_app.
    + change (String c a +++ n +++ b) with (String c (a +++ n +++ b)).
      cbn [contains]. rewrite IH. now destruct (prefix n _).
Qed.

(** ** Classification *)

Lemma wf_get_descricao (m : json) :
  wf_movimento m = true ->
  py_get m "descricao" (JStr "") = Return (JStr (descricao m)).
Proof.
  destruct m as [| | | |l|d|]; try discriminate. simpl.
  destruct (lookup "descricao" d) as [[| | |s| | |]|]; try discriminate; reflexivity.
Qed.

Lemma wf_get_data_hora (m : json) :
  wf_movimento m = true ->
  py_get m "dataHora" (JStr "") = Return (data_hora m).
Proof.
  destruct m as [| | | |l|d|]; try discriminate. reflexivity.
Qed.

Lemma prazos_loop_ok (ms : list json) :
  forallb wf_movimento ms = true ->
  forall prazos,
    prazos_loop ms prazos
    = Return (prazos ++ map linha_prazo (filter (menciona KEYWORDS_PRAZO) ms)).
Proof.
  induction ms as [|m ms IH]; intros Hwf prazos.
  - cbn. now rewrite app_nil_r.
  - cbn [forallb] in Hwf. apply andb_true_iff in Hwf as [Hm Hms].
    cbn [prazos_loop filter].
    rewrite (wf_get_descricao m Hm). cbn [rbind py_lower].
    fold (menciona KEYWORDS_PRAZO m).
    destruct (menciona KEYWORDS_PRAZO m).
    + rewrite (wf_get_data_hora m Hm). cbn [rbind py_format map].
      rewrite (IH Hms). unfold linha_prazo at 2. now rewrite <- app_assoc.
    + apply IH, Hms.
Qed.

Lemma resumo_loop_ok (ms : list json) :
  forallb wf_movimento ms = true ->
  resumo_loop ms
  = Return (match find (menciona KEYWORDS_DECISAO) ms with
            | Some m => JStr (descricao m)
            | None => JStr ""
            end).
Proof.
  induction ms as [|m ms IH]; intros Hwf; [reflexivity|].
  cbn [forallb] in Hwf. apply andb_true_iff in Hwf as [Hm Hms].
  cbn [resumo_loop find].
  rewrite (wf_get_descricao m Hm). cbn [rbind py_lower].
  fold (menciona KEYWORDS_DECISAO m).
  destruct (menciona KEYWORDS_DECISAO m).
  - reflexivity.
  - apply IH, Hms.
Qed.

Lemma fase_keywords_ok (m : json) (keywords : list string) :
  wf_movimento m = true ->
  fase_keywords m keywords = Return (menciona keywords m).
Proof.
  intros Hm. induction keywords as [|k ks IH]; [reflexivity|].
  cbn [fase_keywords]. rewrite (wf_get_descricao m Hm). cbn [rbind py_lower].
  unfold menciona, any_keyword. cbn [existsb].
  destruct (contains k (lower (descricao m))); [reflexivity | exact IH].
Qed.

Lemma fase_loop_ok (ms : list json) :
  forallb wf_movimento ms = true ->
  fase_loop ms = Return (existsb (menciona KEYWORDS_EXECUCAO) ms).
Proof.
  induction ms as [|m ms IH]; intros Hwf; [reflexivity|].
  simpl in Hwf. apply andb_true_iff in Hwf as [Hm Hms].
  cbn [fase_loop existsb]. rewrite (fase_keywords_ok m _ Hm). cbn [rbind].
  destruct (menciona KEYWORDS_EXECUCAO m); [reflexivity | apply IH, Hms].
Qed.

(** ** One hit *)

Lemma rbind_Return {A B : Type} (c : result A) (k : A -> result B) (b : B) :
  rbind c k = Return b -> exists a, c = Return a /\ k a = Return b.
Proof.
  destruct c as [a|e]; simpl; [|discriminate]. intros H. now exists a.
Qed.

Ltac inv_rbind H :=
  let a := fresh "v" in
  let E := fresh "E" in
  apply rbind_Return in H; destruct H as (a & E & H).

(** What a built record holds, read back from the run that built it. *)
Lemma montar_registro_campos (trib : string) (src : json) (r : registro) :
  montar_registro trib src = Return r ->
  exists movimentos prazos resumo fase n,
    py_get src "movimentos" (JList []) = Return movimentos
    /\ extrair_prazos movimentos = Return prazos
    /\ extrair_resumo_decisao movimentos = Return resumo
    /\ extrair_fase_execucao movimentos = Return fase
    /\ py_len movimentos = Return n
    /\ prazos_relevantes r = join nl prazos
    /\ resumo_decisao r = resumo
    /\ fase_execucao r = (if fase then "Sim" else "Não")
    /\ qtd_movimentos r = n
    /\ tribunal r = upper trib.
Proof.
  unfold montar_registro. intros H.
  repeat inv_rbind H. injection H as <-.
  do 5 eexists. cbn [prazos_relevantes resumo_decisao fase_execucao qtd_movimentos tribunal].
  repeat split; first [eassumption | reflexivity].
Qed.

Lemma processar_hit_campos (trib : string) (desde : option date) (p : json) (r : registro) :
  processar_hit trib desde p = Return (Some r) ->
  exists src, py_get p "_source" (JDict []) = Return src
              /\ montar_registro trib src = Return r.
Proof.
  unfold processar_hit. intros H.
  inv_rbind H. rename v into src. inv_rbind H.
  destruct (antes_de desde (parse_date v)); [discriminate|].
  inv_rbind H. injection H as ->. now exists src.
Qed.

Lemma processar_hit_movimentos (trib : string) (desde : option date) (p : json)
    (r : registro) (movimentos : json) :
  movimentos_de p = Return movimentos ->
  processar_hit trib desde p = Return (Some r) ->
  exists prazos resumo fase n,
    extrair_prazos movimentos = Return prazos
    /\ extrair_resumo_decisao movimentos = Return resumo
    /\ extrair_fase_execucao movimentos = Return fase
    /\ py_len movimentos = Return n
    /\ prazos_relevantes r = join nl prazos
    /\ resumo_decisao r = resumo
    /\ fase_execucao r = (if fase then "Sim" else "Não")
    /\ qtd_movimentos r = n.
Proof.
  intros Hm H. destruct (processar_hit_campos _ _ _ _ H) as (src & Hsrc & Hr).
  destruct (montar_registro_campos _ _ _ Hr)
    as (mv & prazos & resumo & fase & n & Hmv & H1 & H2 & H3 & H4 & H5 & H6 & H7 & H8 & _).
  unfold movimentos_de in Hm. rewrite Hsrc in Hm. cbn [rbind] in Hm.
  rewrite Hmv in Hm. injection Hm as ->.
  exists prazos, resumo, fase, n. repeat split; assumption.
Qed.

(** ** The three signals *)

Lemma find_first {A : Type} (f : A -> bool) (l : list A) (x : A) :
  find f l = Some x ->
  exists l1 l2, l = l1 ++ x :: l2 /\ f x = true
                /\ forallb (fun y => negb (f y)) l1 = true.
Proof.
  induction l as [|a l IH]; [discriminate|]. cbn [find].
  destruct (f a) eqn:Ea.
  - intros [= ->]. now exists [], l.
  - intros H. destruct (IH H) as (l1 & l2 & -> & Hx & Hl1).
    exists (a :: l1), l2. cbn [forallb]. rewrite Ea. now repeat split.
Qed.

Lemma find_none {A : Type} (f : A -> bool) (l : list A) :
  find f l = None -> forallb (fun y => negb (f y)) l = true.
Proof.
  induction l as [|a l IH]; [reflexivity|]. cbn [find forallb].
  destruct (f a); [discriminate|]. exact IH.
Qed.

Lemma forallb_rev {A : Type} (f : A -> bool) (l : list A) :
  forallb f (rev l) = forallb f l.
Proof.
  induction l as [|a l IH]; [reflexivity|].
  cbn [rev forallb]. rewrite forallb_app, IH. cbn [forallb].
  rewrite andb_true_r. apply andb_comm.
Qed.

(** The first match from the end is the last match from the start. *)
Lemma find_rev_last {A : Type} (f : A -> bool) (l : list A) :
  match find f (rev l) with
  | Some x => exists l1 l2, l = l1 ++ x :: l2 /\ f x = true
                            /\ forallb (fun y => negb (f y)) l2 = true
  | None => forallb (fun y => negb (f y)) l = true
  end.
Proof.
  destruct (find f (rev l)) as [x|] eqn:E.
  - destruct (find_first _ _ _ E) as (l1 & l2 & Hl & Hx & Hl1).
    exists (rev l2), (rev l1). repeat split; [|exact Hx|now rewrite forallb_rev].
    rewrite <- (rev_involutive l), Hl, rev_app_distr. cbn [rev].
    now rewrite <- app_assoc.
  - rewrite <- forallb_rev. now apply find_none.
Qed.

Lemma menciona_spec (keywords : list string) (m : json) :
  menciona keywords m = true
  <-> exists k a b, In k keywords /\ lower (descricao m) = a +++ k +++ b.
Proof.
  unfold menciona, any_keyword. rewrite existsb_exists. split.
  - intros (k & Hk & Hc). apply contains_spec in Hc as (a & b & Hab). now exists k, a, b.
  - intros (k & a & b & Hk & Hab). exists k. split; [exact Hk|].
    apply contains_spec. now exists a, b.
Qed.

Lemma extrair_prazos_ok (ms : list json) :
  forallb wf_movimento ms = true ->
  extrair_prazos (JList ms)
  = Return (map linha_prazo (filter (menciona KEYWORDS_PRAZO) ms)).
Proof.
  intros Hwf. unfold extrair_prazos. cbn [py_iter rbind]. now rewrite prazos_loop_ok.
Qed.

Lemma extrair_resumo_decisao_ok (ms : list json) :
  forallb wf_movimento ms = true ->
  extrair_resumo_decisao (JList ms)
  = Return (match find (menciona KEYWORDS_DECISAO) (rev ms) with
            | Some m => JStr (descricao m)
            | None => JStr ""
            end).
Proof.
  intros Hwf. unfold extrair_resumo_decisao, py_reversed. cbn [py_iter rbind].
  apply resumo_loop_ok. now rewrite forallb_rev.
Qed.

Lemma extrair_fase_execucao_ok (ms : list json) :
  forallb wf_movimento ms = true ->
  extrair_fase_execucao (JList ms) = Return (existsb (menciona KEYWORDS_EXECUCAO) ms).
Proof.
  intros Hwf. unfold extrair_fase_execucao. cbn [py_iter rbind]. now apply fase_loop_ok.
Qed.

(** C1. The decision summary is the description of the last movement of
    the log whose lower-cased description contains a decision term: the
    first such movement met going through the log backwards, with no
    such movement after it.  It is the empty string when no movement of
    the log has one. *)
Theorem resumo_decisao_ultima_decisao (ms : list json) :
  forallb wf_movimento ms = true ->
  extrair_resumo_decisao (JList ms)
  = Return (match find (menciona KEYWORDS_DECISAO) (rev ms) with
            | Some m => JStr (descricao m)
            | None => JStr ""
            end)
  /\ ((exists l1 m l2,
          ms = l1 ++ m :: l2
          /\ menciona KEYWORDS_DECISAO m = true
          /\ forallb (fun x => negb (menciona KEYWORDS_DECISAO x)) l2 = true
          /\ extrair_resumo_decisao (JList ms) = Return (JStr (descricao m)))
      \/ (forallb (fun x => negb (menciona KEYWORDS_DECISAO x)) ms = true
          /\ extrair_resumo_decisao (JList ms) = Return (JStr "")))
  /\ (forall trib desde p r,
         movimentos_de p = Return (JList ms) ->
         processar_hit trib desde p = Return (Some r) ->
         resumo_decisao r
         = match find (menciona KEYWORDS_DECISAO) (rev ms) with
           | Some m => JStr (descricao m)
           | None => JStr ""
           end).
Proof.
  intros Hwf.
  pose proof (extrair_resumo_decisao_ok ms Hwf) as Hrun.
  split; [exact Hrun|]. split.
  - rewrite Hrun. pose proof (find_rev_last (menciona KEYWORDS_DECISAO) ms) as H.
    destruct (find (menciona KEYWORDS_DECISAO) (rev ms)) as [m|].
    + left. destruct H as (l1 & l2 & Hl & Hm & Hl2). now exists l1, m, l2.
    + right. now split.
  - intros trib desde p r Hp Hr.
    destruct (processar_hit_movimentos _ _ _ _ _ Hp Hr)
      as (prazos & resumo & fase & n & _ & H2 & _ & _ & _ & H6 & _).
    rewrite Hrun in H2. injection H2 as <-. exact H6.
Qed.

(** C2. The deadlines are the movements whose lower-cased description
    contains a deadline term as a substring, each rendered as
    "timestamp: description", in the order of the log and as often as
    they occur; the record holds them joined by newlines. *)
Theorem prazos_relevantes_subsequencia (ms : list json) :
  forallb wf_movimento ms = true ->
  extrair_prazos (JList ms)
  = Return (map linha_prazo (filter (menciona KEYWORDS_PRAZO) ms))
  /\ (forall m, menciona KEYWORDS_PRAZO m = true
                <-> exists k a b, In k KEYWORDS_PRAZO
                                  /\ lower (descricao m) = a +++ k +++ b)
  /\ (forall trib desde p r,
         movimentos_de p = Return (JList ms) ->
         processar_hit trib desde p = Return (Some r) ->
         prazos_relevantes r
         = join nl (map linha_prazo (filter (menciona KEYWORDS_PRAZO) ms))).
Proof.
  intros Hwf.
  pose proof (extrair_prazos_ok ms Hwf) as Hrun.
  split; [exact Hrun|]. split; [intros m; apply menciona_spec|].
  intros trib desde p r Hp Hr.
  destruct (processar_hit_movimentos _ _ _ _ _ Hp Hr)
    as (prazos & resumo & fase & n & H1 & _ & _ & _ & H5 & _).
  rewrite Hrun in H1. injection H1 as <-. exact H5.
Qed.

(** C3. The execution flag is set exactly when some movement of the
    log, wherever it stands, has a lower-cased description that contains
    an execution term. *)
Theorem fase_execucao_algum_movimento (ms : list json) :
  forallb wf_movimento ms = true ->
  extrair_fase_execucao (JList ms) = Return (existsb (menciona KEYWORDS_EXECUCAO) ms)
  /\ (existsb (menciona KEYWORDS_EXECUCAO) ms = true
      <-> exists l1 m l2, ms = l1 ++ m :: l2 /\ menciona KEYWORDS_EXECUCAO m = true)
  /\ (forall trib desde p r,
         movimentos_de p = Return (JList ms) ->
         processar_hit trib desde p = Return (Some r) ->
         fase_execucao r
         = if existsb (menciona KEYWORDS_EXECUCAO) ms then "Sim" else "Não").
Proof.
  intros Hwf.
  pose proof (extrair_fase_execucao_ok ms Hwf) as Hrun.
  split; [exact Hrun|]. split.
  - rewrite existsb_exists. split.
    + intros (m & Hin & Hm). apply in_split in Hin as (l1 & l2 & ->). now exists l1, m, l2.
    + intros (l1 & m & l2 & -> & Hm). exists m. split; [|exact Hm].
      apply in_or_app. right. now left.
  - intros trib desde p r Hp Hr.
    destruct (processar_hit_movimentos _ _ _ _ _ Hp Hr)
      as (prazos & resumo & fase & n & _ & _ & H3 & _ & _ & _ & H7 & _).
    rewrite Hrun in H3. injection H3 as <-. exact H7.
Qed.

(** ** The date filter *)

(** A hit either cannot be read, or is tested against the filter on its
    distribution date and, when it passes, built into a record. *)
Lemma processar_hit_casos (trib : string) (p : json) :
  (data_distribuicao p = None
   /\ forall desde, processar_hit trib desde p = Raise AttributeError)
  \/ (exists src, forall desde,
         processar_hit trib desde p
         = if antes_de desde (data_distribuicao p) then Return None
           else reg <- montar_registro trib src ;; Return (Some reg)).
Proof.
  destruct p as [| | | |l|pd|]; try (left; split; [reflexivity | intros; reflexivity]).
  unfold processar_hit, data_distribuicao. cbn [py_get rbind].
  destruct (lookup "_source" pd) as [[| | | |l|src|]|];
    try (left; split; [reflexivity | intros; reflexivity]).
  - right. exists (JDict src). intros desde. cbn [py_get rbind].
    now destruct (lookup "dataDistribuicao" src).
  - right. exists (JDict []). intros desde. reflexivity.
Qed.

Lemma antes_de_Some (d : date) (o : option date) :
  antes_de (Some d) o = true <-> exists dd, o = Some dd /\ dd < d.
Proof.
  destruct o as [dd|]; cbn [antes_de].
  - rewrite Z.ltb_lt. split; [intros H; now exists dd | now intros (x & [= ->] & H)].
  - split; [discriminate | now intros (x & [=] & _)].
Qed.

Lemma data_distribuicao_fonte (p : json) (src : list (string * json)) :
  fonte p = Some src ->
  data_distribuicao p
  = parse_date (match lookup "dataDistribuicao" src with
                | Some v => v
                | None => JStr ""
                end).
Proof.
  destruct p as [| | | |l|pd|]; try discriminate. unfold fonte, data_distribuicao.
  destruct (lookup "_source" pd) as [[| | | |l|src'|]|]; try discriminate.
  - intros [= ->]. now destruct (lookup "dataDistribuicao" src).
  - now intros [= <-].
Qed.

(** C5. Under a filter [d], a hit is skipped exactly when its
    distribution date parses and is earlier than [d].  A hit dated [d]
    or later, and a hit whose date does not parse, is processed as it
    would be without a filter, and without a filter no hit is skipped.
    The date of a hit is what [fromisoformat] makes of the first ten
    characters of [dataDistribuicao]: a value that is not a string has
    no date, nor has a missing one, the empty string being no date.  A
    skipped hit adds nothing to the results; any other adds its record
    at the end. *)
Theorem filtro_desde_fail_open (trib : string) (d : date) (p : json) :
  (processar_hit trib (Some d) p = Return None
   <-> exists dd, data_distribuicao p = Some dd /\ dd < d)
  /\ (forall dd, data_distribuicao p = Some dd -> d <= dd ->
        processar_hit trib (Some d) p = processar_hit trib None p)
  /\ (data_distribuicao p = None ->
        processar_hit trib (Some d) p = processar_hit trib None p)
  /\ (forall o, processar_hit trib None p = Return o -> exists reg, o = Some reg)
  /\ (forall src,
        fonte p = Some src ->
        match lookup "dataDistribuicao" src with
        | Some (JStr s) => data_distribuicao p = fromisoformat (str_slice_to 10 s)
        | Some _ => data_distribuicao p = None
        | None => fromisoformat "" = None -> data_distribuicao p = None
        end)
  /\ (forall desde hits resultados,
        processar_hit trib desde p = Return None ->
        for_hits trib desde (p :: hits) resultados
        = for_hits trib desde hits resultados)
  /\ (forall desde hits resultados reg,
        processar_hit trib desde p = Return (Some reg) ->
        for_hits trib desde (p :: hits) resultados
        = for_hits trib desde hits (resultados ++ [reg])).
Proof.
  assert (Hdata : forall src,
             fonte p = Some src ->
             match lookup "dataDistribuicao" src with
             | Some (JStr s) => data_distribuicao p = fromisoformat (str_slice_to 10 s)
             | Some _ => data_distribuicao p = None
             | None => fromisoformat "" = None -> data_distribuicao p = None
             end).
  { intros src Hf. rewrite (data_distribuicao_fonte p src Hf).
    destruct (lookup "dataDistribuicao" src) as [[| | |s| | |]|]; try reflexivity.
    intros H. exact H. }
  assert (Hfor0 : forall desde hits resultados,
             processar_hit trib desde p = Return None ->
             for_hits trib desde (p :: hits) resultados
             = for_hits trib desde hits resultados).
  { intros desde hits resultados H. cbn [for_hits]. now rewrite H. }
  assert (Hfor1 : forall desde hits resultados reg,
             processar_hit trib desde p = Return (Some reg) ->
             for_hits trib desde (p :: hits) resultados
             = for_hits trib desde hits (resultados ++ [reg])).
  { intros desde hits resultados reg H. cbn [for_hits]. now rewrite H. }
  destruct (processar_hit_casos trib p) as [[Hd Hp] | [src Hp]].
  - repeat split; try assumption.
    + rewrite Hp. discriminate.
    + rewrite Hd. now intros (dd & [=] & _).
    + intros dd. rewrite Hd. discriminate.
    + intros _. now rewrite !Hp.
    + intros o. rewrite Hp. discriminate.
  - repeat split; try assumption.
    + rewrite Hp. intros H. apply antes_de_Some.
      destruct (antes_de (Some d) (data_distribuicao p)); [reflexivity|].
      destruct (montar_registro trib src); discriminate.
    + intros H. apply antes_de_Some in H. now rewrite Hp, H.
    + intros dd Hdd Hle. rewrite !Hp, Hdd. cbn [antes_de].
      destruct (Z.ltb_spec dd d); [lia | reflexivity].
    + intros Hd. now rewrite !Hp, Hd.
    + intros o. rewrite Hp. cbn [antes_de].
      destruct (montar_registro trib src) as [reg|e]; [|discriminate].
      intros [= <-]. now exists reg.
Qed.

(** ** Records built from sparse hits *)

Lemma all_str_ok (l : list json) :
  forallb is_str l = true -> exists ss, all_str l = Return ss.
Proof.
  induction l as [|v l IH]; intros H; [now exists []|].
  cbn [forallb] in H. apply andb_true_iff in H as [Hv Hl].
  destruct v; try discriminate. destruct (IH Hl) as [ss E].
  exists (s :: ss). cbn [all_str]. now rewrite E.
Qed.

Lemma partes_fmt_ok (ps : list json) :
  forallb is_dict ps = true -> exists pss, partes_fmt ps = Return pss.
Proof.
  induction ps as [|v ps IH]; intros H; [now exists []|].
  cbn [forallb] in H. apply andb_true_iff in H as [Hv Hl].
  destruct v; try discriminate. destruct (IH Hl) as [pss E].
  cbn [partes_fmt py_get rbind]. rewrite E. cbn [rbind]. now eexists.
Qed.

Lemma assuntos_ok (src : list (string * json)) :
  wf_campos src = true ->
  exists s,
    (assuntos <- py_get (JDict src) "assuntosProcessuais" (JList []) ;;
     py_join ", " (if truthy assuntos then assuntos else JList []))
    = Return s.
Proof.
  unfold wf_campos. intros H. apply andb_true_iff in H as [H _].
  apply andb_true_iff in H as [H _]. cbn [py_get rbind].
  destruct (lookup "assuntosProcessuais" src) as [v|]; [|now exists ""].
  destruct v as [|b|n|s|l|dd|].
  5: { destruct (all_str_ok l H) as [ss E].
       destruct l as [|x l]; [now exists ""|].
       cbn [truthy]. unfold py_join. cbn [py_iter rbind]. rewrite E. now eexists. }
  all: cbv beta iota in H; apply negb_true_iff in H; rewrite H; now exists "".
Qed.

Lemma orgao_ok (src : list (string * json)) :
  wf_campos src = true ->
  exists v,
    (oj <- py_get (JDict src) "orgaoJulgador" (JDict []) ;; py_get oj "nomeOrgao" JNull)
    = Return v.
Proof.
  unfold wf_campos. intros H. apply andb_true_iff in H as [H _].
  apply andb_true_iff in H as [_ H]. cbn [py_get rbind].
  destruct (lookup "orgaoJulgador" src) as [v|]; [|now eexists].
  destruct v; try discriminate. now eexists.
Qed.

Lemma partes_ok (src : list (string * json)) :
  wf_campos src = true ->
  exists psl pss,
    py_iter (match lookup "partes" src with Some x => x | None => JList [] end)
    = Return psl
    /\ partes_fmt psl = Return pss.
Proof.
  unfold wf_campos. intros H. apply andb_true_iff in H as [_ H].
  destruct (lookup "partes" src) as [v|]; [|now exists [], []].
  destruct v; try discriminate. destruct (partes_fmt_ok l H) as [pss E].
  now exists l, pss.
Qed.

Lemma montar_registro_ok (trib : string) (src : list (string * json)) :
  wf_campos src = true ->
  wf_movimentos src = true ->
  exists r,
    montar_registro trib (JDict src) = Return r
    /\ qtd_movimentos r = Z.of_nat (List.length (lista_movimentos src))
    /\ prazos_relevantes r
       = join nl (map linha_prazo (filter (menciona KEYWORDS_PRAZO) (lista_movimentos src)))
    /\ resumo_decisao r
       = match find (menciona KEYWORDS_DECISAO) (rev (lista_movimentos src)) with
         | Some m => JStr (descricao m)
         | None => JStr ""
         end
    /\ fase_execucao r
       = if existsb (menciona KEYWORDS_EXECUCAO) (lista_movimentos src)
         then "Sim" else "Não".
Proof.
  intros Hc Hm.
  assert (Hmov : py_get (JDict src) "movimentos" (JList []) = Return (JList (lista_movimentos src))
                 /\ forallb wf_movimento (lista_movimentos src) = true).
  { unfold wf_movimentos in Hm. unfold lista_movimentos. cbn [py_get].
    destruct (lookup "movimentos" src) as [v|]; [|now split].
    destruct v; try discriminate. now split. }
  destruct Hmov as [Hget Hwf].
  destruct (assuntos_ok src Hc) as [s Hs].
  destruct (orgao_ok src Hc) as [o Ho].
  destruct (partes_ok src Hc) as (psl & pss & Hi & Hp).
  unfold montar_registro. rewrite Hget. cbn [rbind].
  rewrite (extrair_prazos_ok _ Hwf), (extrair_resumo_decisao_ok _ Hwf),
    (extrair_fase_execucao_ok _ Hwf).
  cbn [rbind]. cbn [py_get rbind] in Hs, Ho |- *.
  rewrite Hs. cbn [rbind]. rewrite Ho. cbn [rbind].
  rewrite Hi. cbn [rbind]. rewrite Hp. cbn [rbind py_len py_iter].
  eexists. split; [reflexivity|]. cbn. repeat split.
Qed.

Lemma processar_hit_fonte (trib : string) (desde : option date) (p : json)
    (src : list (string * json)) :
  fonte p = Some src ->
  processar_hit trib desde p
  = if antes_de desde (data_distribuicao p) then Return None
    else reg <- montar_registro trib (JDict src) ;; Return (Some reg).
Proof.
  intros Hf. destruct p as [| | | |l|pd|]; try discriminate.
  unfold fonte in Hf. unfold processar_hit, data_distribuicao. cbn [py_get rbind].
  destruct (lookup "_source" pd) as [[| | | |l|src'|]|]; try discriminate.
  - injection Hf as ->. cbn [py_get rbind].
    now destruct (lookup "dataDistribuicao" src).
  - now injection Hf as <-.
Qed.

Lemma processar_hit_ok (trib : string) (desde : option date) (p : json) :
  wf_hit p = true -> exists o, processar_hit trib desde p = Return o.
Proof.
  unfold wf_hit. destruct (fonte p) as [src|] eqn:Hf; [|discriminate].
  intros H. apply andb_true_iff in H as [Hc Hm].
  rewrite (processar_hit_fonte trib desde p src Hf).
  destruct (montar_registro_ok trib src Hc Hm) as (r & Hr & _).
  destruct (antes_de desde _); [now eexists | rewrite Hr; now eexists].
Qed.

Lemma for_hits_ok (trib : string) (desde : option date) (hits : list json) :
  forallb wf_hit hits = true ->
  forall resultados, exists rs, for_hits trib desde hits resultados = Return rs.
Proof.
  induction hits as [|p hits IH]; intros H resultados; [now eexists|].
  cbn [forallb] in H. apply andb_true_iff in H as [Hp Hh].
  destruct (processar_hit_ok trib desde p Hp) as [o Ho].
  cbn [for_hits]. rewrite Ho. cbn [rbind]. apply IH, Hh.
Qed.

(** The classification of a well-formed movement list never raises. *)
Lemma classificacao_ok (src : list (string * json)) :
  wf_movimentos src = true ->
  let ms := lista_movimentos src in
  py_get (JDict src) "movimentos" (JList []) = Return (JList ms)
  /\ extrair_prazos (JList ms)
     = Return (map linha_prazo (filter (menciona KEYWORDS_PRAZO) ms))
  /\ extrair_resumo_decisao (JList ms)
     = Return (match find (menciona KEYWORDS_DECISAO) (rev ms) with
               | Some m => JStr (descricao m)
               | None => JStr ""
               end)
  /\ extrair_fase_execucao (JList ms) = Return (existsb (menciona KEYWORDS_EXECUCAO) ms)
  /\ py_len (JList ms) = Return (Z.of_nat (List.length ms)).
Proof.
  intros Hm ms.
  assert (Hmov : py_get (JDict src) "movimentos" (JList []) = Return (JList ms)
                 /\ forallb wf_movimento ms = true).
  { unfold wf_movimentos in Hm. subst ms. unfold lista_movimentos. cbn [py_get].
    destruct (lookup "movimentos" src) as [v|]; [|now split].
    destruct v; try discriminate. now split. }
  destruct Hmov as [Hget Hwf]. split; [exact Hget|].
  split; [now apply extrair_prazos_ok|].
  split; [now apply extrair_resumo_decisao_ok|].
  split; [now apply extrair_fase_execucao_ok | reflexivity].
Qed.

(** C9. A hit whose [_source] has no movement list, or whose movements
    lack a description or a timestamp, is classified without raising,
    and its record is built whenever the other fields of the hit are as
    the API documents them: the hit is then skipped by the date filter
    or gives its record.  Without a movement list the classification
    finds no deadline, no decision and no execution, and the record
    counts 0 movements, has empty deadlines and summary, and is not in
    execution. *)
Theorem registro_sem_movimentos (trib : string) (desde : option date) (p : json)
    (src : list (string * json)) :
  fonte p = Some src ->
  wf_movimentos src = true ->
  (exists movimentos prazos resumo fase n,
      movimentos_de p = Return movimentos
      /\ extrair_prazos movimentos = Return prazos
      /\ extrair_resumo_decisao movimentos = Return resumo
      /\ extrair_fase_execucao movimentos = Return fase
      /\ py_len movimentos = Return n
      /\ (lookup "movimentos" src = None ->
          movimentos = JList [] /\ prazos = [] /\ resumo = JStr "" /\ fase = false /\ n = 0))
  /\ (forall r, processar_hit trib desde p = Return (Some r) ->
        qtd_movimentos r = Z.of_nat (List.length (lista_movimentos src))
        /\ (lookup "movimentos" src = None ->
            qtd_movimentos r = 0
            /\ prazos_relevantes r = ""
            /\ resumo_decisao r = JStr ""
            /\ fase_execucao r = "Não"))
  /\ (wf_campos src = true ->
      exists r,
        montar_registro trib (JDict src) = Return r
        /\ processar_hit trib desde p
           = Return (if antes_de desde (data_distribuicao p) then None else Some r))
  /\ (forall d, lookup "descricao" d = None -> wf_movimento (JDict d) = true).
Proof.
  intros Hf Hm.
  destruct (classificacao_ok src Hm) as (Hget & Hpz & Hrs & Hfe & Hlen).
  assert (Hmov : movimentos_de p = Return (JList (lista_movimentos src))).
  { destruct p as [| | | |l|pd|]; try discriminate.
    unfold fonte in Hf. unfold movimentos_de. cbn [py_get rbind].
    destruct (lookup "_source" pd) as [[| | | |l|src'|]|]; try discriminate.
    - injection Hf as ->. exact Hget.
    - injection Hf as <-. exact Hget. }
  split; [|split; [|split]].
  - exists (JList (lista_movimentos src)). do 4 eexists.
    repeat (split; [eassumption|]).
    intros Hnone. unfold lista_movimentos. rewrite Hnone. now repeat split.
  - intros r Hr.
    destruct (processar_hit_movimentos _ _ _ _ _ Hmov Hr)
      as (prazos & resumo & fase & n & H1 & H2 & H3 & H4 & H5 & H6 & H7 & H8).
    rewrite Hpz in H1. rewrite Hrs in H2. rewrite Hfe in H3. rewrite Hlen in H4.
    injection H1 as <-. injection H2 as <-. injection H3 as <-. injection H4 as <-.
    split; [exact H8|]. intros Hnone. unfold lista_movimentos in *.
    rewrite Hnone in *. now repeat split.
  - intros Hc. destruct (montar_registro_ok trib src Hc Hm) as (r & Hr & _).
    exists r. split; [exact Hr|].
    rewrite (processar_hit_fonte trib desde p src Hf).
    destruct (antes_de desde _); [reflexivity | now rewrite Hr].
  - intros d Hd. cbn [wf_movimento]. now rewrite Hd.
Qed.

(** ** Pagination *)

Lemma bind_eq {A B : Type} (m : M A) (k : A -> M B) (net : Net) :
  bind m k net
  = match m net with
    | (Return a, net', ev) => depois_de ev (k a net')
    | (Raise e, net', ev) => (Raise e, net', ev)
    end.
Proof. reflexivity. Qed.

Lemma depois_de_nil {A : Type} (x : result A * Net * list evento) :
  depois_de [] x = x.
Proof. now destruct x as [[r n] e]. Qed.

Lemma depois_de_app {A : Type} (e1 e2 : list evento) (x : result A * Net * list evento) :
  depois_de e1 (depois_de e2 x) = depois_de (e1 ++ e2) x.
Proof. destruct x as [[r n] e]. cbn. now rewrite app_assoc. Qed.

(** One iteration, spelled out by the answer it gets. *)
Lemma pagina_body_eq (nome cnpj trib : string) (desde : option date) (pagina : Z)
    (resultados : list registro) (net : Net) :
  pagina_body nome cnpj trib desde pagina resultados net
  = let ep := endpoint_de trib in
    let body := request_body nome cnpj pagina in
    match http_post net ep body with
    | (Falha exc, net1) =>
        (Return (Break, resultados), net1,
         [EvPost ep body (Falha exc); EvWarnFalha (upper trib) (pagina + 1) exc])
    | (Dados data, net1) =>
        (processar_pagina trib desde data resultados, net1,
         [EvPost ep body (Dados data)])
    end.
Proof.
  unfold pagina_body, bind, post, emit, lift, ret. cbv zeta.
  destruct (http_post net _ _) as [[exc|data] net1]; reflexivity.
Qed.

Lemma processar_pagina_Continue (trib : string) (desde : option date) (data : json)
    (rs rs' : list registro) :
  processar_pagina trib desde data rs = Return (Continue, rs') ->
  pagina_cheia (Dados data) = true.
Proof.
  unfold processar_pagina, pagina_cheia. destruct (hits_de data) as [hits|e]; [|discriminate].
  cbn [rbind]. destruct (truthy hits); [|discriminate]. cbn [negb andb].
  intros H. inv_rbind H. inv_rbind H. inv_rbind H. rewrite E1.
  destruct (Z.ltb_spec v1 page_size); [discriminate|]. now apply Z.leb_le.
Qed.

Lemma processar_pagina_Break (trib : string) (desde : option date) (data : json)
    (rs rs' : list registro) :
  processar_pagina trib desde data rs = Return (Break, rs') ->
  pagina_final (Dados data) = true.
Proof.
  unfold processar_pagina, pagina_final. destruct (hits_de data) as [hits|e]; [|discriminate].
  cbn [rbind]. destruct (truthy hits); [|reflexivity]. cbn [negb orb].
  intros H. inv_rbind H. inv_rbind H. inv_rbind H. rewrite E1.
  destruct (Z.ltb_spec v1 page_size); [reflexivity | discriminate].
Qed.

Lemma processar_pagina_100 (trib : string) (desde : option date) (data : json)
    (rs : list registro) :
  pagina_de_100 (Dados data) = true ->
  exists rs', processar_pagina trib desde data rs = Return (Continue, rs').
Proof.
  unfold processar_pagina, pagina_de_100.
  destruct (hits_de data) as [[| | | |hits| |]|e]; try discriminate.
  intros H. apply andb_true_iff in H as [Hn Hwf]. apply Z.eqb_eq in Hn.
  cbn [rbind]. destruct hits as [|p hits]; [discriminate|].
  cbn [truthy negb py_iter rbind py_len].
  destruct (for_hits_ok trib desde (p :: hits) Hwf rs) as [rs' E]. rewrite E.
  cbn [rbind]. rewrite Hn. now exists rs'.
Qed.

Lemma last_singleton {A : Type} (l : list A) (x y : A) :
  [x] = l ++ [y] -> l = [] /\ x = y.
Proof.
  destruct l as [|a l]; cbn.
  - now intros [= ->].
  - intros [= _ H]. now destruct l.
Qed.

Lemma last_cons {A : Type} (l l' : list A) (x y z : A) :
  x :: l' ++ [z] = l ++ [y] -> exists l0, l = x :: l0 /\ l' ++ [z] = l0 ++ [y].
Proof.
  destruct l as [|a l]; cbn.
  - intros [= _ H]. now destruct l'.
  - intros [= -> H]. now exists l.
Qed.

(** The requests and answers of the page loop: one request per page
    visited, in page order; every answer but the last was a full page;
    a loop left by [break] ends on a final answer, and a loop that ran
    out of pages visited them all. *)
Lemma for_paginas_traco (nome cnpj trib : string) (desde : option date) (pags : list Z) :
  forall resultados net,
    let run := for_paginas nome cnpj trib desde pags resultados net in
    exists k,
      (k <= List.length pags)%nat
      /\ pedidos (snd run)
         = map (fun pg => (endpoint_de trib, request_body nome cnpj pg)) (firstn k pags)
      /\ List.length (respostas (snd run)) = k
      /\ (forall l resp, respostas (snd run) = l ++ [resp] -> forallb pagina_cheia l = true)
      /\ (forall r, fst (fst run) = Return (Break, r) ->
            exists l resp, respostas (snd run) = l ++ [resp] /\ pagina_final resp = true)
      /\ (forall r, fst (fst run) = Return (Continue, r) ->
            k = List.length pags /\ forallb pagina_cheia (respostas (snd run)) = true).
Proof.
  induction pags as [|pg pags IH]; intros resultados net run; subst run.
  - exists 0%nat. cbn. repeat split; try discriminate; auto.
    intros l resp H. now destruct l.
  - cbn [for_paginas]. rewrite bind_eq, pagina_body_eq. cbv zeta.
    destruct (http_post net _ _) as [[exc|data] net1].
    + exists 1%nat. cbn. repeat split; try discriminate; try lia.
      * intros l resp H. apply last_singleton in H as [-> _]. reflexivity.
      * intros r _. now exists [], (Falha exc).
    + destruct (processar_pagina trib desde data resultados) as [[[|] r]|e] eqn:Ep.
      * cbn [fst snd]. specialize (IH r net1). cbv zeta in IH.
        destruct (for_paginas nome cnpj trib desde pags r net1) as [[out net2] evs2].
        destruct IH as (k & Hk & Hped & Hlen & Hcheias & Hbreak & Hcont).
        cbn [fst snd] in *. exists (S k). cbn [depois_de fst snd].
        pose proof (processar_pagina_Continue _ _ _ _ _ Ep) as Hfull.
        cbn [app pedidos respostas flat_map List.length firstn map] in *.
        fold (pedidos evs2). fold (respostas evs2).
        repeat split.
        -- lia.
        -- now rewrite Hped.
        -- now rewrite Hlen.
        -- intros l resp H. destruct (respostas evs2) as [|x xs] eqn:Ex.
           ++ apply last_singleton in H as [-> _]. reflexivity.
           ++ destruct (exists_last (l := x :: xs)) as (l' & z & Hl'); [discriminate|].
              rewrite Hl' in H. apply last_cons in H as (l0 & -> & H0).
              cbn [forallb]. rewrite Hfull. cbn [andb].
              apply (Hcheias l0 resp). now rewrite Hl'.
        -- intros r0 H. destruct (Hbreak r0 H) as (l & resp & Hl & Hf).
           exists (Dados data :: l), resp. now rewrite Hl.
        -- now destruct (Hcont r0 H) as [-> _].
        -- cbn [forallb]. rewrite Hfull. now destruct (Hcont r0 H) as [_ ->].
      * exists 1%nat. cbn. repeat split; try discriminate; try lia.
        -- intros l resp H. apply last_singleton in H as [-> _]. reflexivity.
        -- intros r0 _. exists [], (Dados data). split; [reflexivity|].
           apply (processar_pagina_Break _ _ _ _ _ Ep).
      * exists 1%nat. cbn. repeat split; try discriminate; try lia.
        intros l resp H. apply last_singleton in H as [-> _]. reflexivity.
Qed.

Lemma for_paginas_100 (nome cnpj trib : string) (desde : option date) :
  (forall net ep body, pagina_de_100 (fst (http_post net ep body)) = true) ->
  forall pags resultados net,
    exists rs net' evs,
      for_paginas nome cnpj trib desde pags resultados net = (Return (Continue, rs), net', evs)
      /\ List.length (respostas evs) = List.length pags.
Proof.
  intros Hall. induction pags as [|pg pags IH]; intros resultados net.
  - now exists resultados, net, [].
  - cbn [for_paginas]. rewrite bind_eq, pagina_body_eq. cbv zeta.
    specialize (Hall net (endpoint_de trib) (request_body nome cnpj pg)).
    destruct (http_post net _ _) as [[exc|data] net1]; [discriminate|].
    cbn [fst] in Hall.
    destruct (processar_pagina_100 trib desde data resultados Hall) as [rs' E].
    rewrite E. cbn [fst snd].
    destruct (IH rs' net1) as (rs & net' & evs & Hrun & Hlen).
    rewrite Hrun. exists rs, net', ([EvPost (endpoint_de trib) (request_body nome cnpj pg) (Dados data)] ++ evs).
    split; [reflexivity|]. cbn. fold (respostas evs). now rewrite Hlen.
Qed.

Lemma py_range_length (n : Z) : List.length (py_range n) = Z.to_nat n.
Proof. unfold py_range. now rewrite length_map, length_seq. Qed.

Lemma buscar_processos_eq (nome cnpj trib : string) (n : Z) (desde : option date) (net : Net) :
  buscar_processos nome cnpj trib n desde net
  = match for_paginas nome cnpj trib desde (py_range n) [] net with
    | (Return cr, net', evs) => (Return (snd cr), net', evs)
    | (Raise e, net', evs) => (Raise e, net', evs)
    end.
Proof.
  unfold buscar_processos. rewrite bind_eq.
  destruct (for_paginas _ _ _ _ _ _ _) as [[[cr|e] net'] evs]; [|reflexivity].
  cbn. now rewrite app_nil_r.
Qed.

Lemma pagina_cheia_nao_final (resp : resposta) :
  pagina_cheia resp = true -> pagina_final resp = false.
Proof.
  destruct resp as [exc|data]; [discriminate|]. unfold pagina_cheia, pagina_final.
  destruct (hits_de data) as [hits|e]; [|discriminate].
  intros H. apply andb_true_iff in H as [-> H]. cbn [negb orb].
  destruct (py_len hits) as [n|e]; [|reflexivity].
  apply Z.leb_le in H. now apply Z.ltb_ge.
Qed.

Lemma cheias_nao_finais (l : list resposta) :
  forallb pagina_cheia l = true -> existsb pagina_final l = false.
Proof.
  induction l as [|r l IH]; [reflexivity|]. cbn [forallb existsb].
  intros H. apply andb_true_iff in H as [Hr Hl].
  now rewrite (pagina_cheia_nao_final r Hr), IH.
Qed.

(** C4. A query with [max_paginas = n] sends its requests for the pages
    0, 1, ... in order, never more than [n] of them.  Every answer but
    the last was a page of at least 100 hits, none of them an answer
    that ends the loop, and a query that returns
    having sent fewer than [n] requests ended on a failure, on a page
    with no hits or on a page with fewer than 100 hits.  When every
    answer is a page of exactly 100 hits, the query returns after
    exactly [n] requests. *)
Theorem paginacao_termina (nome cnpj trib : string) (n : Z) (desde : option date) (net : Net) :
  let run := buscar_processos nome cnpj trib n desde net in
  (exists k, (k <= Z.to_nat n)%nat
             /\ pedidos (snd run)
                = map (fun pg => (endpoint_de trib, request_body nome cnpj pg))
                    (firstn k (py_range n))
             /\ List.length (respostas (snd run)) = k)
  /\ (forall l resp, respostas (snd run) = l ++ [resp] ->
        forallb pagina_cheia l = true
        /\ existsb pagina_final l = false
        /\ (forall rs, fst (fst run) = Return rs ->
              (List.length (respostas (snd run)) < Z.to_nat n)%nat ->
              pagina_final resp = true))
  /\ ((forall net0 ep body, pagina_de_100 (fst (http_post net0 ep body)) = true) ->
      (exists rs, fst (fst run) = Return rs)
      /\ List.length (respostas (snd run)) = Z.to_nat n).
Proof.
  intros run. subst run. rewrite buscar_processos_eq.
  pose proof (for_paginas_traco nome cnpj trib desde (py_range n) [] net) as H.
  cbv zeta in H. rewrite py_range_length in H.
  split; [|split].
  - destruct H as (k & Hk & Hped & Hlen & _).
    exists k. destruct (for_paginas _ _ _ _ _ _ _) as [[[cr|e] net'] evs]; now repeat split.
  - intros l resp Hl.
    destruct H as (k & Hk & Hped & Hlen & Hcheias & Hbreak & Hcont).
    destruct (for_paginas _ _ _ _ _ _ _) as [[[cr|e] net'] evs]; cbn [fst snd] in *.
    + split; [now apply (Hcheias l resp)|].
      split; [now apply cheias_nao_finais, (Hcheias l resp)|]. intros rs _ Hlt.
      destruct cr as [[|] r].
      * destruct (Hcont r eq_refl) as [-> _]. lia.
      * destruct (Hbreak r eq_refl) as (l' & resp' & Hl' & Hfin).
        rewrite Hl' in Hl. apply app_inj_tail in Hl as [_ ->]. exact Hfin.
    + split; [now apply (Hcheias l resp)|].
      split; [now apply cheias_nao_finais, (Hcheias l resp)|]. discriminate.
  - intros Hall.
    destruct (for_paginas_100 nome cnpj trib desde Hall (py_range n) [] net)
      as (rs & net' & evs & Hrun & Hlen).
    rewrite Hrun. cbn [fst snd]. rewrite Hlen, py_range_length. split; [now eexists | reflexivity].
Qed.

(** ** Transport failures *)

Lemma for_paginas_app (nome cnpj trib : string) (desde : option date) (l1 l2 : list Z) :
  forall resultados net,
    for_paginas nome cnpj trib desde (l1 ++ l2) resultados net
    = match for_paginas nome cnpj trib desde l1 resultados net with
      | (Return (Continue, rs), net1, evs1) =>
          depois_de evs1 (for_paginas nome cnpj trib desde l2 rs net1)
      | other => other
      end.
Proof.
  induction l1 as [|pg l1 IH]; intros resultados net.
  - cbn. now rewrite depois_de_nil.
  - cbn [app for_paginas]. rewrite !bind_eq.
    destruct (pagina_body nome cnpj trib desde pg resultados net) as [[[[[|] rs]|e] net1] evs1];
      cbn [fst snd]; [| cbn; now rewrite app_nil_r | reflexivity].
    rewrite IH.
    destruct (for_paginas nome cnpj trib desde l1 rs net1) as [[[[[|] rs']|e'] net2] evs2];
      cbn [depois_de]; try reflexivity.
    now rewrite depois_de_app.
Qed.

Lemma py_range_split (k n : Z) :
  0 <= k < n ->
  exists rest, py_range n = py_range k ++ k :: rest.
Proof.
  intros Hk. unfold py_range.
  replace (Z.to_nat n) with (Z.to_nat k + S (Z.to_nat (n - k - 1)))%nat by lia.
  rewrite seq_app, map_app. cbn [seq map]. rewrite Nat.add_0_l, Z2Nat.id by lia.
  now eexists.
Qed.

(** C6. When the request for page [k] fails after the pages before it
    were fetched and processed, the query returns the records gathered
    from those pages, having printed its warning and sent nothing more;
    the run goes on with the next tribunal, the records so far extended
    by these.  A tribunal whose first request fails adds no record. *)
Theorem falha_de_transporte (nome cnpj trib : string) (n k : Z) (desde : option date)
    (net net_k net' : Net) (acc : list registro) (evs_k : list evento) (exc : string) :
  0 <= k < n ->
  for_paginas nome cnpj trib desde (py_range k) [] net = (Return (Continue, acc), net_k, evs_k) ->
  http_post net_k (endpoint_de trib) (request_body nome cnpj k) = (Falha exc, net') ->
  let falha := [ EvPost (endpoint_de trib) (request_body nome cnpj k) (Falha exc);
                 EvWarnFalha (upper trib) (k + 1) exc ] in
  buscar_processos nome cnpj trib n desde net = (Return acc, net', evs_k ++ falha)
  /\ (forall t tribunais dados,
        strip (lower t) = trib ->
        for_tribunais nome cnpj n desde (t :: tribunais) dados net
        = depois_de
            (EvConsultando (upper trib) :: evs_k ++ falha
             ++ [EvEncontrados (Z.of_nat (List.length acc))])
            (for_tribunais nome cnpj n desde tribunais (dados ++ acc) net'))
  /\ (k = 0 -> acc = [] /\ evs_k = [] /\ net_k = net).
Proof.
  intros Hk Hrun Hpost falha.
  assert (Hb : buscar_processos nome cnpj trib n desde net = (Return acc, net', evs_k ++ falha)).
  { rewrite buscar_processos_eq.
    destruct (py_range_split k n Hk) as [rest ->].
    rewrite for_paginas_app, Hrun. cbn [for_paginas]. rewrite bind_eq, pagina_body_eq.
    cbv zeta. rewrite Hpost. cbn. reflexivity. }
  split; [exact Hb|split].
  - intros t tribunais dados Ht. cbn [for_tribunais]. cbv zeta. rewrite Ht.
    rewrite bind_eq. unfold emit at 1. rewrite bind_eq, Hb.
    rewrite bind_eq. unfold emit at 1.
    destruct (for_tribunais nome cnpj n desde tribunais (dados ++ acc) net') as [[out net2] evs2].
    cbn. rewrite <- !app_assoc. reflexivity.
  - intros ->. cbn in Hrun. now injection Hrun as <- <- <-.
Qed.

(** ** Deduplication *)

Lemma chave_eqb_eq (k k' : chave) : chave_eqb k k' = true <-> k = k'.
Proof.
  destruct k as [|a|m e|s], k' as [|b|m' e'|t]; cbn;
    try (split; [discriminate | intros [=]]).
  - now split.
  - rewrite Bool.eqb_true_iff. split; [now intros -> | now intros [= ->]].
  - rewrite andb_true_iff, !Z.eqb_eq. split; [now intros [-> ->] | now intros [= -> ->]].
  - rewrite String.eqb_eq. split; [now intros -> | now intros [= ->]].
Qed.

Lemma mesma_celula_valor (a b : json) :
  mesma_celula a b = true <-> (exists k, valor_chave a = Some k /\ valor_chave b = Some k).
Proof.
  unfold mesma_celula. destruct (valor_chave a) as [k|], (valor_chave b) as [k'|].
  - rewrite chave_eqb_eq. split; [intros ->; now exists k' | now intros (x & [= <-] & [= <-])].
  - split; [discriminate | now intros (x & _ & [=])].
  - split; [discriminate | now intros (x & [=] & _)].
  - split; [discriminate | now intros (x & [=] & _)].
Qed.


Lemma mesma_chave_trans (a b c : registro) :
  mesma_chave a b = true -> mesma_chave b c = true -> mesma_chave a c = true.
Proof.
  unfold mesma_chave. rewrite !andb_true_iff, !mesma_celula_valor, !String.eqb_eq.
  intros [(k & Ha & Hb) ->] [(k' & Hb' & Hc) ->]. split; [|reflexivity].
  rewrite Hb in Hb'. injection Hb' as <-. now exists k.
Qed.

Lemma mesma_chave_refl (a : registro) :
  hashable (cnj a) = true -> mesma_chave a a = true.
Proof.
  unfold mesma_chave, hashable. rewrite andb_true_iff, mesma_celula_valor, String.eqb_eq.
  intros H. split; [|reflexivity]. destruct (valor_chave (cnj a)) as [k|]; [now exists k | discriminate].
Qed.

Lemma keep_first_sub (rows seen : list registro) :
  subsequencia (keep_first seen rows) rows.
Proof.
  revert seen. induction rows as [|r rows IH]; intros seen; cbn [keep_first].
  - constructor.
  - destruct (existsb _ seen); constructor; apply IH.
Qed.

(** A row that survives is the first of the rows with its key, and none
    of the rows seen before has it. *)
Lemma keep_first_In (rows seen : list registro) (r : registro) :
  In r (keep_first seen rows) ->
  exists l1 l2, rows = l1 ++ r :: l2
                /\ existsb (fun s => mesma_chave s r) (seen ++ l1) = false.
Proof.
  revert seen. induction rows as [|a rows IH]; intros seen; cbn [keep_first]; [easy|].
  destruct (existsb (fun s => mesma_chave s a) seen) eqn:Ea.
  - intros Hin. destruct (IH _ Hin) as (l1 & l2 & -> & Hno).
    exists (a :: l1), l2. split; [reflexivity|].
    rewrite existsb_app in Hno |- *. apply orb_false_iff in Hno as [Hs Hl1].
    rewrite Hs. cbn [existsb orb]. rewrite Hl1, orb_false_r.
    destruct (mesma_chave a r) eqn:Ear; [|reflexivity].
    apply existsb_exists in Ea as (s & Hin_s & Hsa).
    assert (Hsr : existsb (fun s => mesma_chave s r) seen = true).
    { apply existsb_exists. exists s. split; [exact Hin_s|].
      now apply (mesma_chave_trans s a r). }
    congruence.
  - intros [<- | Hin].
    + exists [], rows. now rewrite app_nil_r.
    + destruct (IH _ Hin) as (l1 & l2 & -> & Hno).
      exists (a :: l1), l2. split; [reflexivity|].
      now rewrite <- app_assoc in Hno.
Qed.

Lemma keep_first_unico (rows seen l1 l2 l3 : list registro) (a b : registro) :
  keep_first seen rows = l1 ++ a :: l2 ++ b :: l3 -> mesma_chave a b = false.
Proof.
  revert seen l1. induction rows as [|x rows IH]; intros seen l1; cbn [keep_first].
  - now destruct l1.
  - destruct (existsb (fun s => mesma_chave s x) seen) eqn:Ex; [apply IH|].
    destruct l1 as [|y l1]; cbn [app].
    + intros [= -> H].
      assert (Hin : In b (keep_first (seen ++ [a]) rows)).
      { rewrite H. apply in_or_app. right. now left. }
      destruct (keep_first_In _ _ _ Hin) as (k1 & k2 & _ & Hno).
      rewrite !existsb_app in Hno. apply orb_false_iff in Hno as [Hno _].
      apply orb_false_iff in Hno as [_ Hno]. cbn [existsb] in Hno.
      now rewrite orb_false_r in Hno.
    + intros [= _ H]. now apply (IH _ _ H).
Qed.

Lemma keep_first_cobre (rows seen : list registro) (x : registro) :
  In x rows ->
  hashable (cnj x) = true ->
  existsb (fun s => mesma_chave s x) seen = true
  \/ exists r, In r (keep_first seen rows) /\ mesma_chave r x = true.
Proof.
  revert seen. induction rows as [|a rows IH]; intros seen; [easy|].
  intros [-> | Hin] Hx; cbn [keep_first].
  - destruct (existsb (fun s => mesma_chave s x) seen) eqn:Ex; [now left|].
    right. exists x. split; [now left | now apply mesma_chave_refl].
  - destruct (existsb (fun s => mesma_chave s a) seen) eqn:Ea.
    + apply (IH seen Hin Hx).
    + destruct (IH (seen ++ [a]) Hin Hx) as [Hs | (r & Hr & Hrx)].
      * rewrite existsb_app in Hs. apply orb_true_iff in Hs as [Hs | Hs]; [now left|].
        right. exists a. split; [now left|]. cbn in Hs. now rewrite orb_false_r in Hs.
      * right. exists r. split; [now right | exact Hrx].
Qed.

(** [float(n)] is finite for an int of 64 bits. *)
Lemma float_de_int_64 (n : Z) :
  oINT64_MIN <= n <= oINT64_MAX ->
  exists neg m e, float_de_int n = FFin neg m e.
Proof.
  intros Hn. unfold float_de_int. cbv zeta.
  set (a := Z.abs n).
  set (s := Z.max 0 (Z.log2 a + 1 - 53)).
  set (q := Z.shiftr a s).
  match goal with
  | |- context [if ?c then q + 1 else q] => set (q' := if c then q + 1 else q)
  end.
  assert (Ha : 0 <= a <= 2 ^ 63) by (unfold a, oINT64_MIN, oINT64_MAX in *; lia).
  assert (Hs : 0 <= s <= 11).
  { unfold s. destruct (Z.eq_dec a 0) as [-> | Hnz]; [cbn; lia|].
    assert (Z.log2 a < 64); [|lia].
    apply Z.log2_lt_pow2; lia. }
  assert (Hq : 0 <= q <= 2 ^ 63).
  { unfold q. rewrite Z.shiftr_div_pow2 by lia. split.
    - apply Z.div_pos; [lia | apply Z.pow_pos_nonneg; lia].
    - transitivity a; [|lia]. apply Z.div_le_upper_bound; [apply Z.pow_pos_nonneg; lia|].
      assert (1 <= 2 ^ s) by (apply (Z.pow_le_mono_r 2 0 s); lia). nia. }
  assert (Hq' : 0 <= q' <= 2 ^ 64).
  { unfold q'. match goal with |- context [if ?c then _ else _] => destruct c end; lia. }
  assert (Hsh : Z.shiftl q' s < 2 ^ 1024).
  { rewrite Z.shiftl_mul_pow2 by lia.
    assert (2 ^ s <= 2 ^ 11) by (apply Z.pow_le_mono_r; lia).
    assert (0 < 2 ^ s) by (apply Z.pow_pos_nonneg; lia).
    assert (2 ^ 64 * 2 ^ 11 < 2 ^ 1024).
    { rewrite <- Z.pow_add_r by lia. apply Z.pow_lt_mono_r; lia. }
    nia. }
  apply Z.leb_gt in Hsh. rewrite Hsh. now eexists _, _, _.
Qed.

Lemma examinar_nulos (vals : list json) :
  forallb e_nulo vals = true ->
  forall s, exists s',
    examinar vals s = Return (Some s')
    /\ nan_ s' = nan_ s /\ bool_ s' = bool_ s /\ int_ s' = int_ s /\ float_ s' = float_ s.
Proof.
  induction vals as [|v vals IH]; intros H s.
  - now exists s.
  - cbn [forallb] in H. apply andb_true_iff in H as [Hv H].
    destruct v; try discriminate. cbn [examinar].
    destruct (IH H (saw_null s)) as (s' & -> & Hs). now exists s'.
Qed.

Lemma examinar_estaveis (vals : list json) :
  forallb celula_estavel vals = true ->
  forall s,
    null_ s = false -> nan_ s = false -> float_ s = false -> uint_ s = false ->
    examinar vals s = Return None
    \/ exists s', examinar vals s = Return (Some s')
                  /\ null_ s' = false /\ nan_ s' = false /\ float_ s' = false.
Proof.
  induction vals as [|v vals IH]; intros H s Hnull Hnan Hfl Hu.
  - right. now exists s.
  - cbn [forallb] in H. apply andb_true_iff in H as [Hv H].
    destruct v as [|b|n|t|l|d|x]; try discriminate; cbn [examinar]; try (now left).
    + now apply IH.
    + cbn [celula_estavel] in Hv. apply andb_true_iff in Hv as [Hlo Hhi].
      apply Z.leb_le in Hlo, Hhi.
      destruct (float_de_int_64 n (conj Hlo Hhi)) as (neg & m & e & ->).
      rewrite Hnull.
      assert (Hu' : uint_ (saw_int n s) = false).
      { cbn [saw_int uint_]. rewrite Hu. cbn [orb].
        apply andb_false_iff. left. now apply Z.ltb_ge. }
      rewrite Hu'. cbn [andb orb].
      replace (oUINT64_MAX <? n) with false
        by (symmetry; apply Z.ltb_ge; unfold oUINT64_MAX, oINT64_MAX in *; lia).
      replace (n <? oINT64_MIN) with false by (symmetry; now apply Z.ltb_ge).
      cbn [orb]. now apply IH.
Qed.

(** A column of the stable kind comes back as it is. *)
Lemma maybe_convert_objects_estavel (vals : list json) :
  coluna_estavel vals = true ->
  exists d, maybe_convert_objects vals = Return d
            /\ forall v, In v vals -> celula d v = v.
Proof.
  unfold coluna_estavel, maybe_convert_objects. intros H.
  apply orb_true_iff in H as [H | H].
  - destruct (examinar_nulos vals H nada_visto) as (s' & -> & Hn & Hb & Hi & Hf).
    cbn in Hn, Hb, Hi, Hf. cbn [rbind]. rewrite Hn, Hb, Hi, Hf. cbn [orb].
    exists DObject. split; [now destruct (null_ s')|]. intros v _. now destruct v.
  - assert (Hcel : forall d v, In v vals -> d <> DFloat -> celula d v = v).
    { intros d v Hv Hd. rewrite forallb_forall in H. specialize (H v Hv).
      destruct d, v; try reflexivity; try discriminate. now elim Hd. }
    destruct (examinar_estaveis vals H nada_visto eq_refl eq_refl eq_refl eq_refl)
      as [-> | (s' & -> & Hn & Hna & Hf)]; cbn [rbind].
    + eexists. split; [reflexivity|]. intros v Hv. apply Hcel; [exact Hv|].
      now destruct (infer_string && is_string_array vals).
    + rewrite Hn, Hna, Hf. cbn [orb]. eexists. split; [reflexivity|].
      intros v Hv. apply Hcel; [exact Hv|].
      now destruct (bool_ s'), (int_ s').
Qed.

Lemma forallb_map_eq {A B : Type} (f : A -> B) (p : B -> bool) (l : list A) :
  forallb p (map f l) = forallb (fun x => p (f x)) l.
Proof. induction l as [|x l IH]; cbn; [reflexivity | now rewrite IH]. Qed.

Lemma celula_convertida (d : dtype) (v : json) : convertida v (celula d v).
Proof.
  unfold convertida. destruct d, v; cbn; try (now left).
  - right. now left.
  - right. right. now eexists.
  - right. now left.
Qed.

Lemma Forall2_map_r {A B : Type} (R : A -> B -> Prop) (f : A -> B) (l : list A) :
  (forall x, R x (f x)) -> Forall2 R l (map f l).
Proof. intros H. induction l; cbn; constructor; auto. Qed.

(** The rows of the frame hold the records, one each and in their
    order. *)
Lemma DataFrame_linhas (dados linhas : list registro) :
  DataFrame dados = Return linhas -> Forall2 linha_de dados linhas.
Proof.
  unfold DataFrame. intros H. repeat inv_rbind H. injection H as <-.
  apply Forall2_map_r. intros r. unfold linha_de. cbn.
  repeat split; apply celula_convertida.
Qed.

Lemma DataFrame_estavel (dados : list registro) :
  estaveis dados = true -> DataFrame dados = Return dados.
Proof.
  unfold estaveis. rewrite !andb_true_iff.
  intros [[[[[[[H1 H2] H3] H4] H5] H6] H7] H8].
  assert (H8' : coluna_estavel (map (fun r => JNum (qtd_movimentos r)) dados) = true).
  { unfold coluna_estavel. apply orb_true_iff. right. now rewrite forallb_map_eq. }
  unfold DataFrame.
  destruct (maybe_convert_objects_estavel _ H1) as (d1 & -> & E1).
  destruct (maybe_convert_objects_estavel _ H2) as (d2 & -> & E2).
  destruct (maybe_convert_objects_estavel _ H3) as (d3 & -> & E3).
  destruct (maybe_convert_objects_estavel _ H4) as (d4 & -> & E4).
  destruct (maybe_convert_objects_estavel _ H5) as (d5 & -> & E5).
  destruct (maybe_convert_objects_estavel _ H6) as (d6 & -> & E6).
  destruct (maybe_convert_objects_estavel _ H8') as (d8 & -> & _).
  destruct (maybe_convert_objects_estavel _ H7) as (d7 & -> & E7).
  cbn [rbind]. f_equal. rewrite <- (map_id dados) at 2.
  apply map_ext_in. intros r Hr.
  rewrite (E1 _ (in_map cnj _ _ Hr)), (E2 _ (in_map grau _ _ Hr)),
    (E3 _ (in_map classe _ _ Hr)), (E4 _ (in_map orgao _ _ Hr)),
    (E5 _ (in_map status _ _ Hr)), (E6 _ (in_map dt_distribuicao _ _ Hr)),
    (E7 _ (in_map resumo_decisao _ _ Hr)).
  now destruct r.
Qed.

(** What [deduplicar] returns.  It raises [OverflowError] when the
    frame cannot be built and [TypeError] on a key that cannot be
    hashed; otherwise it keeps, in their order, the first row of every
    key among the rows of the frame. *)
Lemma deduplicar_spec (dados : list registro) :
  match deduplicar dados with
  | Raise e =>
      DataFrame dados = Raise e
      \/ exists linhas, DataFrame dados = Return linhas
                        /\ e = TypeError
                        /\ forallb (fun r => hashable (cnj r)) linhas = false
  | Return out =>
      exists linhas,
        DataFrame dados = Return linhas
        /\ forallb (fun r => hashable (cnj r)) linhas = true
        /\ subsequencia out linhas
        /\ (forall l1 a l2 b l3, out = l1 ++ a :: l2 ++ b :: l3 -> mesma_chave a b = false)
        /\ (forall r, In r out ->
              exists l1 l2, linhas = l1 ++ r :: l2
                            /\ existsb (fun s => mesma_chave s r) l1 = false)
        /\ (forall x, In x linhas -> exists r, In r out /\ mesma_chave r x = true)
  end.
Proof.
  unfold deduplicar. destruct (DataFrame dados) as [linhas|e] eqn:Hdf; cbn [rbind].
  2:{ now left. }
  destruct linhas as [|l0 linhas]; cbn [empty negb].
  - pose proof (DataFrame_linhas _ _ Hdf) as HF. inversion HF; subst.
    exists []. repeat split; try easy; [constructor | intros; now destruct l1].
  - unfold drop_duplicates, to_dict.
    destruct (forallb (fun r => hashable (cnj r)) (l0 :: linhas)) eqn:Hh; cbn [rbind].
    + exists (l0 :: linhas). split; [reflexivity|]. split; [exact Hh|].
      split; [apply keep_first_sub|]. split; [|split].
      * intros l1 a l2 b l3. apply keep_first_unico.
      * intros r Hr. apply (keep_first_In _ [] r Hr).
      * intros x Hx. rewrite forallb_forall in Hh.
        destruct (keep_first_cobre _ [] x Hx (Hh x Hx)) as [H | H]; [discriminate | exact H].
    + right. exists (l0 :: linhas). now repeat split.
Qed.

(** ** The run *)

Lemma bind_Return {A B : Type} (m : M A) (k : A -> M B) (net net' : Net) (b : B)
    (evs : list evento) :
  bind m k net = (Return b, net', evs) ->
  exists a net1 e1 e2,
    m net = (Return a, net1, e1) /\ k a net1 = (Return b, net', e2) /\ evs = e1 ++ e2.
Proof.
  rewrite bind_eq. destruct (m net) as [[[a|e] net1] e1]; [|discriminate].
  destruct (k a net1) as [[r net2] e2] eqn:Ek. cbn [depois_de].
  intros [= -> -> <-]. now exists a, net1, e1, e2.
Qed.

(** Working out the date filter sends nothing and leaves the transport
    as it was. *)
Lemma determinar_desde_net (args : argumentos) (net net1 : Net) (r : result (option date))
    (evs : list evento) :
  determinar_desde args net = (r, net1, evs) ->
  net1 = net /\ forallb (fun e => negb (is_network e)) evs = true.
Proof.
  unfold determinar_desde, desde_since_days.
  destruct (arg_desde args) as [s|]; [destruct (negb (s =? "")%string)|].
  1: destruct (fromisoformat s); cbn; intros [= <- <- <-]; now split.
  all: destruct (arg_since_days args) as [n|]; [destruct (negb (n =? 0))|];
    try (cbn; intros [= <- <- <-]; now split).
  all: rewrite bind_eq; unfold lift; destruct (date_sub_days hoje n); cbn;
    intros [= <- <- <-]; now split.
Qed.


Lemma processar_hit_skip (trib : string) (d : date) (p : json) :
  processar_hit trib (Some d) p = Return None
  <-> exists dd, data_distribuicao p = Some dd /\ dd < d.
Proof.
  destruct (processar_hit_casos trib p) as [[Hd Hp] | [src Hp]]; rewrite Hp.
  - rewrite Hd. split; [discriminate | now intros (dd & [=] & _)].
  - rewrite <- antes_de_Some. destruct (antes_de (Some d) (data_distribuicao p)).
    + now split.
    + destruct (montar_registro trib src); split; discriminate.
Qed.

Lemma processar_hit_sem_filtro (trib : string) (p : json) (o : option registro) :
  processar_hit trib None p = Return o -> exists reg, o = Some reg.
Proof.
  destruct (processar_hit_casos trib p) as [[Hd Hp] | [src Hp]]; rewrite Hp; [discriminate|].
  cbn [antes_de]. destruct (montar_registro trib src) as [reg|e]; [|discriminate].
  intros [= <-]. now exists reg.
Qed.

Lemma main_eq (args : argumentos) (net : Net) (desde : option date) :
  determinar_desde args net = (Return desde, net, []) ->
  main args net = executar args desde net.
Proof.
  intros H. unfold main. rewrite bind_eq, H. apply depois_de_nil.
Qed.

(** C8, as the code has it.  A [--desde] that is not empty and that
    [date.fromisoformat] refuses ends the run at once: the error is
    printed, the exit status is 1, and no session was made nor any
    request sent.  An empty [--desde] is not looked at: the run is the
    run without [--desde]. *)
Theorem desde_invalida_termina (args : argumentos) (net : Net) (s : string) :
  arg_desde args = Some s ->
  (s <> "" -> fromisoformat s = None ->
   main args net = (Raise (SystemExit 1), net, [EvErroData s]))
  /\ (s = "" -> main args net = main (sem_desde args) net).
Proof.
  intros Hs. split.
  - intros Hne Hparse. unfold main, determinar_desde. rewrite bind_eq, Hs.
    apply String.eqb_neq in Hne. rewrite Hne. cbn [negb]. rewrite Hparse.
    reflexivity.
  - intros ->. unfold main, determinar_desde. rewrite Hs. reflexivity.
Qed.

(** C10, as the code has it.  With no [--desde], [--since-days 0] runs
    with no date filter, and without a filter no hit is skipped.
    [--since-days n] with [n >= 1] runs with the filter [hoje - n]
    whenever that day is a date (not before 0001-01-01): a hit is then
    skipped exactly when its date parses and is before that day. *)
Theorem since_days_filtro (args : argumentos) (net : Net) :
  arg_desde args = None ->
  (arg_since_days args = Some 0 ->
     main args net = executar args None net
     /\ forall trib p o, processar_hit trib None p = Return o -> exists reg, o = Some reg)
  /\ (forall n, arg_since_days args = Some n ->
        1 <= n -> MINORD <= hoje - n -> hoje <= MAXORD ->
        main args net = executar args (Some (hoje - n)) net
        /\ forall trib p,
             processar_hit trib (Some (hoje - n)) p = Return None
             <-> exists dd, data_distribuicao p = Some dd /\ dd < hoje - n).
Proof.
  intros Hd. split.
  - intros H0. split; [|intros trib p o; apply processar_hit_sem_filtro].
    apply main_eq. unfold determinar_desde, desde_since_days. now rewrite Hd, H0.
  - intros n Hn H1 Hmin Hmax. split; [|intros trib p; apply processar_hit_skip].
    apply main_eq. unfold determinar_desde, desde_since_days. rewrite Hd, Hn.
    destruct (Z.eqb_spec n 0) as [->|_]; [lia|]. cbn [negb].
    rewrite bind_eq. unfold lift, date_sub_days, MAX_DELTA_DAYS, MINORD, MAXORD in *.
    destruct (Z.ltb_spec 999999999 (Z.abs n)); [lia|].
    destruct (Z.leb_spec 1 (hoje - n)); [|lia].
    destruct (Z.leb_spec (hoje - n) 3652059); [|lia].
    reflexivity.
Qed.

End Propriedades.

(** * Further properties of the pipeline *)

Section Complementos.

Context {lib : PyLib} {tr : Transporte}.

Ltac inv_bind H :=
  let a := fresh "v" in
  let E := fresh "E" in
  apply rbind_Return in H; destruct H as (a & E & H).

(** ** The records of a page *)

Lemma for_hits_app (trib : string) (desde : option date) (h1 h2 : list json) :
  forall acc,
    for_hits trib desde (h1 ++ h2) acc
    = (r <- for_hits trib desde h1 acc ;; for_hits trib desde h2 r).
Proof.
  induction h1 as [|p h1 IH]; intros acc; [reflexivity|].
  cbn [app for_hits]. destruct (processar_hit trib desde p) as [o|e]; [|reflexivity].
  cbn [rbind]. apply IH.
Qed.

Lemma for_hits_acc (trib : string) (desde : option date) (hits : list json) :
  forall acc,
    for_hits trib desde hits acc
    = (r <- for_hits trib desde hits [] ;; Return (acc ++ r)).
Proof.
  induction hits as [|p hits IH]; intros acc.
  - cbn. now rewrite app_nil_r.
  - cbn [for_hits]. destruct (processar_hit trib desde p) as [o|e]; [|reflexivity].
    cbn [rbind]. rewrite IH. rewrite (IH (match o with Some reg => [] ++ [reg] | None => [] end)).
    destruct (for_hits trib desde hits []) as [r|e]; [|reflexivity].
    cbn [rbind]. destruct o as [reg|]; [|reflexivity].
    now rewrite <- app_assoc.
Qed.

(** X1. The records of a list of hits are the records of its parts, in
    order, after the records already gathered: nothing gathered before
    is changed or moved, and an error in either part is the error of the
    whole. *)
Theorem for_hits_concatena (trib : string) (desde : option date) (h1 h2 : list json)
    (acc : list registro) :
  for_hits trib desde (h1 ++ h2) acc
  = (r1 <- for_hits trib desde h1 [] ;;
     r2 <- for_hits trib desde h2 [] ;;
     Return (acc ++ r1 ++ r2)).
Proof.
  rewrite for_hits_app, (for_hits_acc trib desde h1 acc).
  destruct (for_hits trib desde h1 []) as [r1|e]; [|reflexivity].
  cbn [rbind]. rewrite (for_hits_acc trib desde h2 (acc ++ r1)).
  destruct (for_hits trib desde h2 []) as [r2|e]; [|reflexivity].
  cbn [rbind]. now rewrite <- app_assoc.
Qed.

Lemma montar_registro_cnj (trib : string) (src : list (string * json)) (r : registro) :
  montar_registro trib (JDict src) = Return r ->
  cnj r = match lookup "numeroProcesso" src with Some v => v | None => JNull end.
Proof.
  unfold montar_registro. intros H. repeat inv_bind H. injection H as <-.
  cbn [cnj].
  repeat match goal with
         | E : py_get (JDict _) _ _ = Return _ |- _ => cbn [py_get] in E; injection E as <-
         end.
  reflexivity.
Qed.

Lemma registros_de_hits (trib : string) (desde : option date) (hits : list json) :
  forallb wf_hit hits = true ->
  exists novos,
    for_hits trib desde hits [] = Return novos
    /\ map cnj novos = map numero_processo (filter (passa desde) hits)
    /\ Forall (fun r => tribunal r = upper trib) novos.
Proof.
  induction hits as [|p hits IH]; intros Hwf.
  - exists []. now repeat split.
  - cbn [forallb] in Hwf. apply andb_true_iff in Hwf as [Hp Hh].
    destruct (IH Hh) as (novos & Hrun & Hcnj & Htrib).
    unfold wf_hit in Hp. destruct (fonte p) as [src|] eqn:Hf; [|discriminate].
    apply andb_true_iff in Hp as [Hc Hm].
    cbn [for_hits filter]. rewrite (processar_hit_fonte trib desde p src Hf).
    unfold passa at 1.
    destruct (antes_de desde (data_distribuicao p)); cbn [negb rbind].
    + exists novos. now repeat split.
    + destruct (montar_registro_ok trib src Hc Hm) as (r & Hr & _).
      rewrite Hr. cbn [rbind app]. rewrite for_hits_acc, Hrun. cbn [rbind].
      exists (r :: novos). split; [reflexivity|]. split.
      * cbn [map]. rewrite Hcnj. f_equal. unfold numero_processo. rewrite Hf.
        apply (montar_registro_cnj trib src r Hr).
      * constructor; [|exact Htrib].
        now destruct (montar_registro_campos _ _ _ Hr)
          as (? & ? & ? & ? & ? & _ & _ & _ & _ & _ & _ & _ & _ & _ & Ht).
Qed.

(** X2. From hits that follow the schema the loop builds one record for
    every hit the date filter lets through, in the order of the hits and
    after the records already gathered; each carries the process number
    of its hit and the upper-cased tribunal.  With no filter there is a
    record for every hit. *)
Theorem registros_de_pagina (trib : string) (desde : option date) (hits : list json)
    (acc : list registro) :
  forallb wf_hit hits = true ->
  exists novos,
    for_hits trib desde hits acc = Return (acc ++ novos)
    /\ map cnj novos = map numero_processo (filter (passa desde) hits)
    /\ Forall (fun r => tribunal r = upper trib) novos
    /\ (desde = None -> List.length novos = List.length hits).
Proof.
  intros Hwf. destruct (registros_de_hits trib desde hits Hwf) as (novos & Hrun & Hcnj & Htrib).
  exists novos. rewrite for_hits_acc, Hrun. repeat split; try assumption.
  intros ->. rewrite <- (length_map cnj), Hcnj, length_map.
  f_equal. clear. induction hits as [|p hits IH]; [reflexivity|].
  cbn [filter]. unfold passa at 1. cbn [antes_de negb]. now rewrite IH.
Qed.

(** ** What a run gathers and whom it asks *)

Lemma for_hits_tribunal (trib : string) (desde : option date) (hits : list json) :
  forall acc out,
    for_hits trib desde hits acc = Return out ->
    Forall (fun r => tribunal r = upper trib) acc ->
    Forall (fun r => tribunal r = upper trib) out.
Proof.
  induction hits as [|p hits IH]; intros acc out H Hacc.
  - now injection H as <-.
  - cbn [for_hits] in H. inv_bind H. apply (IH _ _ H).
    destruct v as [reg|]; [|exact Hacc].
    apply Forall_app. split; [exact Hacc|]. constructor; [|constructor].
    destruct (processar_hit_campos _ _ _ _ E) as (src & _ & Hr).
    now destruct (montar_registro_campos _ _ _ Hr)
      as (? & ? & ? & ? & ? & _ & _ & _ & _ & _ & _ & _ & _ & _ & Ht).
Qed.

Lemma processar_pagina_tribunal (trib : string) (desde : option date) (data : json)
    (acc : list registro) (cr : controle * list registro) :
  processar_pagina trib desde data acc = Return cr ->
  Forall (fun r => tribunal r = upper trib) acc ->
  Forall (fun r => tribunal r = upper trib) (snd cr).
Proof.
  unfold processar_pagina. intros H Hacc. inv_bind H.
  destruct (negb (truthy v)); [now injection H as <-|].
  do 3 inv_bind H. apply (for_hits_tribunal _ _ _ _ _ E1) in Hacc.
  destruct (v2 <? page_size); now injection H as <-.
Qed.

Lemma for_paginas_tribunal (nome cnpj trib : string) (desde : option date) (pags : list Z) :
  forall acc net cr net' evs,
    for_paginas nome cnpj trib desde pags acc net = (Return cr, net', evs) ->
    Forall (fun r => tribunal r = upper trib) acc ->
    Forall (fun r => tribunal r = upper trib) (snd cr).
Proof.
  induction pags as [|pg pags IH]; intros acc net cr net' evs H Hacc.
  - now injection H as <- _ _.
  - cbn [for_paginas] in H.
    apply bind_Return in H as (cr1 & net1 & e1 & e2 & Hb & H & _).
    assert (H1 : Forall (fun r => tribunal r = upper trib) (snd cr1)).
    { rewrite pagina_body_eq in Hb. cbv zeta in Hb.
      destruct (http_post net _ _) as [[exc|data] net0].
      - now injection Hb as <- _ _.
      - injection Hb as Hb _ _. now apply (processar_pagina_tribunal _ _ _ _ _ Hb). }
    destruct (fst cr1).
    + apply (IH _ _ _ _ _ H H1).
    + now injection H as <- _ _.
Qed.

(** X3. Every record a tribunal query returns carries that tribunal,
    upper-cased. *)
Theorem buscar_processos_tribunal (nome cnpj trib : string) (n : Z) (desde : option date)
    (net net' : Net) (out : list registro) (evs : list evento) :
  buscar_processos nome cnpj trib n desde net = (Return out, net', evs) ->
  Forall (fun r => tribunal r = upper trib) out.
Proof.
  intros H. unfold buscar_processos in H.
  apply bind_Return in H as (cr & net1 & e1 & e2 & Hf & H & _).
  injection H as <- _ _. apply (for_paginas_tribunal _ _ _ _ _ _ _ _ _ _ Hf). constructor.
Qed.

Lemma for_tribunais_eq (nome cnpj : string) (n : Z) (desde : option date) (t : string)
    (ts : list string) (dados : list registro) (net : Net) :
  for_tribunais nome cnpj n desde (t :: ts) dados net
  = let trib := strip (lower t) in
    match buscar_processos nome cnpj trib n desde net with
    | (Return enc, net1, e1) =>
        depois_de (EvConsultando (upper trib) :: e1
                   ++ [EvEncontrados (Z.of_nat (List.length enc))])
          (for_tribunais nome cnpj n desde ts (dados ++ enc) net1)
    | (Raise e, net1, e1) => (Raise e, net1, EvConsultando (upper trib) :: e1)
    end.
Proof.
  cbn [for_tribunais]. cbv zeta. rewrite bind_eq. unfold emit at 1. rewrite bind_eq.
  destruct (buscar_processos _ _ _ _ _ _) as [[[enc|e] net1] e1]; [|reflexivity].
  rewrite bind_eq. unfold emit at 1.
  destruct (for_tribunais nome cnpj n desde ts (dados ++ enc) net1) as [[r net2] e2].
  cbn. now rewrite <- app_assoc.
Qed.

Lemma for_tribunais_tribunal (nome cnpj : string) (n : Z) (desde : option date)
    (ts : list string) :
  forall dados net out net' evs,
    for_tribunais nome cnpj n desde ts dados net = (Return out, net', evs) ->
    Forall (fun r => In r dados
                     \/ exists t, In t ts /\ tribunal r = upper (strip (lower t))) out.
Proof.
  induction ts as [|t ts IH]; intros dados net out net' evs H.
  - injection H as <- _ _. apply Forall_forall. intros r Hr. now left.
  - rewrite for_tribunais_eq in H. cbv zeta in H.
    destruct (buscar_processos _ _ _ _ _ _) as [[[enc|e] net1] e1] eqn:Hb; [|discriminate].
    destruct (for_tribunais nome cnpj n desde ts (dados ++ enc) net1) as [[r net2] e2] eqn:Hft.
    cbn [depois_de] in H. injection H as -> <- _.
    apply IH in Hft. rewrite Forall_forall in Hft |- *. intros r Hr.
    destruct (Hft r Hr) as [Hin | (t' & Ht' & Hr')].
    + apply in_app_or in Hin as [Hin | Hin]; [now left|]. right. exists t.
      split; [now left|].
      unfold buscar_processos in Hb.
      apply bind_Return in Hb as (cr & net3 & e3 & e4 & Hf & Hret & _).
      injection Hret as <- _ _.
      pose proof (for_paginas_tribunal _ _ _ _ _ _ _ _ _ _ Hf (Forall_nil _)) as Hall.
      rewrite Forall_forall in Hall. now apply Hall.
    + right. exists t'. split; [now right | exact Hr'].
Qed.

Lemma subsequencia_In {A : Type} (l l' : list A) (x : A) :
  subsequencia l l' -> In x l -> In x l'.
Proof.
  induction 1 as [|y l l' _ IH|y l l' _ IH]; cbn; [easy| |]; intuition.
Qed.

Lemma Forall2_In_r {A B : Type} (R : A -> B -> Prop) (l : list A) (l' : list B) (y : B) :
  Forall2 R l l' -> In y l' -> exists x, In x l /\ R x y.
Proof.
  induction 1 as [|a b l l' Hab _ IH]; [easy|].
  intros [<- | Hy]; [exists a; split; [now left | exact Hab]|].
  destruct (IH Hy) as (x & Hx & Hxy). exists x. split; [now right | exact Hxy].
Qed.

(** A run that queries returns what [deduplicar] makes of the records
    the tribunal loop gathered; its events are those of the date filter,
    the session, the loop and the total. *)
Lemma main_Return_inv (args : argumentos) (net net' : Net) (out : list registro)
    (evs : list evento) :
  arg_selftest args = false ->
  main args net = (Return out, net', evs) ->
  exists nome cnpj desde dados evs0 evs1,
    arg_nome args = Some nome
    /\ arg_cnpj args = Some cnpj
    /\ determinar_desde args net = (Return desde, net, evs0)
    /\ for_tribunais nome cnpj (arg_max_paginas args) desde (arg_tribunais args) [] net
       = (Return dados, net', evs1)
    /\ deduplicar dados = Return out
    /\ evs = evs0 ++ EvCreateSession :: evs1 ++ [EvTotal (Z.of_nat (List.length out))].
Proof.
  intros Hself Hmain. unfold main in Hmain.
  apply bind_Return in Hmain as (desde & net0 & e0 & e1 & Hd & Hex & ->).
  destruct (determinar_desde_net _ _ _ _ _ Hd) as [-> _].
  unfold executar in Hex. rewrite Hself in Hex.
  destruct (arg_nome args) as [nome|]; [|discriminate].
  destruct (arg_cnpj args) as [cnpj|]; [|discriminate].
  destruct (_ || _); [discriminate|].
  apply bind_Return in Hex as ([] & net1 & e2 & e3 & Hs & Hex & ->).
  injection Hs as <- <-.
  apply bind_Return in Hex as (dados & net2 & e4 & e5 & Hft & Hex & ->).
  apply bind_Return in Hex as (dados' & net3 & e6 & e7 & Hdd & Hex & ->).
  unfold lift in Hdd. injection Hdd as Hdd <- <-.
  apply bind_Return in Hex as ([] & net4 & e8 & e9 & He & Hex & ->).
  injection He as <- <-. injection Hex as <- <- <-.
  exists nome, cnpj, desde, dados, e0, e4.
  do 5 (split; [first [assumption | reflexivity]|]). cbn. reflexivity.
Qed.

(** X4. Every record a run hands to its exports carries one of the
    tribunals it was asked for, lower-cased, stripped and upper-cased
    again. *)
Theorem main_tribunais_pedidos (args : argumentos) (net net' : Net) (out : list registro)
    (evs : list evento) :
  arg_selftest args = false ->
  main args net = (Return out, net', evs) ->
  Forall (fun r => exists t, In t (arg_tribunais args)
                             /\ tribunal r = upper (strip (lower t))) out.
Proof.
  intros Hself Hmain.
  destruct (main_Return_inv args net net' out evs Hself Hmain)
    as (nome & cnpj & desde & dados & evs0 & evs1 & _ & _ & _ & Hft & Hdd & _).
  pose proof (deduplicar_spec dados) as Hspec. rewrite Hdd in Hspec.
  destruct Hspec as (linhas & Hdf & _ & Hsub & _).
  apply for_tribunais_tribunal in Hft. rewrite Forall_forall in Hft |- *.
  intros r Hr.
  destruct (Forall2_In_r _ _ _ r (DataFrame_linhas _ _ Hdf) (subsequencia_In _ _ _ Hsub Hr))
    as (r0 & Hr0 & _ & Ht & _).
  rewrite Ht. destruct (Hft r0 Hr0) as [[] | H]. exact H.
Qed.

Lemma pedidos_app (a b : list evento) : pedidos (a ++ b) = pedidos a ++ pedidos b.
Proof. apply flat_map_app. Qed.

Lemma snd_depois_de {A : Type} (e : list evento) (x : result A * Net * list evento) :
  snd (depois_de e x) = e ++ snd x.
Proof. now destruct x as [[r n] e']. Qed.

Lemma In_py_range (n x : Z) : In x (py_range n) -> 0 <= x < n.
Proof.
  unfold py_range. rewrite in_map_iff. intros (i & <- & Hi).
  apply in_seq in Hi. lia.
Qed.

Lemma In_firstn {A : Type} (k : nat) (l : list A) (x : A) :
  In x (firstn k l) -> In x l.
Proof.
  revert l. induction k as [|k IH]; intros [|a l]; cbn; try easy.
  intros [-> | H]; [now left | right; now apply IH].
Qed.

(** The requests of one tribunal query, whatever its outcome. *)
Lemma buscar_pedidos (nome cnpj trib : string) (n : Z) (desde : option date) (net : Net) :
  let evs := snd (buscar_processos nome cnpj trib n desde net) in
  (List.length (pedidos evs) <= Z.to_nat n)%nat
  /\ Forall (fun q => exists pg, q = (endpoint_de trib, request_body nome cnpj pg)
                                 /\ 0 <= pg < n) (pedidos evs).
Proof.
  cbv zeta. rewrite buscar_processos_eq.
  pose proof (for_paginas_traco nome cnpj trib desde (py_range n) [] net) as H.
  cbv zeta in H. rewrite py_range_length in H.
  destruct H as (k & Hk & Hped & _).
  assert (Hsnd : snd (match for_paginas nome cnpj trib desde (py_range n) [] net with
                      | (Return cr, net', evs) => (Return (snd cr), net', evs)
                      | (Raise e, net', evs) => (Raise e, net', evs)
                      end)
                 = snd (for_paginas nome cnpj trib desde (py_range n) [] net)).
  { now destruct (for_paginas _ _ _ _ _ _ _) as [[[cr|e] net'] evs]. }
  rewrite Hsnd, Hped. split.
  - rewrite length_map, length_firstn, py_range_length. lia.
  - apply Forall_forall. intros q Hq. apply in_map_iff in Hq as (pg & <- & Hpg).
    exists pg. split; [reflexivity|]. apply In_py_range. now apply (In_firstn k).
Qed.

Lemma for_tribunais_pedidos (nome cnpj : string) (n : Z) (desde : option date)
    (ts : list string) :
  forall dados net,
    let evs := snd (for_tribunais nome cnpj n desde ts dados net) in
    (List.length (pedidos evs) <= List.length ts * Z.to_nat n)%nat
    /\ Forall (fun q => exists t pg,
                   In t ts
                   /\ q = (endpoint_de (strip (lower t)), request_body nome cnpj pg)
                   /\ 0 <= pg < n) (pedidos evs).
Proof.
  induction ts as [|t ts IH]; intros dados net; cbv zeta.
  - cbn. split; [lia | constructor].
  - rewrite for_tribunais_eq. cbv zeta.
    destruct (buscar_pedidos nome cnpj (strip (lower t)) n desde net) as [Hlen Hall].
    destruct (buscar_processos _ _ _ _ _ _) as [[[enc|e] net1] e1]; cbn [snd] in Hlen, Hall.
    + rewrite snd_depois_de. specialize (IH (dados ++ enc) net1). cbv zeta in IH.
      destruct IH as [IHlen IHall].
      change (EvConsultando (upper (strip (lower t))) :: e1
              ++ [EvEncontrados (Z.of_nat (List.length enc))])
        with ([EvConsultando (upper (strip (lower t)))] ++ e1
              ++ [EvEncontrados (Z.of_nat (List.length enc))]).
      rewrite !pedidos_app. cbn [pedidos flat_map app]. rewrite app_nil_r.
      fold (pedidos e1).
      split.
      * rewrite length_app. cbn [List.length]. lia.
      * apply Forall_app. split.
        -- eapply Forall_impl; [|exact Hall]. intros q (pg & -> & Hpg).
           exists t, pg. split; [now left | now split].
        -- eapply Forall_impl; [|exact IHall]. intros q (t' & pg & Ht' & -> & Hpg).
           exists t', pg. split; [now right | now split].
    + cbn [snd pedidos flat_map app]. fold (pedidos e1). split.
      * cbn [List.length]. lia.
      * eapply Forall_impl; [|exact Hall]. intros q (pg & -> & Hpg).
        exists t, pg. split; [now left | now split].
Qed.

Lemma sem_rede_sem_pedidos (evs : list evento) :
  forallb (fun e => negb (is_network e)) evs = true -> pedidos evs = [].
Proof.
  induction evs as [|e evs IH]; [reflexivity|]. cbn [forallb].
  intros H. apply andb_true_iff in H as [He Hevs].
  cbn [pedidos flat_map]. fold (pedidos evs). rewrite (IH Hevs).
  now destruct e.
Qed.

(** The requests of a run are those of its tribunal loop, if it gets
    that far. *)
Lemma main_pedidos (args : argumentos) (net : Net) :
  pedidos (snd (main args net)) = []
  \/ exists nome cnpj desde,
       arg_nome args = Some nome
       /\ arg_cnpj args = Some cnpj
       /\ pedidos (snd (main args net))
          = pedidos (snd (for_tribunais nome cnpj (arg_max_paginas args) desde
                            (arg_tribunais args) [] net)).
Proof.
  unfold main. rewrite bind_eq.
  destruct (determinar_desde args net) as [[[desde|e] net0] e0] eqn:Hd;
    destruct (determinar_desde_net _ _ _ _ _ Hd) as [-> Hno];
    apply sem_rede_sem_pedidos in Hno.
  2: { left. exact Hno. }
  rewrite snd_depois_de, pedidos_app, Hno. cbn [app].
  unfold executar. destruct (arg_selftest args); [now left|].
  destruct (arg_nome args) as [nome|]; [|now left].
  destruct (arg_cnpj args) as [cnpj|]; [|now left].
  destruct (_ || _); [now left|].
  right. exists nome, cnpj, desde. do 2 (split; [reflexivity|]).
  rewrite bind_eq. unfold emit at 1. rewrite snd_depois_de, bind_eq.
  destruct (for_tribunais _ _ _ _ _ _ _) as [[[dados|e] net1] e1]; [|reflexivity].
  rewrite snd_depois_de, bind_eq. unfold lift at 1.
  destruct (deduplicar dados) as [dados'|e]; cbn [snd pedidos flat_map app].
  - fold (pedidos e1). rewrite !pedidos_app. cbn. now rewrite !app_nil_r.
  - fold (pedidos e1). now rewrite app_nil_r.
Qed.

(** X5. A run never sends more requests than the number of tribunals
    times [max_paginas], whatever the transport answers and however the
    run ends. *)
Theorem main_limite_de_pedidos (args : argumentos) (net : Net) :
  (List.length (pedidos (snd (main args net)))
   <= List.length (arg_tribunais args) * Z.to_nat (arg_max_paginas args))%nat.
Proof.
  destruct (main_pedidos args net) as [-> | (nome & cnpj & desde & _ & _ & ->)].
  - cbn. lia.
  - apply for_tribunais_pedidos.
Qed.

(** X6. Every request of a run goes to the search endpoint of one of
    the tribunals it was asked for, lower-cased and stripped, and its
    body is the query for the party's name and document at the offset of
    a page below [max_paginas]. *)
Theorem main_so_consulta_tribunais_pedidos (args : argumentos) (net : Net) :
  Forall (fun q => exists nome cnpj t pg,
              arg_nome args = Some nome
              /\ arg_cnpj args = Some cnpj
              /\ In t (arg_tribunais args)
              /\ q = (endpoint_de (strip (lower t)), request_body nome cnpj pg)
              /\ 0 <= pg < arg_max_paginas args)
    (pedidos (snd (main args net))).
Proof.
  destruct (main_pedidos args net) as [-> | (nome & cnpj & desde & Hn & Hc & ->)].
  - constructor.
  - eapply Forall_impl;
      [|apply (for_tribunais_pedidos nome cnpj (arg_max_paginas args) desde
                 (arg_tribunais args) [] net)].
    intros q (t & pg & Ht & Hq & Hpg). now exists nome, cnpj, t, pg.
Qed.

(** ** Errors that are not caught *)

(** X7. Only the transport is guarded.  When the answer for page [k]
    arrives but cannot be processed (the body is no dict, a hit is no
    dict, a movement has a null description, ...), the exception leaves
    the query: the records gathered from the pages before are not
    returned, the tribunals after this one are not queried, and the
    records of the tribunals before are lost with the run. *)
Theorem erro_de_processamento_aborta (nome cnpj trib : string) (n k : Z)
    (desde : option date) (net net_k net' : Net) (acc : list registro)
    (evs_k : list evento) (data : json) (e : exn) :
  0 <= k < n ->
  for_paginas nome cnpj trib desde (py_range k) [] net = (Return (Continue, acc), net_k, evs_k) ->
  http_post net_k (endpoint_de trib) (request_body nome cnpj k) = (Dados data, net') ->
  processar_pagina trib desde data acc = Raise e ->
  let visto := evs_k ++ [EvPost (endpoint_de trib) (request_body nome cnpj k) (Dados data)] in
  buscar_processos nome cnpj trib n desde net = (Raise e, net', visto)
  /\ (forall t tribunais dados,
        strip (lower t) = trib ->
        for_tribunais nome cnpj n desde (t :: tribunais) dados net
        = (Raise e, net', EvConsultando (upper trib) :: visto)).
Proof.
  intros Hk Hrun Hpost Hproc visto.
  assert (Hb : buscar_processos nome cnpj trib n desde net = (Raise e, net', visto)).
  { rewrite buscar_processos_eq.
    destruct (py_range_split k n Hk) as [rest ->].
    rewrite for_paginas_app, Hrun. cbn [for_paginas]. rewrite bind_eq, pagina_body_eq.
    cbv zeta. rewrite Hpost, Hproc. reflexivity. }
  split; [exact Hb|].
  intros t tribunais dados Ht. rewrite for_tribunais_eq. cbv zeta. now rewrite Ht, Hb.
Qed.

(** A body that is no dict cannot be processed. *)
Lemma processar_pagina_nao_dict (trib : string) (desde : option date) (data : json)
    (acc : list registro) :
  is_dict data = false -> processar_pagina trib desde data acc = Raise AttributeError.
Proof.
  destruct data; try discriminate; reflexivity.
Qed.

(** ** Edges of the arguments *)

(** X8. With [max_paginas] zero or negative no request is sent: every
    tribunal is announced, reported with 0 records, and the records
    gathered stay as they were. *)
Theorem sem_paginas_sem_pedidos (nome cnpj : string) (n : Z) (desde : option date)
    (ts : list string) (dados : list registro) (net : Net) :
  n <= 0 ->
  for_tribunais nome cnpj n desde ts dados net
  = (Return dados, net,
     flat_map (fun t => [ EvConsultando (upper (strip (lower t))); EvEncontrados 0 ]) ts).
Proof.
  intros Hn. revert dados. induction ts as [|t ts IH]; intros dados; [reflexivity|].
  rewrite for_tribunais_eq. cbv zeta.
  assert (Hb : buscar_processos nome cnpj (strip (lower t)) n desde net = (Return [], net, [])).
  { unfold buscar_processos, py_range. now replace (Z.to_nat n) with 0%nat by lia. }
  rewrite Hb, app_nil_r, IH. reflexivity.
Qed.

(** X9. A self-test run never touches the network: whatever the other
    arguments, no session is made, no request is sent and the transport
    is left as it was; if the date filter is accepted, the run returns
    the two test records. *)
Theorem selftest_sem_rede (args : argumentos) (net : Net) :
  arg_selftest args = true ->
  snd (fst (main args net)) = net
  /\ forallb (fun e => negb (is_network e)) (snd (main args net)) = true
  /\ (forall out, fst (fst (main args net)) = Return out -> out = gerar_dados_teste)
  /\ (forall desde evs0,
        determinar_desde args net = (Return desde, net, evs0) ->
        main args net = (Return gerar_dados_teste, net, evs0)).
Proof.
  intros Hself. unfold main. rewrite bind_eq.
  destruct (determinar_desde args net) as [[[desde|e] net0] e0] eqn:Hd;
    destruct (determinar_desde_net _ _ _ _ _ Hd) as [-> Hno].
  - unfold executar. rewrite Hself. cbn. rewrite app_nil_r. repeat split; try assumption.
    + now intros out [= <-].
    + now intros desde' evs0 [= _ <-].
  - cbn. repeat split; try assumption; discriminate.
Qed.

(** X10. Outside a self-test, a run without a party name, without a
    document or without tribunals (missing or empty) ends with status 2
    once its date filter is worked out: no session is made and nothing
    is requested. *)
Theorem entradas_obrigatorias (args : argumentos) (net : Net) :
  arg_selftest args = false ->
  opt_truthy (arg_nome args) = false
  \/ opt_truthy (arg_cnpj args) = false
  \/ arg_tribunais args = [] ->
  (exists e, fst (fst (main args net)) = Raise e)
  /\ snd (fst (main args net)) = net
  /\ forallb (fun e => negb (is_network e)) (snd (main args net)) = true
  /\ (forall desde evs0,
        determinar_desde args net = (Return desde, net, evs0) ->
        main args net = (Raise (SystemExit 2), net, evs0 ++ [EvParserError])).
Proof.
  intros Hself Hfalta.
  assert (Hex : forall desde, executar args desde net = (Raise (SystemExit 2), net, [EvParserError])).
  { intros desde. unfold executar. rewrite Hself.
    destruct (arg_nome args) as [nome|]; [|reflexivity].
    destruct (arg_cnpj args) as [cnpj|]; [|reflexivity].
    destruct Hfalta as [-> | [-> | ->]]; cbn [negb orb]; try reflexivity.
    - now rewrite orb_true_r.
    - now rewrite orb_true_r. }
  unfold main. rewrite bind_eq.
  destruct (determinar_desde args net) as [[[desde|e] net0] e0] eqn:Hd;
    destruct (determinar_desde_net _ _ _ _ _ Hd) as [-> Hno].
  - rewrite Hex. cbn [depois_de fst snd]. repeat split.
    + now eexists.
    + rewrite forallb_app, Hno. reflexivity.
    + now intros desde' evs0 [= _ <-].
  - cbn [fst snd]. repeat split; try assumption; [now eexists | discriminate].
Qed.

(** X11. A [--desde] that parses decides the filter alone:
    [--since-days] is not looked at, whatever it holds. *)
Theorem desde_tem_precedencia (args : argumentos) (net : Net) (s : string) (d : date) :
  arg_desde args = Some s ->
  fromisoformat s = Some d ->
  s <> "" ->
  main args net = executar args (Some d) net.
Proof.
  intros Hs Hparse Hne. apply main_eq. unfold determinar_desde. rewrite Hs.
  apply String.eqb_neq in Hne. now rewrite Hne, Hparse.
Qed.

(** X12. A negative [--since-days] is taken as it is: with no [--desde]
    (or an empty one) the filter is the day [-n] days after today, so
    every hit dated today or before is skipped. *)
Theorem since_days_negativo (args : argumentos) (net : Net) (n : Z) :
  opt_truthy (arg_desde args) = false ->
  arg_since_days args = Some n ->
  n < 0 ->
  MINORD <= hoje ->
  hoje - n <= MAXORD ->
  main args net = executar args (Some (hoje - n)) net
  /\ forall trib p dd,
       data_distribuicao p = Some dd -> dd <= hoje ->
       processar_hit trib (Some (hoje - n)) p = Return None.
Proof.
  intros Hd Hn Hneg Hmin Hmax. split.
  - apply main_eq. unfold determinar_desde.
    assert (Hsd : desde_since_days args net = (Return (Some (hoje - n)), net, [])).
    { unfold desde_since_days. rewrite Hn.
      destruct (Z.eqb_spec n 0) as [->|_]; [lia|]. cbn [negb].
      rewrite bind_eq. unfold lift, date_sub_days, MAX_DELTA_DAYS, MINORD, MAXORD in *.
      destruct (Z.ltb_spec 999999999 (Z.abs n)); [lia|].
      destruct (Z.leb_spec 1 (hoje - n)); [|lia].
      destruct (Z.leb_spec (hoje - n) 3652059); [|lia].
      reflexivity. }
    destruct (arg_desde args) as [s|]; [|exact Hsd].
    cbn [opt_truthy] in Hd. now rewrite Hd.
  - intros trib p dd Hdd Hle. apply processar_hit_skip. exists dd. split; [exact Hdd | lia].
Qed.

(** ** Deduplication, again *)

Lemma sem_duplicados_cons (r : registro) (rows : list registro) :
  sem_duplicados (r :: rows) ->
  sem_duplicados rows /\ forall x, In x rows -> mesma_chave r x = false.
Proof.
  intros H. split.
  - intros l1 a l2 b l3 ->. apply (H (r :: l1) a l2 b l3). reflexivity.
  - intros x Hx. apply in_split in Hx as (l2 & l3 & ->). apply (H [] r l2 x l3). reflexivity.
Qed.

Lemma keep_first_id (rows : list registro) :
  forall seen,
    (forall s x, In s seen -> In x rows -> mesma_chave s x = false) ->
    sem_duplicados rows ->
    keep_first seen rows = rows.
Proof.
  induction rows as [|r rows IH]; intros seen Hseen Hdup; [reflexivity|].
  apply sem_duplicados_cons in Hdup as [Hdup Hr]. cbn [keep_first].
  assert (Hno : existsb (fun s => mesma_chave s r) seen = false).
  { destruct (existsb (fun s => mesma_chave s r) seen) eqn:E; [|reflexivity].
    apply existsb_exists in E as (s & Hs & Hsr).
    rewrite (Hseen s r Hs (or_introl eq_refl)) in Hsr. discriminate. }
  rewrite Hno. f_equal. apply IH; [|exact Hdup].
  intros s x Hs Hx. apply in_app_or in Hs as [Hs | [<- | []]].
  - apply Hseen; [exact Hs | now right].
  - now apply Hr.
Qed.

Lemma drop_duplicates_id (linhas : list registro) :
  forallb (fun r => hashable (cnj r)) linhas = true ->
  sem_duplicados linhas ->
  drop_duplicates linhas = Return linhas.
Proof.
  intros Hh Hdup. unfold drop_duplicates. rewrite Hh. f_equal.
  apply keep_first_id; [|exact Hdup]. intros s x [].
Qed.

Lemma deduplicar_id (dados linhas : list registro) :
  DataFrame dados = Return linhas ->
  forallb (fun r => hashable (cnj r)) linhas = true ->
  sem_duplicados linhas ->
  deduplicar dados = Return linhas.
Proof.
  intros Hdf Hh Hdup. unfold deduplicar. rewrite Hdf. cbn [rbind].
  destruct linhas as [|l0 linhas]; cbn [empty negb].
  - pose proof (DataFrame_linhas _ _ Hdf) as HF. now inversion HF.
  - now rewrite (drop_duplicates_id _ Hh Hdup).
Qed.

Lemma forallb_sub {A : Type} (p : A -> bool) (l l' : list A) :
  subsequencia l l' -> forallb p l' = true -> forallb p l = true.
Proof.
  induction 1 as [|x l l' _ IH|x l l' _ IH]; cbn [forallb]; [easy| |];
    rewrite ?andb_true_iff; intros [Hx H]; [split; [exact Hx|] |]; now apply IH.
Qed.

Lemma subsequencia_map {A B : Type} (f : A -> B) (l l' : list A) :
  subsequencia l l' -> subsequencia (map f l) (map f l').
Proof. induction 1; cbn; now constructor. Qed.

Lemma coluna_estavel_sub (l l' : list json) :
  subsequencia l l' -> coluna_estavel l' = true -> coluna_estavel l = true.
Proof.
  unfold coluna_estavel. intros Hsub H. apply orb_true_iff in H as [H | H];
    apply orb_true_iff; [left | right]; now apply (forallb_sub _ l l').
Qed.

(** Leaving records out keeps the others of the stable kind. *)
Lemma estaveis_sub (l l' : list registro) :
  subsequencia l l' -> estaveis l' = true -> estaveis l = true.
Proof.
  unfold estaveis. rewrite !andb_true_iff.
  intros Hsub [[[[[[[H1 H2] H3] H4] H5] H6] H7] H8].
  repeat split;
    first [ now apply (forallb_sub _ l l')
          | eapply coluna_estavel_sub; [apply subsequencia_map, Hsub | assumption] ].
Qed.

(** X13. Records whose rows in the frame pairwise differ in their
    (cnj, tribunal) pair, with keys that can be hashed, all come out of
    the deduplication, in their order and as the frame holds them: each
    with its cells as the frame gives them back.  Records of the stable
    kind come out as they went in. *)
Theorem deduplicar_sem_duplicados (dados linhas : list registro) :
  DataFrame dados = Return linhas ->
  forallb (fun r => hashable (cnj r)) linhas = true ->
  sem_duplicados linhas ->
  deduplicar dados = Return linhas
  /\ Forall2 linha_de dados linhas
  /\ (estaveis dados = true -> deduplicar dados = Return dados).
Proof.
  intros Hdf Hh Hdup. split; [now apply deduplicar_id|].
  split; [now apply DataFrame_linhas|].
  intros He. pose proof (DataFrame_estavel dados He) as Hid.
  rewrite Hid in Hdf. injection Hdf as <-. now apply deduplicar_id.
Qed.

(** X14. On records of the stable kind, deduplicating twice is
    deduplicating once: what comes out is a part of the records
    themselves, and the step leaves it as it is. *)
Theorem deduplicar_idempotente (dados out : list registro) :
  estaveis dados = true ->
  deduplicar dados = Return out ->
  subsequencia out dados /\ deduplicar out = Return out.
Proof.
  intros He H. pose proof (deduplicar_spec dados) as Hspec. rewrite H in Hspec.
  destruct Hspec as (linhas & Hdf & Hh & Hsub & Huni & _).
  rewrite (DataFrame_estavel dados He) in Hdf. injection Hdf as <-.
  split; [exact Hsub|].
  apply deduplicar_id; [|apply (forallb_sub _ out dados Hsub Hh) | exact Huni].
  apply DataFrame_estavel. now apply (estaveis_sub out dados).
Qed.

(** ** Dates and vocabulary *)

Lemma utf8_chars_aux_inicio (s : string) :
  comeca_em_caractere s = true -> fst (utf8_chars_aux s) = EmptyString.
Proof.
  destruct s as [|c s]; [reflexivity|]. cbn [comeca_em_caractere utf8_chars_aux].
  intros H. apply negb_true_iff in H. rewrite H.
  now destruct (utf8_chars_aux s).
Qed.

Lemma utf8_chars_cons (c : ascii) (s : string) :
  is_cont c = false ->
  comeca_em_caractere s = true ->
  utf8_chars (String c s) = String c EmptyString :: utf8_chars s.
Proof.
  intros Hc Hs. unfold utf8_chars. cbn [utf8_chars_aux].
  pose proof (utf8_chars_aux_inicio s Hs) as Hfst.
  destruct (utf8_chars_aux s) as [pend cs]. cbn [fst] in Hfst. subst pend.
  now rewrite Hc.
Qed.

Lemma ascii_nao_continua (c : ascii) :
  (nat_of_ascii c <? 128)%nat = true -> is_cont c = false.
Proof.
  intros H. unfold is_cont. cbv zeta. apply Nat.ltb_lt in H.
  destruct (Nat.leb_spec 128 (nat_of_ascii c)); [lia | reflexivity].
Qed.

Lemma append_comeca_em_caractere (s t : string) :
  so_ascii s = true ->
  comeca_em_caractere t = true ->
  comeca_em_caractere (s +++ t) = true.
Proof.
  destruct s as [|c s]; [easy|]. unfold so_ascii. cbn.
  intros H _. apply andb_true_iff in H as [Hc _].
  now rewrite (ascii_nao_continua c Hc).
Qed.

Lemma slice_prefixo_ascii (s t : string) :
  so_ascii s = true ->
  comeca_em_caractere t = true ->
  str_slice_to (String.length s) (s +++ t) = s.
Proof.
  intros Hs Ht. induction s as [|c s IH]; [reflexivity|].
  assert (Hc : (nat_of_ascii c <? 128)%nat = true /\ so_ascii s = true).
  { unfold so_ascii in Hs. cbn in Hs. now apply andb_true_iff in Hs. }
  destruct Hc as [Hc Hs'].
  change (String c s +++ t) with (String c (s +++ t)).
  unfold str_slice_to. rewrite utf8_chars_cons;
    [|now apply ascii_nao_continua | now apply append_comeca_em_caractere].
  cbn [String.length firstn str_concat fold_right String.append].
  f_equal. apply (IH Hs').
Qed.

(** X15. Only the first ten characters of [dataDistribuicao] are read:
    after ten ASCII characters, whatever follows (a time, a zone,
    anything) does not change the date, nor whether there is one. *)
Theorem parse_date_ignora_resto (s t : string) :
  so_ascii s = true ->
  String.length s = 10%nat ->
  comeca_em_caractere t = true ->
  parse_date (JStr (s +++ t)) = fromisoformat s.
Proof.
  intros Hs Hlen Ht. cbn [parse_date]. f_equal.
  rewrite <- Hlen. now apply slice_prefixo_ascii.
Qed.

Lemma append_assoc (a b c : string) : (a +++ b) +++ c = a +++ b +++ c.
Proof. induction a as [|x a IH]; cbn; [reflexivity | now rewrite IH]. Qed.

Lemma contains_trans (a b c : string) :
  contains a b = true -> contains b c = true -> contains a c = true.
Proof.
  rewrite !contains_spec. intros (x & y & ->) (u & v & ->).
  exists (u +++ x), (y +++ v). now rewrite !append_assoc.
Qed.

(** X16. Matching by substring makes two terms of the vocabularies
    idle: a description that contains "indeferida" contains "deferida",
    and one that contains "apresentar defesa" contains "apresentar", so
    leaving these two terms out classifies every description the same. *)
Theorem termos_redundantes (desc : string) :
  any_keyword KEYWORDS_DECISAO desc
  = any_keyword [ "sentença"; "acórdão"; "decisão"; "despacho"; "homologação";
                  "julgado"; "julgamento"; "proferida"; "deferida" ] desc
  /\ any_keyword KEYWORDS_PRAZO desc
     = any_keyword [ "prazo"; "intimação"; "manifestação"; "apresentar";
                     "contestação"; "contrarrações"; "embargos"; "notificação";
                     "resposta"; "recurso"; "juntada de petição" ] desc.
Proof.
  unfold any_keyword, KEYWORDS_DECISAO, KEYWORDS_PRAZO. cbn [existsb]. split.
  - destruct (contains "indeferida" desc) eqn:E; [|reflexivity].
    rewrite (contains_trans "deferida" "indeferida" desc eq_refl E).
    now rewrite !orb_true_r.
  - destruct (contains "apresentar defesa" desc) eqn:E; [|reflexivity].
    rewrite (contains_trans "apresentar" "apresentar defesa" desc eq_refl E).
    cbn [orb]. now rewrite !orb_true_r.
Qed.

(** ** Movements that are not well formed *)

Lemma descricao_invalida (m : json) :
  wf_movimento m = false ->
  (d <- py_get m "descricao" (JStr "") ;; py_lower d) = Raise AttributeError.
Proof.
  destruct m as [| | | | |d|]; try reflexivity. cbn [wf_movimento py_get rbind].
  destruct (lookup "descricao" d) as [[| | | | | |]|]; try discriminate; reflexivity.
Qed.

Lemma prazos_loop_invalido (ms : list json) :
  forallb wf_movimento ms = false ->
  forall prazos, prazos_loop ms prazos = Raise AttributeError.
Proof.
  induction ms as [|m ms IH]; [discriminate|]. cbn [forallb]. intros H prazos.
  cbn [prazos_loop].
  destruct (wf_movimento m) eqn:Hm.
  - cbn [andb] in H. rewrite (wf_get_descricao m Hm). cbn [rbind py_lower].
    destruct (any_keyword KEYWORDS_PRAZO (lower (descricao m))); [|now apply IH].
    rewrite (wf_get_data_hora m Hm). cbn [rbind]. now apply IH.
  - pose proof (descricao_invalida m Hm) as Hd.
    destruct (py_get m "descricao" (JStr "")) as [d|e]; cbn [rbind] in Hd |- *.
    + now rewrite Hd.
    + now injection Hd as ->.
Qed.

(** X17. One movement that is no dict, or whose description is there
    but is no string (a null, say), is enough for the record of its hit
    to fail with an [AttributeError], wherever it stands in the log and
    whatever the other movements are. *)
Theorem movimento_invalido_falha (ms : list json) :
  forallb wf_movimento ms = false ->
  extrair_prazos (JList ms) = Raise AttributeError
  /\ (forall trib src,
        lookup "movimentos" src = Some (JList ms) ->
        montar_registro trib (JDict src) = Raise AttributeError)
  /\ (forall trib p src,
        fonte p = Some src ->
        lookup "movimentos" src = Some (JList ms) ->
        processar_hit trib None p = Raise AttributeError).
Proof.
  intros H.
  assert (Hp : extrair_prazos (JList ms) = Raise AttributeError).
  { unfold extrair_prazos. cbn [py_iter rbind]. now apply prazos_loop_invalido. }
  assert (Hm : forall trib src,
             lookup "movimentos" src = Some (JList ms) ->
             montar_registro trib (JDict src) = Raise AttributeError).
  { intros trib src Hl. unfold montar_registro. cbn [py_get]. rewrite Hl. cbn [rbind].
    now rewrite Hp. }
  split; [exact Hp|]. split; [exact Hm|].
  intros trib p src Hf Hl. rewrite (processar_hit_fonte trib None p src Hf).
  cbn [antes_de]. now rewrite (Hm trib src Hl).
Qed.


Lemma sem_repetidos_ok (l : list registro) :
  sem_repetidos l = true -> sem_duplicados l.
Proof.
  induction l as [|r l IH]; intros H l1 a l2 b l3 E.
  - now destruct l1.
  - cbn [sem_repetidos] in H. apply andb_true_iff in H as [Hr Hl].
    destruct l1 as [|x l1]; cbn [app] in E; injection E as <- ->.
    + rewrite forallb_forall in Hr. apply negb_true_iff, Hr.
      apply in_or_app. right. now left.
    + now apply (IH Hl l1 a l2 b l3).
Qed.
End Complementos.

(** * Properties of the exports *)

Section PropriedadesExportacao.

Context {lib : PyLib} {dest : Destinos}.

Lemma xbind_eq {A B : Type} (m : X A) (k : A -> X B) (fs : FS) :
  xbind m k fs
  = match m fs with
    | (Ok a, fs', ev) => let '(r, fs'', ev') := k a fs' in (r, fs'', ev ++ ev')
    | (Erro exc, fs', ev) => (Erro exc, fs', ev)
    end.
Proof. reflexivity. Qed.

(** ** What the export blocks emit *)

Lemma emite_xret (P : evento_saida -> Prop) {A : Type} (a : A) : emite P (xret a).
Proof. intros fs. constructor. Qed.

Lemma emite_avisar (P : evento_saida -> Prop) (e : evento_saida) :
  P e -> emite P (avisar e).
Proof. intros H fs. now repeat constructor. Qed.

Lemma emite_falhar (P : evento_saida -> Prop) {A : Type} (exc : string) :
  emite P (falhar (A := A) exc).
Proof. intros fs. constructor. Qed.

Lemma emite_chamar (P : evento_saida -> Prop) (f : formato) (c : string) (x : carga) :
  (forall r, P (SvGravar f c x r)) -> emite P (chamar f c x).
Proof.
  intros H fs. unfold chamar. destruct (gravar fs f c x) as [r fs']. cbn.
  now repeat constructor.
Qed.

Lemma emite_xbind (P : evento_saida -> Prop) {A B : Type} (m : X A) (k : A -> X B) :
  emite P m -> (forall a, emite P (k a)) -> emite P (xbind m k).
Proof.
  intros Hm Hk fs. rewrite xbind_eq. specialize (Hm fs).
  destruct (m fs) as [[[a|exc] fs'] ev]; cbn [snd] in Hm |- *; [|exact Hm].
  specialize (Hk a fs'). destruct (k a fs') as [[r fs''] ev']. cbn [snd] in Hk |- *.
  apply Forall_app. now split.
Qed.

Lemma emite_tentar (P : evento_saida -> Prop) {A : Type} (m : X A) (h : string -> X A) :
  emite P m -> (forall exc, emite P (h exc)) -> emite P (tentar m h).
Proof.
  intros Hm Hh fs. unfold tentar. specialize (Hm fs).
  destruct (m fs) as [[[a|exc] fs'] ev]; cbn [snd] in Hm |- *; [exact Hm|].
  specialize (Hh exc fs'). destruct (h exc fs') as [[r fs''] ev']. cbn [snd] in Hh |- *.
  apply Forall_app. now split.
Qed.

Lemma emite_se_dado (P : evento_saida -> Prop) (caminho : option string)
    (m : string -> X unit) :
  (forall c, caminho = Some c -> emite P (m c)) -> emite P (se_dado caminho m).
Proof.
  intros H. unfold se_dado. destruct caminho as [c|]; [|apply emite_xret].
  destruct (negb (c =? "")%string); [now apply H | apply emite_xret].
Qed.

Lemma emite_fallback_txt (P : evento_saida -> Prop) (dados : list registro) (pdf : string) :
  (forall r, P (SvGravar Txt (splitext_raiz pdf +++ ".txt") (Texto (conteudo_txt dados)) r)) ->
  P (SvGerado Txt (splitext_raiz pdf +++ ".txt")) ->
  emite P (fallback_txt dados pdf).
Proof.
  intros Hg Ha. unfold fallback_txt, exportar_txt.
  apply emite_xbind; [now apply emite_chamar | intros _; now apply emite_avisar].
Qed.

Lemma emite_bloco_pdf (P : evento_saida -> Prop) (o : saidas) (dados : list registro) :
  (forall c r, arg_pdf o = Some c -> arg_no_pdf o = false -> tem_fpdf = true ->
               P (SvGravar Pdf c (Celulas (map celulas_pdf dados)) r)) ->
  (forall c r, arg_pdf o = Some c -> arg_no_pdf o = false ->
               P (SvGravar Txt (splitext_raiz c +++ ".txt") (Texto (conteudo_txt dados)) r)) ->
  (forall f c, P (SvGerado f c)) ->
  (forall exc, P (SvWarnPdf exc)) ->
  P SvWarnSemFpdf ->
  emite P (bloco_pdf o dados).
Proof.
  intros Hpdf Htxt Hger Hwarn Hsem. unfold bloco_pdf.
  apply emite_se_dado. intros c Hc.
  destruct (arg_no_pdf o) eqn:Hno; cbn [negb]; [apply emite_xret|].
  destruct tem_fpdf eqn:Hf.
  - apply emite_tentar.
    + apply emite_xbind; [|intros _; now apply emite_avisar].
      unfold exportar_pdf. rewrite Hf. cbn [negb]. apply emite_chamar. intros r. now apply Hpdf.
    + intros exc. apply emite_xbind; [now apply emite_avisar|]. intros _.
      apply emite_fallback_txt; [intros r; now apply Htxt | apply Hger].
  - apply emite_xbind; [now apply emite_avisar|]. intros _.
    apply emite_fallback_txt; [intros r; now apply Htxt | apply Hger].
Qed.

(** The blocks of [main_exportar] before the summary on the terminal. *)
Lemma emite_main_exportar (P : evento_saida -> Prop) (o : saidas) (dados : list registro) :
  (forall c r, arg_excel o = Some c -> P (SvGravar Excel c (Tabela dados) r)) ->
  (forall c r, arg_csv o = Some c -> P (SvGravar Csv c (Tabela dados) r)) ->
  (forall c r, arg_sqlite o = Some c -> P (SvGravar Sqlite c (Tabela dados) r)) ->
  (forall c r, arg_pdf o = Some c -> arg_no_pdf o = false -> tem_fpdf = true ->
               P (SvGravar Pdf c (Celulas (map celulas_pdf dados)) r)) ->
  (forall c r, arg_pdf o = Some c -> arg_no_pdf o = false ->
               P (SvGravar Txt (splitext_raiz c +++ ".txt") (Texto (conteudo_txt dados)) r)) ->
  (forall f c, P (SvGerado f c)) ->
  (forall exc, P (SvWarnPdf exc)) ->
  P SvWarnSemFpdf ->
  emite P (if nenhuma_saida o then imprimir dados else xret tt) ->
  emite P (main_exportar o dados).
Proof.
  intros Hx Hc Hs Hpdf Htxt Hger Hwarn Hsem Hfim. unfold main_exportar.
  apply emite_xbind.
  { apply emite_se_dado. intros c E. unfold exportar_excel.
    apply emite_xbind; [apply emite_chamar; intros r; now apply Hx
                       | intros _; now apply emite_avisar]. }
  intros _. apply emite_xbind.
  { apply emite_se_dado. intros c E. unfold exportar_csv.
    apply emite_xbind; [apply emite_chamar; intros r; now apply Hc
                       | intros _; now apply emite_avisar]. }
  intros _. apply emite_xbind.
  { apply emite_se_dado. intros c E. unfold exportar_sqlite.
    apply emite_xbind; [apply emite_chamar; intros r; now apply Hs
                       | intros _; now apply emite_avisar]. }
  intros _. apply emite_xbind; [now apply emite_bloco_pdf|].
  intros _. exact Hfim.
Qed.

Lemma imprimir_eq (dados : list registro) (fs : FS) :
  imprimir dados fs = (Ok tt, fs, map SvRegistro dados).
Proof.
  revert fs. induction dados as [|proc dados IH]; intros fs; [reflexivity|].
  cbn [imprimir]. rewrite xbind_eq. cbn [avisar]. rewrite IH. reflexivity.
Qed.

Lemma impressos_registros (dados : list registro) :
  impressos (map SvRegistro dados) = dados.
Proof.
  induction dados as [|p dados IH]; [reflexivity|].
  unfold impressos in *. cbn [map flat_map app]. now rewrite IH.
Qed.

Lemma impressos_nenhum (evs : list evento_saida) :
  Forall nao_registro evs -> impressos evs = [].
Proof.
  induction 1 as [|e evs He _ IH]; [reflexivity|].
  unfold impressos in *. cbn [flat_map]. rewrite IH.
  destruct e; cbn in He |- *; [reflexivity .. | contradiction].
Qed.

Lemma se_dado_falsy (caminho : option string) (m : string -> X unit) :
  opt_truthy caminho = false -> se_dado caminho m = xret tt.
Proof.
  unfold opt_truthy, se_dado. destruct caminho as [c|]; [|reflexivity].
  now intros ->.
Qed.

Lemma se_dado_truthy (caminho : option string) (m : string -> X unit) :
  opt_truthy caminho = true -> exists c, caminho = Some c /\ se_dado caminho m = m c.
Proof.
  unfold opt_truthy, se_dado. destruct caminho as [c|]; [|discriminate].
  intros ->. now exists c.
Qed.

Lemma xret_xbind {A B : Type} (a : A) (k : A -> X B) (fs : FS) :
  xbind (xret a) k fs = k a fs.
Proof.
  rewrite xbind_eq. cbn [xret]. now destruct (k a fs) as [[r fs'] ev].
Qed.

Lemma nenhuma_saida_true (o : saidas) :
  nenhuma_saida o = true ->
  opt_truthy (arg_excel o) = false /\ opt_truthy (arg_csv o) = false
  /\ opt_truthy (arg_sqlite o) = false /\ opt_truthy (arg_pdf o) = false.
Proof.
  unfold nenhuma_saida.
  destruct (opt_truthy (arg_excel o)), (opt_truthy (arg_csv o)),
    (opt_truthy (arg_sqlite o)), (opt_truthy (arg_pdf o)); cbn; intros H;
    first [discriminate | now repeat split].
Qed.

(** X18. The records are printed to the terminal exactly when no
    export path at all is given, [--pdf] included: a run with none
    prints every record, in order, and touches no file; a run with any
    prints none, whatever happens to the exports. *)
Theorem resumo_no_terminal (o : saidas) (dados : list registro) (fs : FS) :
  impressos (snd (main_exportar o dados fs)) = (if nenhuma_saida o then dados else [])
  /\ (nenhuma_saida o = true ->
      main_exportar o dados fs = (Ok tt, fs, map SvRegistro dados)).
Proof.
  assert (Hn : nenhuma_saida o = true ->
               main_exportar o dados fs = (Ok tt, fs, map SvRegistro dados)).
  { intros Hn. destruct (nenhuma_saida_true o Hn) as (Hx & Hc & Hs & Hp).
    unfold main_exportar, bloco_pdf.
    rewrite (se_dado_falsy _ _ Hx), (se_dado_falsy _ _ Hc),
      (se_dado_falsy _ _ Hs), (se_dado_falsy _ _ Hp).
    rewrite !xret_xbind. rewrite Hn. apply imprimir_eq. }
  split; [|exact Hn].
  destruct (nenhuma_saida o) eqn:E.
  - rewrite (Hn eq_refl). cbn [snd]. apply impressos_registros.
  - apply impressos_nenhum.
    apply (emite_main_exportar nao_registro); cbn; try easy.
    rewrite E. apply emite_xret.
Qed.

(** X19. [--pdf] with [--no-pdf] and no other export path: the run
    writes no file, gives no warning and prints no record either, as a
    path was given. *)
Theorem pdf_com_no_pdf (o : saidas) (dados : list registro) (fs : FS) :
  opt_truthy (arg_excel o) = false ->
  opt_truthy (arg_csv o) = false ->
  opt_truthy (arg_sqlite o) = false ->
  opt_truthy (arg_pdf o) = true ->
  arg_no_pdf o = true ->
  main_exportar o dados fs = (Ok tt, fs, []).
Proof.
  intros Hx Hc Hs Hp Hno. unfold main_exportar, bloco_pdf, nenhuma_saida.
  rewrite (se_dado_falsy _ _ Hx), (se_dado_falsy _ _ Hc), (se_dado_falsy _ _ Hs).
  rewrite !xret_xbind.
  rewrite Hx, Hc, Hs, Hp. cbn [orb negb].
  unfold opt_truthy in Hp. unfold se_dado.
  destruct (arg_pdf o) as [c|]; [|discriminate]. rewrite Hp, Hno. cbn [negb].
  rewrite !xret_xbind. reflexivity.
Qed.

Lemma emite_imprimir (P : evento_saida -> Prop) (dados : list registro) :
  (forall p, P (SvRegistro p)) -> emite P (imprimir dados).
Proof.
  intros H fs. rewrite imprimir_eq. cbn [snd].
  induction dados as [|p dados IH]; constructor; [apply H | exact IH].
Qed.

Lemma gravacoes_previstas (o : saidas) (dados : list registro) (evs : list evento_saida) :
  Forall (prevista o dados) evs -> Forall (chamada_prevista o dados) (gravacoes evs).
Proof.
  induction 1 as [|e evs He _ IH]; [constructor|].
  unfold gravacoes in *. cbn [flat_map].
  destruct e; cbn [app]; try exact IH. constructor; [exact He | exact IH].
Qed.

(** X20. Every call of a writer is one [main] was asked for: the
    Excel, CSV and SQLite writers get the path of their option and the
    records; the PDF writer is called only if [fpdf] was imported and
    [--no-pdf] is absent, with the path of [--pdf]; the text report is
    written only beside the path of [--pdf], under its root with
    [.txt], never with [--no-pdf], and holds the report of the same
    records. *)
Theorem gravacoes_pedidas (o : saidas) (dados : list registro) (fs : FS) :
  Forall (chamada_prevista o dados) (gravacoes (snd (main_exportar o dados fs))).
Proof.
  apply gravacoes_previstas.
  apply (emite_main_exportar (prevista o dados)); cbn; try easy.
  - intros c _ Hc Hno. repeat split; [now exists c | exact Hno].
  - destruct (nenhuma_saida o); [now apply emite_imprimir | apply emite_xret].
Qed.

(** ** Completion *)

Lemma conclui_xret {A : Type} (a : A) : conclui (xret a).
Proof. intros fs. now exists a. Qed.

Lemma conclui_avisar (e : evento_saida) : conclui (avisar e).
Proof. intros fs. now exists tt. Qed.

Lemma conclui_chamar (f : formato) (c : string) (x : carga) :
  (forall fs, fst (gravar fs f c x) = None) -> conclui (chamar f c x).
Proof.
  intros H fs. unfold chamar. specialize (H fs).
  destruct (gravar fs f c x) as [r fs']. cbn in H. subst r. now exists tt.
Qed.

Lemma xbind_conclui {A B : Type} (m : X A) (k : A -> X B) (fs : FS) :
  conclui m ->
  exists a fs' ev,
    m fs = (Ok a, fs', ev)
    /\ xbind m k fs = (fst (fst (k a fs')), snd (fst (k a fs')), ev ++ snd (k a fs')).
Proof.
  intros Hm. destruct (Hm fs) as [a Ha]. rewrite xbind_eq.
  destruct (m fs) as [[r fs'] ev]. cbn in Ha. subst r.
  exists a, fs', ev. split; [reflexivity|].
  now destruct (k a fs') as [[r fs''] ev'].
Qed.

Lemma conclui_xbind {A B : Type} (m : X A) (k : A -> X B) :
  conclui m -> (forall a, conclui (k a)) -> conclui (xbind m k).
Proof.
  intros Hm Hk fs. destruct (xbind_conclui m k fs Hm) as (a & fs' & ev & _ & ->).
  cbn [fst]. apply Hk.
Qed.

Lemma conclui_tentar {A : Type} (m : X A) (h : string -> X A) :
  (forall exc, conclui (h exc)) -> conclui (tentar m h).
Proof.
  intros Hh fs. unfold tentar.
  destruct (m fs) as [[[a|exc] fs'] ev]; [now exists a|].
  destruct (Hh exc fs') as [a Ha].
  destruct (h exc fs') as [[r fs''] ev']. cbn in Ha |- *. now exists a.
Qed.

Lemma conclui_se_dado (caminho : option string) (m : string -> X unit) :
  (forall c, conclui (m c)) -> conclui (se_dado caminho m).
Proof.
  intros H. unfold se_dado. destruct caminho as [c|]; [|apply conclui_xret].
  destruct (negb (c =? "")%string); [apply H | apply conclui_xret].
Qed.

Lemma conclui_imprimir (dados : list registro) : conclui (imprimir dados).
Proof. intros fs. rewrite imprimir_eq. now exists tt. Qed.

Lemma conclui_gerado (f : formato) (c : string) (x : carga) :
  (forall fs, fst (gravar fs f c x) = None) ->
  conclui (xbind (chamar f c x) (fun _ => avisar (SvGerado f c))).
Proof.
  intros H. apply conclui_xbind; [now apply conclui_chamar | intros _; apply conclui_avisar].
Qed.

Lemma conclui_fallback_txt (dados : list registro) (pdf : string) :
  (forall fs c x, fst (gravar fs Txt c x) = None) -> conclui (fallback_txt dados pdf).
Proof. intros H. unfold fallback_txt, exportar_txt. apply conclui_gerado. intros fs. apply H. Qed.

Lemma conclui_bloco_pdf (o : saidas) (dados : list registro) :
  (forall fs c x, fst (gravar fs Txt c x) = None) -> conclui (bloco_pdf o dados).
Proof.
  intros H. unfold bloco_pdf. apply conclui_se_dado. intros c.
  destruct (negb (arg_no_pdf o)); [|apply conclui_xret].
  destruct tem_fpdf.
  - apply conclui_tentar. intros exc.
    apply conclui_xbind; [apply conclui_avisar | intros _; now apply conclui_fallback_txt].
  - apply conclui_xbind; [apply conclui_avisar | intros _; now apply conclui_fallback_txt].
Qed.

Lemma relatorio_gravado_app (a b : list evento_saida) :
  relatorio_gravado (a ++ b) = relatorio_gravado a || relatorio_gravado b.
Proof.
  unfold relatorio_gravado, gravacoes. now rewrite flat_map_app, existsb_app.
Qed.

Lemma fallback_txt_grava (dados : list registro) (pdf : string) (fs : FS) :
  (forall fs c x, fst (gravar fs Txt c x) = None) ->
  relatorio_gravado (snd (fallback_txt dados pdf fs)) = true.
Proof.
  intros H. unfold fallback_txt, exportar_txt. rewrite xbind_eq. unfold chamar.
  specialize (H fs (splitext_raiz pdf +++ ".txt") (Texto (conteudo_txt dados))).
  destruct (gravar fs Txt _ _) as [r fs']. cbn in H. subst r. reflexivity.
Qed.

Lemma bloco_pdf_grava (o : saidas) (dados : list registro) (fs : FS) :
  (forall fs c x, fst (gravar fs Txt c x) = None) ->
  opt_truthy (arg_pdf o) = true ->
  arg_no_pdf o = false ->
  relatorio_gravado (snd (bloco_pdf o dados fs)) = true.
Proof.
  intros H Hp Hno. unfold bloco_pdf, se_dado. unfold opt_truthy in Hp.
  destruct (arg_pdf o) as [c|]; [|discriminate]. rewrite Hp, Hno. cbn [negb].
  destruct tem_fpdf eqn:Hf.
  - unfold tentar, exportar_pdf. rewrite Hf. cbn [negb]. rewrite xbind_eq. unfold chamar.
    destruct (gravar fs Pdf c _) as [[exc|] fs']; [|reflexivity].
    rewrite xbind_eq. cbn [avisar].
    pose proof (fallback_txt_grava dados c fs' H) as Hg.
    destruct (fallback_txt dados c fs') as [[r fs''] ev]. cbn [snd] in Hg |- *.
    rewrite !relatorio_gravado_app, Hg. now rewrite !orb_true_r.
  - rewrite xbind_eq. cbn [avisar].
    pose proof (fallback_txt_grava dados c fs H) as Hg.
    destruct (fallback_txt dados c fs) as [[r fs''] ev]. cbn [snd] in Hg |- *.
    rewrite !relatorio_gravado_app, Hg. now rewrite !orb_true_r.
Qed.

(** X21. If the writers other than the PDF's do not fail, the exports
    end without an exception whatever the PDF writer does, and whether
    or not [fpdf] could be imported; and with [--pdf] and without
    [--no-pdf] a report has then been written, as a PDF or as text. *)
Theorem pdf_nunca_aborta (o : saidas) (dados : list registro) (fs : FS) :
  (forall fs f c x, f <> Pdf -> fst (gravar fs f c x) = None) ->
  fst (fst (main_exportar o dados fs)) = Ok tt
  /\ (opt_truthy (arg_pdf o) = true -> arg_no_pdf o = false ->
      relatorio_gravado (snd (main_exportar o dados fs)) = true).
Proof.
  intros H.
  assert (Htxt : forall fs c x, fst (gravar fs Txt c x) = None)
    by (intros; now apply H).
  assert (Hb : forall f c, f <> Pdf ->
               conclui (se_dado c (fun c => xbind (chamar f c (Tabela dados))
                                              (fun _ => avisar (SvGerado f c))))).
  { intros f c Hf. apply conclui_se_dado. intros c'. apply conclui_gerado.
    intros fs'. now apply H. }
  unfold main_exportar, exportar_excel, exportar_csv, exportar_sqlite.
  destruct (xbind_conclui _ (fun _ =>
              xbind (se_dado (arg_csv o) (fun c => xbind (chamar Csv c (Tabela dados))
                                                     (fun _ => avisar (SvGerado Csv c))))
                (fun _ => xbind (se_dado (arg_sqlite o)
                                   (fun c => xbind (chamar Sqlite c (Tabela dados))
                                               (fun _ => avisar (SvGerado Sqlite c))))
                  (fun _ => xbind (bloco_pdf o dados)
                    (fun _ => if nenhuma_saida o then imprimir dados else xret tt))))
              fs (Hb Excel (arg_excel o) ltac:(discriminate)))
    as (a1 & fs1 & ev1 & _ & ->).
  destruct (xbind_conclui _ (fun _ =>
              xbind (se_dado (arg_sqlite o)
                       (fun c => xbind (chamar Sqlite c (Tabela dados))
                                   (fun _ => avisar (SvGerado Sqlite c))))
                (fun _ => xbind (bloco_pdf o dados)
                  (fun _ => if nenhuma_saida o then imprimir dados else xret tt)))
              fs1 (Hb Csv (arg_csv o) ltac:(discriminate)))
    as (a2 & fs2 & ev2 & _ & ->).
  destruct (xbind_conclui _ (fun _ => xbind (bloco_pdf o dados)
                  (fun _ => if nenhuma_saida o then imprimir dados else xret tt))
              fs2 (Hb Sqlite (arg_sqlite o) ltac:(discriminate)))
    as (a3 & fs3 & ev3 & _ & ->).
  destruct (xbind_conclui _ (fun _ => if nenhuma_saida o then imprimir dados else xret tt)
              fs3 (conclui_bloco_pdf o dados Htxt))
    as (a4 & fs4 & ev4 & E4 & ->).
  cbn [fst snd]. split.
  - destruct (nenhuma_saida o); [now rewrite imprimir_eq | reflexivity].
  - intros Hp Hno. pose proof (bloco_pdf_grava o dados fs3 Htxt Hp Hno) as Hg.
    rewrite E4 in Hg. cbn [snd] in Hg.
    rewrite !relatorio_gravado_app, Hg. now rewrite !orb_true_r.
Qed.

(** ** The order of the writer calls *)

Lemma subsequencia_nil {A : Type} (l : list A) : subsequencia [] l.
Proof. induction l; constructor; assumption. Qed.

Lemma subsequencia_app {A : Type} (a a' b b' : list A) :
  subsequencia a a' -> subsequencia b b' -> subsequencia (a ++ b) (a' ++ b').
Proof. intros Ha Hb. induction Ha; cbn; [exact Hb | now constructor ..]. Qed.

Lemma gravacoes_app (a b : list evento_saida) :
  gravacoes (a ++ b) = gravacoes a ++ gravacoes b.
Proof. unfold gravacoes. apply flat_map_app. Qed.

Lemma grava_de_xret (l : list formato) {A : Type} (a : A) : grava_de l (xret a).
Proof. intros fs. apply subsequencia_nil. Qed.

Lemma grava_de_avisar (l : list formato) (e : evento_saida) :
  gravacoes [e] = [] -> grava_de l (avisar e).
Proof. intros H fs. cbn [avisar snd]. rewrite H. apply subsequencia_nil. Qed.

Lemma grava_de_chamar (f : formato) (c : string) (x : carga) : grava_de [f] (chamar f c x).
Proof.
  intros fs. unfold chamar. destruct (gravar fs f c x) as [r fs']. cbn.
  repeat constructor.
Qed.

Lemma grava_de_xbind (l1 l2 : list formato) {A B : Type} (m : X A) (k : A -> X B) :
  grava_de l1 m -> (forall a, grava_de l2 (k a)) -> grava_de (l1 ++ l2) (xbind m k).
Proof.
  intros Hm Hk fs. rewrite xbind_eq. specialize (Hm fs).
  destruct (m fs) as [[[a|exc] fs'] ev]; cbn [snd] in Hm |- *.
  - specialize (Hk a fs'). destruct (k a fs') as [[r fs''] ev']. cbn [snd] in Hk |- *.
    rewrite gravacoes_app, map_app. now apply subsequencia_app.
  - rewrite <- (app_nil_r (map _ _)).
    apply subsequencia_app; [exact Hm | apply subsequencia_nil].
Qed.

Lemma grava_de_tentar (l1 l2 : list formato) {A : Type} (m : X A) (h : string -> X A) :
  grava_de l1 m -> (forall exc, grava_de l2 (h exc)) -> grava_de (l1 ++ l2) (tentar m h).
Proof.
  intros Hm Hh fs. unfold tentar. specialize (Hm fs).
  destruct (m fs) as [[[a|exc] fs'] ev]; cbn [snd] in Hm |- *.
  - rewrite <- (app_nil_r (map _ _)).
    apply subsequencia_app; [exact Hm | apply subsequencia_nil].
  - specialize (Hh exc fs'). destruct (h exc fs') as [[r fs''] ev']. cbn [snd] in Hh |- *.
    rewrite gravacoes_app, map_app. now apply subsequencia_app.
Qed.

Lemma grava_de_se_dado (l : list formato) (caminho : option string)
    (m : string -> X unit) :
  (forall c, grava_de l (m c)) -> grava_de l (se_dado caminho m).
Proof.
  intros H. unfold se_dado. destruct caminho as [c|]; [|apply grava_de_xret].
  destruct (negb (c =? "")%string); [apply H | apply grava_de_xret].
Qed.

Lemma grava_de_gerado (f : formato) (c : string) (x : carga) :
  grava_de [f] (xbind (chamar f c x) (fun _ => avisar (SvGerado f c))).
Proof.
  apply (grava_de_xbind [f] []); [apply grava_de_chamar | intros _; now apply grava_de_avisar].
Qed.

Lemma grava_de_fallback_txt (dados : list registro) (pdf : string) :
  grava_de [Txt] (fallback_txt dados pdf).
Proof. unfold fallback_txt, exportar_txt. apply grava_de_gerado. Qed.

Lemma grava_de_bloco_pdf (o : saidas) (dados : list registro) :
  grava_de [Pdf; Txt] (bloco_pdf o dados).
Proof.
  unfold bloco_pdf. apply grava_de_se_dado. intros c.
  destruct (negb (arg_no_pdf o)); [|apply grava_de_xret].
  destruct tem_fpdf eqn:Hf.
  - apply (grava_de_tentar [Pdf] [Txt]).
    + unfold exportar_pdf. rewrite Hf. cbn [negb]. apply grava_de_gerado.
    + intros exc. apply (grava_de_xbind [] [Txt]);
        [now apply grava_de_avisar | intros _; apply grava_de_fallback_txt].
  - apply (grava_de_xbind [Pdf] [Txt]);
      [now apply grava_de_avisar | intros _; apply grava_de_fallback_txt].
Qed.

Lemma grava_de_imprimir (dados : list registro) : grava_de [] (imprimir dados).
Proof.
  intros fs. rewrite imprimir_eq. cbn [snd].
  replace (gravacoes (map SvRegistro dados)) with (@nil (formato * string * carga * option string));
    [constructor|].
  induction dados as [|p dados IH]; [reflexivity | exact IH].
Qed.

(** X22. The writers are called in the order Excel, CSV, SQLite, PDF,
    text, and each at most once in a run. *)
Theorem ordem_das_gravacoes (o : saidas) (dados : list registro) (fs : FS) :
  subsequencia (map formato_de (gravacoes (snd (main_exportar o dados fs))))
               [Excel; Csv; Sqlite; Pdf; Txt].
Proof.
  revert fs. change (grava_de [Excel; Csv; Sqlite; Pdf; Txt] (main_exportar o dados)).
  unfold main_exportar, exportar_excel, exportar_csv, exportar_sqlite.
  apply (grava_de_xbind [Excel] [Csv; Sqlite; Pdf; Txt]);
    [apply grava_de_se_dado; intros c; apply grava_de_gerado | intros _].
  apply (grava_de_xbind [Csv] [Sqlite; Pdf; Txt]);
    [apply grava_de_se_dado; intros c; apply grava_de_gerado | intros _].
  apply (grava_de_xbind [Sqlite] [Pdf; Txt]);
    [apply grava_de_se_dado; intros c; apply grava_de_gerado | intros _].
  apply (grava_de_xbind [Pdf; Txt] []); [apply grava_de_bloco_pdf | intros _].
  destruct (nenhuma_saida o); [apply grava_de_imprimir | apply grava_de_xret].
Qed.

(** ** How the exports fail *)

Lemma falha_no_fim_conclui {A : Type} (m : X A) : conclui m -> falha_no_fim m.
Proof. intros H fs exc E. destruct (H fs) as [a Ha]. congruence. Qed.

Lemma falha_no_fim_chamar (f : formato) (c : string) (x : carga) :
  f <> Pdf -> falha_no_fim (chamar f c x).
Proof.
  intros Hf fs exc. unfold chamar. destruct (gravar fs f c x) as [[e|] fs']; cbn; [|discriminate].
  intros [= ->]. now exists [], f, c, x.
Qed.

Lemma falha_no_fim_xbind {A B : Type} (m : X A) (k : A -> X B) :
  falha_no_fim m -> (forall a, falha_no_fim (k a)) -> falha_no_fim (xbind m k).
Proof.
  intros Hm Hk fs exc. rewrite xbind_eq. specialize (Hm fs exc).
  destruct (m fs) as [[[a|e] fs'] ev]; cbn [fst snd] in Hm |- *.
  - specialize (Hk a fs' exc). destruct (k a fs') as [[r fs''] ev']. cbn [fst snd] in Hk |- *.
    intros E. destruct (Hk E) as (evs & f & c & x & -> & Hf).
    exists (ev ++ evs), f, c, x. now rewrite app_assoc.
  - intros [= ->]. now apply Hm.
Qed.

Lemma falha_no_fim_tentar {A : Type} (m : X A) (h : string -> X A) :
  (forall exc, falha_no_fim (h exc)) -> falha_no_fim (tentar m h).
Proof.
  intros Hh fs exc. unfold tentar.
  destruct (m fs) as [[[a|e] fs'] ev]; cbn [fst snd]; [discriminate|].
  specialize (Hh e fs' exc). destruct (h e fs') as [[r fs''] ev']. cbn [fst snd] in Hh |- *.
  intros E. destruct (Hh E) as (evs & f & c & x & -> & Hf).
  exists (ev ++ evs), f, c, x. now rewrite app_assoc.
Qed.

Lemma falha_no_fim_se_dado (caminho : option string) (m : string -> X unit) :
  (forall c, falha_no_fim (m c)) -> falha_no_fim (se_dado caminho m).
Proof.
  intros H. unfold se_dado.
  destruct caminho as [c|]; [|apply falha_no_fim_conclui, conclui_xret].
  destruct (negb (c =? "")%string); [apply H | apply falha_no_fim_conclui, conclui_xret].
Qed.

Lemma falha_no_fim_gerado (f : formato) (c : string) (x : carga) :
  f <> Pdf -> falha_no_fim (xbind (chamar f c x) (fun _ => avisar (SvGerado f c))).
Proof.
  intros Hf. apply falha_no_fim_xbind; [now apply falha_no_fim_chamar|].
  intros _. apply falha_no_fim_conclui, conclui_avisar.
Qed.

Lemma falha_no_fim_fallback_txt (dados : list registro) (pdf : string) :
  falha_no_fim (fallback_txt dados pdf).
Proof. unfold fallback_txt, exportar_txt. now apply falha_no_fim_gerado. Qed.

(** X23. The exports end in an exception only through a writer other
    than the PDF's: the exception is the one that writer raised, its
    call is the last thing the run did, and nothing later in [main] is
    written or printed. *)
Theorem falha_de_gravacao (o : saidas) (dados : list registro) (fs : FS) (exc : string) :
  fst (fst (main_exportar o dados fs)) = Erro exc ->
  exists evs f c x,
    snd (main_exportar o dados fs) = evs ++ [SvGravar f c x (Some exc)] /\ f <> Pdf.
Proof.
  revert fs exc. change (falha_no_fim (main_exportar o dados)).
  unfold main_exportar, exportar_excel, exportar_csv, exportar_sqlite.
  repeat (apply falha_no_fim_xbind;
          [apply falha_no_fim_se_dado; intros c; now apply falha_no_fim_gerado | intros _]).
  apply falha_no_fim_xbind.
  - unfold bloco_pdf. apply falha_no_fim_se_dado. intros c.
    destruct (negb (arg_no_pdf o)); [|apply falha_no_fim_conclui, conclui_xret].
    destruct tem_fpdf.
    + apply falha_no_fim_tentar. intros e.
      apply falha_no_fim_xbind; [apply falha_no_fim_conclui, conclui_avisar|].
      intros _. apply falha_no_fim_fallback_txt.
    + apply falha_no_fim_xbind; [apply falha_no_fim_conclui, conclui_avisar|].
      intros _. apply falha_no_fim_fallback_txt.
  - intros _. apply falha_no_fim_conclui.
    destruct (nenhuma_saida o); [apply conclui_imprimir | apply conclui_xret].
Qed.

(** ** The text report *)

Lemma blocos_txt_app (idx : Z) (a b : list registro) :
  blocos_txt idx (a ++ b) = blocos_txt idx a +++ blocos_txt (idx + Z.of_nat (List.length a)) b.
Proof.
  revert idx. induction a as [|r a IH]; intros idx.
  - cbn. now rewrite Z.add_0_r.
  - cbn [app blocos_txt List.length]. rewrite IH, append_assoc.
    do 3 f_equal. lia.
Qed.

(** X24. In the text report the record at position [i] of the list is
    reported under the number [i + 1], after the blocks of the records
    before it and before the blocks of those after it. *)
Theorem relatorio_txt_numerado (dados : list registro) (i : nat) (r : registro) :
  nth_error dados i = Some r ->
  conteudo_txt dados
  = conteudo_txt (firstn i dados)
    +++ bloco_txt (Z.of_nat i + 1) r
    +++ blocos_txt (Z.of_nat i + 2) (skipn (S i) dados).
Proof.
  intros H.
  destruct (nth_error_split dados i H) as (a & b & -> & <-).
  unfold conteudo_txt.
  rewrite firstn_app, firstn_all, Nat.sub_diag. cbn [firstn]. rewrite app_nil_r.
  replace (skipn (S (List.length a)) (a ++ r :: b)) with b.
  2:{ clear. induction a as [|y a IH]; [reflexivity | exact IH]. }
  rewrite blocos_txt_app. cbn [blocos_txt]. do 2 f_equal; [f_equal; lia|].
  f_equal. lia.
Qed.

Lemma str_concat_app (a b : list string) :
  str_concat (a ++ b) = str_concat a +++ str_concat b.
Proof.
  induction a as [|x a IH]; [reflexivity|].
  cbn [app]. unfold str_concat in *. cbn [fold_right]. now rewrite IH, append_assoc.
Qed.

(** X25. A hit without a movement list is reported, in the text file
    and on the PDF page alike, with a dash for the number of movements
    (0 counts as no value), for the deadlines and for the summary of
    the decision, and with the execution phase "Não". *)
Theorem relatorio_sem_movimentos (trib : string) (src : list (string * json))
    (r : registro) (idx : Z) :
  montar_registro trib (JDict src) = Return r ->
  lookup "movimentos" src = None ->
  (exists inicio,
      bloco_txt idx r
      = inicio +++ "qtd_movimentos: -" +++ nl +++ "prazos_relevantes: -" +++ nl
        +++ "resumo_decisao: -" +++ nl +++ "fase_execucao: Não" +++ nl +++ nl)
  /\ skipn 10 (celulas_pdf r)
     = ["qtd_movimentos: -"; "prazos_relevantes: -"; "resumo_decisao: -";
        "fase_execucao: Não"].
Proof.
  intros H Hl.
  destruct (montar_registro_campos trib (JDict src) r H)
    as (movimentos & prazos & resumo & fase & n & Hget & Hpz & Hrs & Hfe & Hlen
        & Ep & Er & Ef & En & _).
  cbn [py_get] in Hget. rewrite Hl in Hget. injection Hget as <-.
  cbv in Hpz, Hrs, Hfe, Hlen.
  injection Hpz as <-. injection Hrs as <-. injection Hfe as <-. injection Hlen as <-.
  cbn [join] in Ep.
  assert (Hult : map texto_item (skipn 9 (itens r))
                 = ["qtd_movimentos: -"; "prazos_relevantes: -"; "resumo_decisao: -";
                    "fase_execucao: Não"]).
  { unfold itens. cbn [skipn map]. rewrite Ep, Er, Ef, En. reflexivity. }
  split.
  - exists (("Processo #" +++ py_format (JNum idx) +++ nl)
            +++ str_concat (map (fun kv => texto_item kv +++ nl) (firstn 9 (itens r)))).
    unfold bloco_txt. rewrite <- (firstn_skipn 9 (itens r)) at 1.
    rewrite map_app, str_concat_app.
    rewrite <- (map_map texto_item (fun s => s +++ nl) (skipn 9 (itens r))), Hult.
    cbn [map str_concat fold_right].
    rewrite !append_assoc. reflexivity.
  - unfold celulas_pdf. change (skipn 10 (?x :: ?l)) with (skipn 9 l).
    rewrite <- Hult. unfold itens. reflexivity.
Qed.

End PropriedadesExportacao.

(** * The properties on the examples *)

Lemma resumo_decisao_exemplo :
  forallb wf_movimento log_exemplo = true
  /\ extrair_resumo_decisao (lib := lib_exemplo) (JList log_exemplo)
     = Return (JStr "Sentença de mérito").
Proof.
  split; [reflexivity|].
  rewrite (proj1 (resumo_decisao_ultima_decisao (lib := lib_exemplo) log_exemplo eq_refl)).
  vm_compute. reflexivity.
Defined.

Lemma prazos_relevantes_exemplo :
  forallb wf_movimento log_exemplo = true
  /\ extrair_prazos (lib := lib_exemplo) (JList log_exemplo)
     = Return [ "2021-03-05T08:00:00: Intimação para manifestação";
                "2021-06-20T15:30:00: Intimação para manifestação" ].
Proof.
  split; [reflexivity|].
  rewrite (proj1 (prazos_relevantes_subsequencia (lib := lib_exemplo) log_exemplo eq_refl)).
  vm_compute. reflexivity.
Defined.

Lemma fase_execucao_exemplo :
  forallb wf_movimento log_execucao = true
  /\ extrair_fase_execucao (lib := lib_exemplo) (JList log_execucao) = Return true
  /\ extrair_fase_execucao (lib := lib_exemplo) (JList log_exemplo) = Return false.
Proof.
  split; [reflexivity|]. split.
  - rewrite (proj1 (fase_execucao_algum_movimento (lib := lib_exemplo) log_execucao eq_refl)).
    vm_compute. reflexivity.
  - vm_compute. reflexivity.
Defined.

Lemma registro_sem_movimentos_exemplo :
  exists r,
    processar_hit (lib := lib_exemplo) "tjpe" None hit_sem_movimentos = Return (Some r)
    /\ tribunal r = "TJPE"
    /\ qtd_movimentos r = 0
    /\ prazos_relevantes r = ""
    /\ resumo_decisao r = JStr ""
    /\ fase_execucao r = "Não".
Proof.
  destruct (registro_sem_movimentos (lib := lib_exemplo) "tjpe" None hit_sem_movimentos
              fonte_sem_movimentos eq_refl eq_refl)
    as (_ & Hcampos & Hreg & _).
  destruct (Hreg eq_refl) as (r & Hr & Hp).
  destruct (Hcampos r Hp) as (_ & Hvazio).
  destruct (Hvazio eq_refl) as (Hq & Hpz & Hrs & Hfe).
  exists r. repeat split; try assumption.
  vm_compute in Hr. now injection Hr as <-.
Defined.

(** Movements with no description and no timestamp are classified, and
    counted, like any other. *)
Example movimentos_sem_campos :
  exists r,
    processar_hit (lib := lib_exemplo) "tjpe" None
      (hit_de "0003" JNull [JDict []; JDict [("dataHora", JNull)]])
    = Return (Some r)
    /\ qtd_movimentos r = 2
    /\ prazos_relevantes r = ""
    /\ resumo_decisao r = JStr ""
    /\ fase_execucao r = "Não".
Proof.
  eexists. split; [vm_compute; reflexivity|]. now repeat split.
Qed.

(** The filter 2021-01-01 on hits dated the day before, that day, and
    with a date that does not parse or is missing. *)
Example filtro_desde_exemplos :
  let desde := fromisoformat_ymd "2021-01-01" in
  let processar := processar_hit (lib := lib_exemplo) "tjpe" desde in
  processar (hit_de "1" (JStr "2020-12-31T23:59:59") []) = Return None
  /\ (exists r, processar (hit_de "2" (JStr "2021-01-01T00:00:00") []) = Return (Some r))
  /\ (exists r, processar (hit_de "3" (JStr "sem data") []) = Return (Some r))
  /\ (exists r, processar (hit_de "4" JNull []) = Return (Some r))
  /\ (exists r, processar (JDict []) = Return (Some r)).
Proof.
  cbv zeta. split; [vm_compute; reflexivity|].
  split; [|split; [|split]]; eexists; vm_compute; reflexivity.
Qed.

Lemma paginacao_termina_exemplo :
  (forall net0 ep body,
      pagina_de_100 (fst (http_post (Transporte := tr_cheio) net0 ep body)) = true)
  /\ List.length (respostas (snd (buscar_processos (lib := lib_exemplo) (tr := tr_cheio)
                                    "LOCAR" "354" "tjpe" 3 None tt)))
     = 3%nat.
Proof.
  assert (H : forall net0 ep body,
             pagina_de_100 (fst (http_post (Transporte := tr_cheio) net0 ep body)) = true).
  { intros net0 ep body. vm_compute. reflexivity. }
  split; [exact H|].
  exact (proj2 (proj2 (proj2 (paginacao_termina (lib := lib_exemplo) (tr := tr_cheio)
                                "LOCAR" "354" "tjpe" 3 None tt)) H)).
Defined.

(** A short second page ends the query after two requests out of five. *)
Example paginacao_pagina_curta :
  let run := buscar_processos (lib := lib_exemplo) (tr := tr_pagina_curta)
               "LOCAR" "354" "tjpe" 5 None 0%nat in
  List.length (respostas (snd run)) = 2%nat
  /\ exists rs, fst (fst run) = Return rs /\ List.length rs = 140%nat.
Proof.
  cbv zeta. split; [vm_compute; reflexivity|].
  eexists. split; vm_compute; reflexivity.
Qed.

Lemma falha_de_transporte_exemplo :
  0 <= 1 < 3
  /\ pagina_0_falha_depois
     = (Return (Continue, registros_pagina_0), 1%nat, snd pagina_0_falha_depois)
  /\ buscar_processos (lib := lib_exemplo) (tr := tr_falha_depois)
       "LOCAR" "354" "tjpe" 3 None 0%nat
     = (Return registros_pagina_0, 2%nat,
        snd pagina_0_falha_depois
        ++ [ EvPost (endpoint_de "tjpe") (request_body "LOCAR" "354" 1)
               (Falha "503 Server Error");
             EvWarnFalha "TJPE" 2 "503 Server Error" ])
  /\ List.length registros_pagina_0 = 100%nat.
Proof.
  assert (Hk : 0 <= 1 < 3) by lia.
  assert (Hrun : pagina_0_falha_depois
                 = (Return (Continue, registros_pagina_0), 1%nat, snd pagina_0_falha_depois)).
  { vm_compute. reflexivity. }
  split; [exact Hk|]. split; [exact Hrun|]. split; [|vm_compute; reflexivity].
  exact (proj1 (falha_de_transporte (lib := lib_exemplo) (tr := tr_falha_depois)
                  "LOCAR" "354" "tjpe" 3 1 None 0%nat 1%nat 2%nat registros_pagina_0
                  (snd pagina_0_falha_depois) "503 Server Error" Hk Hrun eq_refl)).
Defined.

(** A tribunal that is down on its first page adds nothing, and the
    tribunals after it are still queried. *)
Example falha_na_primeira_pagina :
  let run := main (lib := lib_exemplo) (tr := tr_tribunais)
               (args_exemplo ["TJPE"; "tjba"] None None) tt in
  (exists out, fst (fst run) = Return out
               /\ map (fun r => (cnj r, tribunal r)) out
                  = [ (JStr "0001", "TJBA"); (JStr "0002", "TJBA") ])
  /\ map fst (pedidos (snd run)) = [ endpoint_de "tjpe"; endpoint_de "tjba" ].
Proof.
  cbv zeta. split; [eexists; split|]; vm_compute; reflexivity.
Qed.



(** A month 13 ends the run before anything is sent. *)
Lemma desde_invalida_exemplo :
  arg_desde (args_exemplo ["tjba"] (Some "2024-13-01") None) = Some "2024-13-01"
  /\ fromisoformat_ymd "2024-13-01" = None
  /\ main (lib := lib_exemplo) (tr := tr_tribunais)
       (args_exemplo ["tjba"] (Some "2024-13-01") None) tt
     = (Raise (SystemExit 1), tt, [EvErroData "2024-13-01"]).
Proof.
  split; [reflexivity|]. split; [reflexivity|].
  apply (proj1 (desde_invalida_termina (lib := lib_exemplo) (tr := tr_tribunais)
                  (args_exemplo ["tjba"] (Some "2024-13-01") None) tt "2024-13-01" eq_refl)).
  - discriminate.
  - reflexivity.
Defined.

(** Two arguments that are no YYYY-MM-DD date, and no error.  An empty
    [--desde] is not looked at: the session is made and the tribunal
    queried.  And 20210204, which [date.fromisoformat] reads from
    Python 3.11 on, is taken as the filter 2021-02-04: of the hits of
    the tribunal the one of that day is kept. *)
Lemma desde_nao_validada :
  fromisoformat_ymd "" = None
  /\ (exists out evs,
        main (lib := lib_exemplo) (tr := tr_tribunais)
          (args_exemplo ["tjba"] (Some "") None) tt
        = (Return out, tt, evs)
        /\ List.length out = 2%nat
        /\ existsb is_network evs = true
        /\ map fst (pedidos evs) = [endpoint_de "tjba"])
  /\ fromisoformat_311 "20210204" = Some 737825
  /\ (exists out evs,
        main (lib := lib_311) (tr := tr_tribunais)
          (args_exemplo ["tjba"] (Some "20210204") None) tt
        = (Return out, tt, evs)
        /\ map cnj out = [JStr "0002"]
        /\ existsb is_network evs = true
        /\ map fst (pedidos evs) = [endpoint_de "tjba"]).
Proof.
  split; [reflexivity|]. split.
  - do 2 eexists. split; [vm_compute; reflexivity|].
    split; [|split]; vm_compute; reflexivity.
  - split; [reflexivity|]. do 2 eexists. split; [vm_compute; reflexivity|].
    split; [|split]; vm_compute; reflexivity.
Qed.

(** Thirty days back from 2026-11-03 is 2026-10-04. *)
Lemma since_days_exemplo :
  1 <= 30
  /\ MINORD <= hoje (PyLib := lib_exemplo) - 30
  /\ hoje (PyLib := lib_exemplo) <= MAXORD
  /\ Some (hoje (PyLib := lib_exemplo) - 30) = fromisoformat_ymd "2026-10-04"
  /\ main (lib := lib_exemplo) (tr := tr_tribunais)
       (args_exemplo ["tjba"] None (Some 30)) tt
     = executar (lib := lib_exemplo) (tr := tr_tribunais)
         (args_exemplo ["tjba"] None (Some 30))
         (Some (hoje (PyLib := lib_exemplo) - 30)) tt.
Proof.
  assert (H1 : 1 <= 30) by lia.
  assert (H2 : MINORD <= hoje (PyLib := lib_exemplo) - 30) by (vm_compute; discriminate).
  assert (H3 : hoje (PyLib := lib_exemplo) <= MAXORD) by (vm_compute; discriminate).
  split; [exact H1|]. split; [exact H2|]. split; [exact H3|]. split; [reflexivity|].
  exact (proj1 (proj2 (since_days_filtro (lib := lib_exemplo) (tr := tr_tribunais)
                         (args_exemplo ["tjba"] None (Some 30)) tt eq_refl)
                  30 eq_refl H1 H2 H3)).
Defined.

(** A million days back from 2026-11-03 is before the first date there
    is: the subtraction raises and the run ends there, nothing queried
    and nothing filtered. *)
Lemma since_days_antes_do_ano_1 :
  1 <= 1000000
  /\ main (lib := lib_exemplo) (tr := tr_tribunais)
       (args_exemplo ["tjba"] None (Some 1000000)) tt
     = (Raise OverflowError, tt, []).
Proof.
  split; [lia | vm_compute; reflexivity].
Qed.

(** * The further properties on the examples *)

Lemma registros_de_pagina_exemplo :
  forallb wf_hit [ hit_de "0001" (JStr "2021-02-03") log_exemplo;
                   hit_de "0002" (JStr "2020-02-04") [] ] = true
  /\ exists novos,
       for_hits (lib := lib_exemplo) "tjpe" (fromisoformat_ymd "2021-01-01")
         [ hit_de "0001" (JStr "2021-02-03") log_exemplo;
           hit_de "0002" (JStr "2020-02-04") [] ] []
       = Return novos
       /\ map cnj novos = [JStr "0001"].
Proof.
  split; [reflexivity|].
  destruct (registros_de_pagina (lib := lib_exemplo) "tjpe" (fromisoformat_ymd "2021-01-01")
              [ hit_de "0001" (JStr "2021-02-03") log_exemplo;
                hit_de "0002" (JStr "2020-02-04") [] ] [] eq_refl)
    as (novos & Hrun & Hcnj & _).
  exists novos. split; [exact Hrun|]. rewrite Hcnj. vm_compute. reflexivity.
Defined.

Lemma buscar_processos_tribunal_exemplo :
  buscar_processos (lib := lib_exemplo) (tr := tr_falha_depois) "LOCAR" "354" "tjpe" 3 None 0%nat
  = (Return registros_pagina_0, 2%nat,
     snd (buscar_processos (lib := lib_exemplo) (tr := tr_falha_depois)
            "LOCAR" "354" "tjpe" 3 None 0%nat))
  /\ Forall (fun r => tribunal r = "TJPE") registros_pagina_0.
Proof.
  assert (H : buscar_processos (lib := lib_exemplo) (tr := tr_falha_depois)
                "LOCAR" "354" "tjpe" 3 None 0%nat
              = (Return registros_pagina_0, 2%nat,
                 snd (buscar_processos (lib := lib_exemplo) (tr := tr_falha_depois)
                        "LOCAR" "354" "tjpe" 3 None 0%nat))).
  { vm_compute. reflexivity. }
  split; [exact H|].
  exact (buscar_processos_tribunal (lib := lib_exemplo) (tr := tr_falha_depois)
           "LOCAR" "354" "tjpe" 3 None 0%nat 2%nat registros_pagina_0 _ H).
Defined.

Lemma main_tribunais_pedidos_exemplo :
  arg_selftest args_duplicados = false
  /\ run_duplicados = (Return saida_duplicados, tt, snd run_duplicados)
  /\ Forall (fun r => exists t, In t ["tjba"; " TJBA "; "tjsp"]
                                /\ tribunal r = upper_ascii (strip_ascii (lower_latin1 t)))
       saida_duplicados.
Proof.
  assert (H : run_duplicados = (Return saida_duplicados, tt, snd run_duplicados)).
  { vm_compute. reflexivity. }
  split; [reflexivity|]. split; [exact H|].
  exact (main_tribunais_pedidos (lib := lib_exemplo) (tr := tr_tribunais)
           args_duplicados tt tt saida_duplicados (snd run_duplicados) eq_refl H).
Defined.

Lemma erro_de_processamento_exemplo :
  0 <= 1 < 3
  /\ pagina_0_invalida_depois
     = (Return (Continue, registros_pagina_0), 1%nat, snd pagina_0_invalida_depois)
  /\ List.length registros_pagina_0 = 100%nat
  /\ buscar_processos (lib := lib_exemplo) (tr := tr_invalida_depois)
       "LOCAR" "354" "tjpe" 3 None 0%nat
     = (Raise AttributeError, 2%nat,
        snd pagina_0_invalida_depois
        ++ [ EvPost (endpoint_de "tjpe") (request_body "LOCAR" "354" 1) (Dados (JList [])) ]).
Proof.
  assert (Hk : 0 <= 1 < 3) by lia.
  assert (Hrun : pagina_0_invalida_depois
                 = (Return (Continue, registros_pagina_0), 1%nat,
                    snd pagina_0_invalida_depois)).
  { vm_compute. reflexivity. }
  split; [exact Hk|]. split; [exact Hrun|]. split; [vm_compute; reflexivity|].
  exact (proj1 (erro_de_processamento_aborta (lib := lib_exemplo) (tr := tr_invalida_depois)
                  "LOCAR" "354" "tjpe" 3 1 None 0%nat 1%nat 2%nat registros_pagina_0
                  (snd pagina_0_invalida_depois) (JList []) AttributeError
                  Hk Hrun eq_refl eq_refl)).
Defined.

Lemma sem_paginas_exemplo :
  -1 <= 0
  /\ for_tribunais (lib := lib_exemplo) (tr := tr_cheio) "LOCAR" "354" (-1) None
       ["tjpe"; " TJBA "] [] tt
     = (Return [], tt,
        [ EvConsultando "TJPE"; EvEncontrados 0; EvConsultando "TJBA"; EvEncontrados 0 ]).
Proof.
  assert (H : -1 <= 0) by lia.
  split; [exact H|].
  exact (sem_paginas_sem_pedidos (lib := lib_exemplo) (tr := tr_cheio) "LOCAR" "354" (-1) None
           ["tjpe"; " TJBA "] [] tt H).
Defined.

Lemma selftest_exemplo :
  arg_selftest args_selftest = true
  /\ main (lib := lib_exemplo) (tr := tr_tribunais) args_selftest tt
     = (Return gerar_dados_teste, tt, []).
Proof.
  split; [reflexivity|].
  exact (proj2 (proj2 (proj2 (selftest_sem_rede (lib := lib_exemplo) (tr := tr_tribunais)
                                args_selftest tt eq_refl)))
           (fromisoformat_ymd "2024-01-01") [] eq_refl).
Defined.

Lemma entradas_obrigatorias_exemplo :
  arg_selftest (args_exemplo [] None None) = false
  /\ arg_tribunais (args_exemplo [] None None) = []
  /\ main (lib := lib_exemplo) (tr := tr_tribunais) (args_exemplo [] None None) tt
     = (Raise (SystemExit 2), tt, [EvParserError]).
Proof.
  split; [reflexivity|]. split; [reflexivity|].
  exact (proj2 (proj2 (proj2 (entradas_obrigatorias (lib := lib_exemplo) (tr := tr_tribunais)
                                (args_exemplo [] None None) tt eq_refl
                                (or_intror (or_intror eq_refl)))))
           None [] eq_refl).
Defined.

Lemma desde_tem_precedencia_exemplo :
  arg_desde (args_exemplo ["tjba"] (Some "2021-02-04") (Some 30)) = Some "2021-02-04"
  /\ fromisoformat_ymd "2021-02-04" = Some 737825
  /\ main (lib := lib_exemplo) (tr := tr_tribunais)
       (args_exemplo ["tjba"] (Some "2021-02-04") (Some 30)) tt
     = executar (lib := lib_exemplo) (tr := tr_tribunais)
         (args_exemplo ["tjba"] (Some "2021-02-04") (Some 30)) (Some 737825) tt.
Proof.
  split; [reflexivity|]. split; [reflexivity|].
  apply (desde_tem_precedencia (lib := lib_exemplo) (tr := tr_tribunais)
           (args_exemplo ["tjba"] (Some "2021-02-04") (Some 30)) tt "2021-02-04" 737825
           eq_refl eq_refl).
  discriminate.
Defined.

Lemma since_days_negativo_exemplo :
  arg_since_days (args_exemplo ["tjba"] None (Some (-5))) = Some (-5)
  /\ main (lib := lib_exemplo) (tr := tr_tribunais)
       (args_exemplo ["tjba"] None (Some (-5))) tt
     = executar (lib := lib_exemplo) (tr := tr_tribunais)
         (args_exemplo ["tjba"] None (Some (-5))) (Some 739928) tt
  /\ processar_hit (lib := lib_exemplo) "tjba" (Some 739928)
       (hit_de "0001" (JStr "2026-11-03") []) = Return None.
Proof.
  assert (Hn : -5 < 0) by lia.
  assert (Hmin : MINORD <= hoje (PyLib := lib_exemplo)) by (vm_compute; discriminate).
  assert (Hmax : hoje (PyLib := lib_exemplo) - -5 <= MAXORD) by (vm_compute; discriminate).
  destruct (since_days_negativo (lib := lib_exemplo) (tr := tr_tribunais)
              (args_exemplo ["tjba"] None (Some (-5))) tt (-5) eq_refl eq_refl Hn Hmin Hmax)
    as [Hmain Hhit].
  split; [reflexivity|]. split; [exact Hmain|].
  apply (Hhit "tjba" (hit_de "0001" (JStr "2026-11-03") []) 739923); [reflexivity|].
  vm_compute. discriminate.
Defined.

(** Two records with different numbers, one with the status 3 and one
    with none: both come out, the status a float and nan. *)
Lemma deduplicar_sem_duplicados_exemplo :
  DataFrame (lib := lib_exemplo) [ processo (JStr "0001") (JNum 3); processo (JStr "0002") JNull ]
  = Return [ processo (JStr "0001") (JFloat tres); processo (JStr "0002") (JFloat FNan) ]
  /\ sem_repetidos [ processo (JStr "0001") (JFloat tres); processo (JStr "0002") (JFloat FNan) ]
     = true
  /\ deduplicar (lib := lib_exemplo)
       [ processo (JStr "0001") (JNum 3); processo (JStr "0002") JNull ]
     = Return [ processo (JStr "0001") (JFloat tres); processo (JStr "0002") (JFloat FNan) ].
Proof.
  assert (Hdf : DataFrame (lib := lib_exemplo)
                  [ processo (JStr "0001") (JNum 3); processo (JStr "0002") JNull ]
                = Return [ processo (JStr "0001") (JFloat tres);
                           processo (JStr "0002") (JFloat FNan) ]).
  { vm_compute. reflexivity. }
  split; [exact Hdf|]. split; [reflexivity|].
  apply (deduplicar_sem_duplicados (lib := lib_exemplo) _ _ Hdf); [reflexivity|].
  apply sem_repetidos_ok. reflexivity.
Defined.

Lemma deduplicar_idempotente_exemplo :
  estaveis (gerar_dados_teste ++ gerar_dados_teste) = true
  /\ deduplicar (lib := lib_exemplo) (gerar_dados_teste ++ gerar_dados_teste)
     = Return gerar_dados_teste
  /\ deduplicar (lib := lib_exemplo) gerar_dados_teste = Return gerar_dados_teste.
Proof.
  assert (H : deduplicar (lib := lib_exemplo) (gerar_dados_teste ++ gerar_dados_teste)
              = Return gerar_dados_teste).
  { vm_compute. reflexivity. }
  split; [reflexivity|]. split; [exact H|].
  exact (proj2 (deduplicar_idempotente (lib := lib_exemplo)
                  (gerar_dados_teste ++ gerar_dados_teste) gerar_dados_teste eq_refl H)).
Defined.

(** The dtype of some columns. *)
Example dtypes_de_colunas :
  maybe_convert_objects (lib := lib_exemplo) [JNum 3; JNull] = Return DFloat
  /\ maybe_convert_objects (lib := lib_exemplo) [JNum 3; JNum 4] = Return DInt
  /\ maybe_convert_objects (lib := lib_exemplo) [JNum 3; JFloat tres] = Return DFloat
  /\ maybe_convert_objects (lib := lib_exemplo) [JBool true; JBool false] = Return DBool
  /\ maybe_convert_objects (lib := lib_exemplo) [JBool true; JNull] = Return DObject
  /\ maybe_convert_objects (lib := lib_exemplo) [JBool true; JNum 1] = Return DObject
  /\ maybe_convert_objects (lib := lib_exemplo) [JNull; JNull] = Return DObject
  /\ maybe_convert_objects (lib := lib_exemplo) [JNum 3; JStr "a"; JNull] = Return DObject
  /\ maybe_convert_objects (lib := lib_exemplo) [JStr "a"; JNull] = Return DObject
  /\ maybe_convert_objects (lib := lib_pandas_3) [JStr "a"; JNull] = Return DStr
  /\ maybe_convert_objects (lib := lib_pandas_3) [JStr "a"; JNum 3] = Return DObject.
Proof. repeat split; vm_compute; reflexivity. Qed.

(** In general the step is not idempotent.  Of three records, the
    third a repeat of the first with a str as status, the first two come
    out as they are, as the column of the status is one of objects; put
    through the step again, their column holds but an int and a [None]
    and comes back as floats. *)
Example deduplicar_nao_idempotente :
  deduplicar (lib := lib_exemplo)
    [ processo (JStr "0001") (JNum 3); processo (JStr "0002") JNull;
      processo (JStr "0001") (JStr "a") ]
  = Return [ processo (JStr "0001") (JNum 3); processo (JStr "0002") JNull ]
  /\ deduplicar (lib := lib_exemplo)
       [ processo (JStr "0001") (JNum 3); processo (JStr "0002") JNull ]
     = Return [ processo (JStr "0001") (JFloat tres); processo (JStr "0002") (JFloat FNan) ].
Proof. split; vm_compute; reflexivity. Qed.

(** The key column is converted too.  Beside a missing number, the
    numbers 2^53 and 2^53 + 1 are the same double, and the second
    record is dropped; without the missing number both are kept. *)
Example numeros_grandes :
  deduplicar (lib := lib_exemplo)
    [ processo (JNum (2 ^ 53)) (JStr "a"); processo (JNum (2 ^ 53 + 1)) (JStr "b");
      processo JNull (JStr "c") ]
  = Return [ processo (JFloat dois_53) (JStr "a"); processo (JFloat FNan) (JStr "c") ]
  /\ deduplicar (lib := lib_exemplo)
       [ processo (JNum (2 ^ 53)) (JStr "a"); processo (JNum (2 ^ 53 + 1)) (JStr "b") ]
     = Return [ processo (JNum (2 ^ 53)) (JStr "a"); processo (JNum (2 ^ 53 + 1)) (JStr "b") ].
Proof. split; vm_compute; reflexivity. Qed.

(** Cells of different types with the same value are one key, and so
    are the missing values; a list as a number cannot be hashed. *)
Example chaves_de_tipos_diferentes :
  deduplicar (lib := lib_exemplo)
    [ processo (JBool true) (JStr "a"); processo (JNum 1) (JStr "b");
      processo (JStr "1") (JStr "c"); processo JNull (JStr "d");
      processo (JFloat FNan) (JStr "e") ]
  = Return [ processo (JBool true) (JStr "a"); processo (JStr "1") (JStr "c");
             processo JNull (JStr "d") ]
  /\ deduplicar (lib := lib_exemplo) [ processo (JList []) (JStr "a") ] = Raise TypeError.
Proof. split; vm_compute; reflexivity. Qed.

(** With [infer_string] a missing value in a column of str comes back
    as nan; without it, as [None]. *)
Example coluna_de_texto :
  deduplicar (lib := lib_pandas_3)
    [ processo (JStr "0001") (JStr "Ativo"); processo (JStr "0002") JNull ]
  = Return [ processo (JStr "0001") (JStr "Ativo"); processo (JStr "0002") (JFloat FNan) ]
  /\ deduplicar (lib := lib_exemplo)
       [ processo (JStr "0001") (JStr "Ativo"); processo (JStr "0002") JNull ]
     = Return [ processo (JStr "0001") (JStr "Ativo"); processo (JStr "0002") JNull ].
Proof. split; vm_compute; reflexivity. Qed.

Lemma parse_date_exemplo :
  so_ascii "2021-02-03" = true
  /\ String.length "2021-02-03" = 10%nat
  /\ comeca_em_caractere "T10:00:00.000Z" = true
  /\ parse_date (lib := lib_exemplo) (JStr "2021-02-03T10:00:00.000Z") = Some 737824.
Proof.
  split; [reflexivity|]. split; [reflexivity|]. split; [reflexivity|].
  exact (parse_date_ignora_resto (lib := lib_exemplo) "2021-02-03" "T10:00:00.000Z"
           eq_refl eq_refl eq_refl).
Defined.

Lemma movimento_invalido_exemplo :
  forallb wf_movimento log_invalido = false
  /\ extrair_prazos (lib := lib_exemplo) (JList log_invalido) = Raise AttributeError
  /\ processar_hit (lib := lib_exemplo) "tjpe" None (hit_de "0009" JNull log_invalido)
     = Raise AttributeError.
Proof.
  destruct (movimento_invalido_falha (lib := lib_exemplo) log_invalido eq_refl)
    as (Hp & _ & Hhit).
  split; [reflexivity|]. split; [exact Hp|].
  apply (Hhit "tjpe" (hit_de "0009" JNull log_invalido)
           [ ("numeroProcesso", JStr "0009"); ("dataDistribuicao", JNull);
             ("movimentos", JList log_invalido) ]); reflexivity.
Defined.

(** With the PDF writer failing, the report is written as text beside
    the path of [--pdf], and the run goes on. *)
Example fallback_para_txt :
  main_exportar (lib := lib_exemplo) (dest := dest_exemplo [Pdf] true)
    (so_pdf "saida.v2/locar.2024.pdf" false) gerar_dados_teste []
  = (Ok tt,
     [ (Txt, "saida.v2/locar.2024.txt", Texto (conteudo_txt (lib := lib_exemplo) gerar_dados_teste)) ],
     [ SvGravar Pdf "saida.v2/locar.2024.pdf"
         (Celulas (map (celulas_pdf (lib := lib_exemplo)) gerar_dados_teste))
         (Some "No space left on device");
       SvWarnPdf "No space left on device";
       SvGravar Txt "saida.v2/locar.2024.txt"
         (Texto (conteudo_txt (lib := lib_exemplo) gerar_dados_teste)) None;
       SvGerado Txt "saida.v2/locar.2024.txt" ]).
Proof. vm_compute. reflexivity. Qed.

Lemma pdf_com_no_pdf_exemplo :
  opt_truthy (arg_pdf (so_pdf "locar.pdf" true)) = true
  /\ arg_no_pdf (so_pdf "locar.pdf" true) = true
  /\ main_exportar (lib := lib_exemplo) (dest := dest_exemplo [] true)
       (so_pdf "locar.pdf" true) gerar_dados_teste []
     = (Ok tt, [], []).
Proof.
  split; [reflexivity|]. split; [reflexivity|].
  exact (pdf_com_no_pdf (lib := lib_exemplo) (dest := dest_exemplo [] true)
           (so_pdf "locar.pdf" true) gerar_dados_teste []
           eq_refl eq_refl eq_refl eq_refl eq_refl).
Defined.

Lemma pdf_nunca_aborta_exemplo :
  fst (gravar (Destinos := dest_exemplo [Pdf] true) [] Pdf "locar.pdf" (Celulas []))
  = Some "No space left on device"
  /\ fst (fst (main_exportar (lib := lib_exemplo) (dest := dest_exemplo [Pdf] true)
                 (saidas_exemplo (Some "locar.csv") (Some "locar.pdf") false)
                 gerar_dados_teste []))
     = Ok tt
  /\ relatorio_gravado
       (snd (main_exportar (lib := lib_exemplo) (dest := dest_exemplo [Pdf] true)
               (saidas_exemplo (Some "locar.csv") (Some "locar.pdf") false)
               gerar_dados_teste []))
     = true.
Proof.
  assert (H : forall fs f c x,
             f <> Pdf -> fst (gravar (Destinos := dest_exemplo [Pdf] true) fs f c x) = None).
  { intros fs f c x Hf. destruct f; try reflexivity. now elim Hf. }
  destruct (pdf_nunca_aborta (lib := lib_exemplo) (dest := dest_exemplo [Pdf] true)
              (saidas_exemplo (Some "locar.csv") (Some "locar.pdf") false)
              gerar_dados_teste [] H) as [Hok Hrel].
  split; [reflexivity|]. split; [exact Hok|].
  exact (Hrel eq_refl eq_refl).
Defined.

Lemma falha_de_gravacao_exemplo :
  fst (fst (main_exportar (lib := lib_exemplo) (dest := dest_exemplo [Csv] true)
              (saidas_exemplo (Some "locar.csv") (Some "locar.pdf") false)
              gerar_dados_teste []))
  = Erro "No space left on device"
  /\ exists evs f c x,
       snd (main_exportar (lib := lib_exemplo) (dest := dest_exemplo [Csv] true)
              (saidas_exemplo (Some "locar.csv") (Some "locar.pdf") false)
              gerar_dados_teste [])
       = evs ++ [SvGravar f c x (Some "No space left on device")]
       /\ f <> Pdf.
Proof.
  assert (H : fst (fst (main_exportar (lib := lib_exemplo) (dest := dest_exemplo [Csv] true)
                          (saidas_exemplo (Some "locar.csv") (Some "locar.pdf") false)
                          gerar_dados_teste []))
              = Erro "No space left on device").
  { vm_compute. reflexivity. }
  split; [exact H|].
  exact (falha_de_gravacao (lib := lib_exemplo) (dest := dest_exemplo [Csv] true)
           (saidas_exemplo (Some "locar.csv") (Some "locar.pdf") false)
           gerar_dados_teste [] "No space left on device" H).
Defined.

(** The CSV writer failing leaves the Excel file written and the PDF
    not attempted. *)
Example falha_no_csv :
  main_exportar (lib := lib_exemplo) (dest := dest_exemplo [Csv] true)
    (saidas_exemplo (Some "locar.csv") (Some "locar.pdf") false) gerar_dados_teste []
  = (Erro "No space left on device",
     [ (Excel, "locar.xlsx", Tabela gerar_dados_teste) ],
     [ SvGravar Excel "locar.xlsx" (Tabela gerar_dados_teste) None;
       SvGerado Excel "locar.xlsx";
       SvGravar Csv "locar.csv" (Tabela gerar_dados_teste) (Some "No space left on device") ]).
Proof. vm_compute. reflexivity. Qed.

Lemma relatorio_txt_numerado_exemplo :
  exists r,
    nth_error gerar_dados_teste 1 = Some r
    /\ conteudo_txt (lib := lib_exemplo) gerar_dados_teste
       = conteudo_txt (lib := lib_exemplo) (firstn 1 gerar_dados_teste)
         +++ bloco_txt (lib := lib_exemplo) 2 r
         +++ blocos_txt (lib := lib_exemplo) 3 (skipn 2 gerar_dados_teste).
Proof.
  eexists. split; [reflexivity|].
  exact (relatorio_txt_numerado (lib := lib_exemplo) gerar_dados_teste 1 _ eq_refl).
Defined.

Lemma relatorio_sem_movimentos_exemplo :
  exists r,
    montar_registro (lib := lib_exemplo) "tjpe" (JDict fonte_sem_movimentos) = Return r
    /\ skipn 10 (celulas_pdf (lib := lib_exemplo) r)
       = [ "qtd_movimentos: -"; "prazos_relevantes: -"; "resumo_decisao: -";
           "fase_execucao: Não" ].
Proof.
  eexists. split; [vm_compute; reflexivity|].
  exact (proj2 (relatorio_sem_movimentos (lib := lib_exemplo) "tjpe" fonte_sem_movimentos
                  _ 1 eq_refl eq_refl)).
Defined.
